(** * BGRate.py: run conditions, rate-calculator request and CSV export

    A shallow embedding of [BGRate.py] (Python 2).  The script reads its
    command line with [argparse], queries the run-conditions database for
    a range of runs, asks the coherent-bremsstrahlung rate calculator for
    one number per run and writes a CSV file.

    How the program is modelled:
    - Python values are a tagged union ([pyval]); strings are byte
      strings ([string]).
    - Python's [float] is IEEE binary64, given by the Standard Library's
      [SpecFloat] with [prec = 53] and [emax = 1024]; [float(s)] and
      ['%g' % x] are written out with exact integer arithmetic, as
      correctly rounded conversions.
    - An exception is an error result ([Raise]); a computation with
      effects returns its result together with the state it has reached,
      so what was written before an exception stays written.
    - The state ([world]) is the file system, a finite map from file
      names to contents, and the list of the requests sent.  Every file
      name can be opened for writing.
    - The conditions database and the web server are read-only
      parameters of a run ([environment]); each may answer with an
      exception.
    - The command line is given as the text of each option that is
      present ([cmdline]); how [argparse] finds the options in [argv] is
      not modelled. *)

From Stdlib Require Import ZArith String Ascii List Bool Lia SpecFloat.
From Stdlib Require Import DecimalString.
From Stdlib Require DecimalN DecimalPos.
From stdpp Require Import gmap strings.
Import ListNotations.

Local Open Scope string_scope.
Local Open Scope Z_scope.

(* stdpp keeps [append] folded; the proofs below compute with it. *)
#[local] Arguments String.append !s1 s2 : simpl nomatch.

(** ** Characters and byte strings *)

Definition code (c : ascii) : N := N_of_ascii c.

(** C's [isspace] in the "C" locale, which is CPython's [Py_ISSPACE]. *)
Definition is_space (c : ascii) : bool :=
  ((9 <=? code c)%N && (code c <=? 13)%N) || (code c =? 32)%N.

Definition is_digit (c : ascii) : bool :=
  (48 <=? code c)%N && (code c <=? 57)%N.

Definition is_upper (c : ascii) : bool :=
  (65 <=? code c)%N && (code c <=? 90)%N.

Definition is_lower (c : ascii) : bool :=
  (97 <=? code c)%N && (code c <=? 122)%N.

(** [Py_TOLOWER] *)
Definition to_lower (c : ascii) : ascii :=
  if is_upper c then ascii_of_N (code c + 32) else c.

Definition digit_val (c : ascii) : Z := Z.of_N (code c) - 48.

Fixpoint str_all (p : ascii -> bool) (s : string) : bool :=
  match s with
  | EmptyString => true
  | String c s' => p c && str_all p s'
  end.

Fixpoint str_mem (c : ascii) (s : string) : bool :=
  match s with
  | EmptyString => false
  | String d s' => Ascii.eqb c d || str_mem c s'
  end.

Definition is_empty (s : string) : bool :=
  match s with EmptyString => true | _ => false end.

(** Whether the string starts with a character of the class [p]. *)
Definition starts_in (p : ascii -> bool) (s : string) : bool :=
  match s with
  | EmptyString => false
  | String c _ => p c
  end.

(** Whether the last character of [s] is in the class [p]. *)
Fixpoint last_in (p : ascii -> bool) (s : string) : bool :=
  match s with
  | EmptyString => false
  | String c EmptyString => p c
  | String _ s' => last_in p s'
  end.

(** The longest prefix made of characters of the class, and the rest. *)
Fixpoint span (p : ascii -> bool) (s : string) : string * string :=
  match s with
  | EmptyString => (EmptyString, EmptyString)
  | String c s' =>
      if p c then let '(a, b) := span p s' in (String c a, b)
      else (EmptyString, s)
  end.

(** [s.lstrip(chars)] and [s.rstrip(chars)]: [chars] is a set of
    characters, not a suffix. *)
Fixpoint lstrip_class (p : ascii -> bool) (s : string) : string :=
  match s with
  | EmptyString => EmptyString
  | String c s' => if p c then lstrip_class p s' else s
  end.

Fixpoint rstrip_class (p : ascii -> bool) (s : string) : string :=
  match s with
  | EmptyString => EmptyString
  | String c s' =>
      let r := rstrip_class p s' in
      if is_empty r && p c then EmptyString else String c r
  end.

Definition rstrip (chars : string) (s : string) : string :=
  rstrip_class (fun c => str_mem c chars) s.

Definition strip_space (s : string) : string :=
  rstrip_class is_space (lstrip_class is_space s).

(** The value of a string of decimal digits, most significant first. *)
Fixpoint digits_val_acc (acc : Z) (s : string) : Z :=
  match s with
  | EmptyString => acc
  | String c s' => digits_val_acc (10 * acc + digit_val c) s'
  end.

Definition digits_val (s : string) : Z := digits_val_acc 0 s.

Fixpoint zeros (n : nat) : string :=
  match n with
  | O => EmptyString
  | S n' => String "0" (zeros n')
  end.

(** Decimal digits of a natural number given as [Z], no sign. *)
Definition dec_digits (n : Z) : string :=
  NilZero.string_of_uint (N.to_uint (Z.to_N n)).

Definition string_of_Z (n : Z) : string :=
  if n <? 0 then String "-" (dec_digits (- n)) else dec_digits n.

(** [line.split(sep)] for a one-character separator. *)
Fixpoint split_on (sep : ascii) (s : string) : list string :=
  match s with
  | EmptyString => [EmptyString]
  | String c s' =>
      if Ascii.eqb c sep then EmptyString :: split_on sep s'
      else match split_on sep s' with
           | f :: fs => String c f :: fs
           | [] => [String c EmptyString]
           end
  end.

Fixpoint count_char (c : ascii) (s : string) : nat :=
  match s with
  | EmptyString => O
  | String d s' => (if Ascii.eqb d c then 1 else 0) + count_char c s'
  end.

(** ** Exceptions *)

Inductive exn : Set :=
  | TypeError
  | ValueError
  | AttributeError
  | IndexError
  | OverflowError
  | URLError
  | DatabaseError.

Inductive result (A : Type) : Type :=
  | Ok (a : A)
  | Raise (e : exn).
Arguments Ok {A} a.
Arguments Raise {A} e.

Definition rbind {A B} (r : result A) (k : A -> result B) : result B :=
  match r with
  | Ok a => k a
  | Raise e => Raise e
  end.

Definition is_ok {A} (r : result A) : bool :=
  match r with Ok _ => true | Raise _ => false end.

(** ** Binary64 *)

Definition prec : Z := 53.
Definition emax : Z := 1024.

Abbreviation float := spec_float.

Definition fmul (x y : float) : float := SFmul prec emax x y.

(** The binary64 nearest to [m * 10 ^ e10] (ties to even), with the sign
    [neg]; this is what a correctly rounded [strtod] returns for the
    decimal digits [m] and the decimal exponent [e10]. *)
Definition float_of_decimal (neg : bool) (m : Z) (e10 : Z) : float :=
  match m with
  | Z0 => S754_zero neg
  | Zpos p =>
      if 0 <=? e10 then
        binary_normalize prec emax (cond_Zopp neg (Zpos p * 10 ^ e10)) 0 neg
      else
        let '(mz, ez, lz) :=
          SFdiv_core_binary prec emax (Zpos p) 0 (10 ^ (- e10)) 0 in
        binary_round_aux prec emax neg mz ez lz
  | Zneg _ => S754_nan
  end.

(** [10**(-k)] for a positive [int] [k]: Python 2 computes the float
    [pow(10.0, -k)], which for the exponents used here (3, 6, 9) is the
    binary64 nearest to the decimal value. *)
Definition pow10_neg (k : Z) : float := float_of_decimal false 1 (- k).

(** [float(n)] for an [int] or [long]: nearest binary64, and an
    [OverflowError] beyond the largest finite one. *)
Definition float_of_int (n : Z) : result float :=
  match binary_normalize prec emax n 0 false with
  | S754_infinity _ => Raise OverflowError
  | f => Ok f
  end.

(** *** Reading a float: [float(s)] for a [str] *)

Definition parse_sign (s : string) : bool * string :=
  match s with
  | String c s' =>
      if Ascii.eqb c "-" then (true, s')
      else if Ascii.eqb c "+" then (false, s')
      else (false, s)
  | EmptyString => (false, s)
  end.

(** The exponent part [e|E [+|-] digits]; when no digit follows, nothing
    is consumed. *)
Definition parse_exponent (s : string) : Z * string :=
  match s with
  | String c s1 =>
      if Ascii.eqb (to_lower c) "e" then
        let '(neg, s2) := parse_sign s1 in
        let '(ds, s3) := span is_digit s2 in
        if is_empty ds then (0, s) else (cond_Zopp neg (digits_val ds), s3)
      else (0, s)
  | EmptyString => (0, s)
  end.

(** The decimal part of [strtod]: sign, digits, optional point and
    digits (at least one digit in all), optional exponent.  Returns the
    value and the text that was not consumed. *)
Definition parse_decimal (s : string) : option (float * string) :=
  let '(neg, s1) := parse_sign s in
  let '(ip, s2) := span is_digit s1 in
  let '(fp, s3) :=
    match s2 with
    | String c s2' =>
        if Ascii.eqb c "." then span is_digit s2' else (EmptyString, s2)
    | EmptyString => (EmptyString, s2)
    end in
  if is_empty ip && is_empty fp then None
  else
    let '(ex, s4) := parse_exponent s3 in
    Some (float_of_decimal neg (digits_val (ip ++ fp))
            (ex - Z.of_nat (String.length fp)), s4).

(** Whether [s] starts with [t], comparing lower-cased characters of [s]
    to [t]; returns the rest. *)
Fixpoint ci_prefix (t s : string) : option string :=
  match t, s with
  | EmptyString, _ => Some s
  | String a t', String c s' =>
      if Ascii.eqb (to_lower c) a then ci_prefix t' s' else None
  | String _ _, EmptyString => None
  end.

(** [_Py_parse_inf_or_nan] *)
Definition parse_inf_or_nan (s : string) : option (float * string) :=
  let '(neg, s1) := parse_sign s in
  match ci_prefix "inf" s1 with
  | Some s2 =>
      match ci_prefix "inity" s2 with
      | Some s3 => Some (S754_infinity neg, s3)
      | None => Some (S754_infinity neg, s2)
      end
  | None =>
      match ci_prefix "nan" s1 with
      | Some s2 => Some (S754_nan, s2)
      | None => None
      end
  end.

Definition parse_float (s : string) : option (float * string) :=
  match parse_decimal s with
  | Some r => Some r
  | None => parse_inf_or_nan s
  end.

(** [float(s)]: white space around the literal is ignored, and the
    literal has to be the whole of what is left. *)
Definition float_of_string (s : string) : result float :=
  match parse_float (strip_space s) with
  | Some (x, EmptyString) => Ok x
  | _ => Raise ValueError
  end.

(** *** Writing a float: ['%g' % x] and [str(x)]

    CPython's [format_float_short] for the format code ['g']: David
    Gay's [dtoa] in mode 2 gives the correctly rounded [precision]
    significant decimal digits without trailing zeros and the position
    [decpt] of the decimal point; the digits are then laid out in fixed
    or in exponent form.  The exponent form is taken when [decpt] is
    at most -4 or above the precision; when [".0"] is to be added to
    an integer ([str]), already when [decpt] is above the precision
    minus one, so that [str(1e11)] is ["1e+11"]. *)

Definition round_half_even (a b : Z) : Z :=
  let q := a / b in
  match 2 * (a mod b) ?= b with
  | Lt => q
  | Gt => q + 1
  | Eq => if Z.even q then q else q + 1
  end.

(** The fraction [a / b] times [10 ^ j]. *)
Definition scale10 (a b j : Z) : Z * Z :=
  if 0 <=? j then (a * 10 ^ j, b) else (a, b * 10 ^ (- j)).

Definition ndigits10 (n : Z) : Z := Z.of_nat (String.length (dec_digits n)).

(** For [0 < a] and [0 < b], the [k] with [10^(k-1) <= a/b < 10^k]. *)
Definition decimal_point (a b : Z) : Z :=
  let k0 := ndigits10 a - ndigits10 b in
  let '(a', b') := scale10 a b (- k0) in
  if b' <=? a' then k0 + 1 else k0.

Definition is_zero_char (c : ascii) : bool := Ascii.eqb c "0".

Definition dtoa_digits (ndigits : Z) (a b : Z) : string * Z :=
  let k := decimal_point a b in
  let '(a', b') := scale10 a b (ndigits - k) in
  let n := round_half_even a' b' in
  let '(n', k') :=
    if n =? 10 ^ ndigits then (10 ^ (ndigits - 1), k + 1) else (n, k) in
  (rstrip_class is_zero_char (dec_digits n'), k').

(** The exact value [m * 2 ^ e] as a fraction. *)
Definition float_fraction (m : positive) (e : Z) : Z * Z :=
  if 0 <=? e then (Zpos m * 2 ^ e, 1) else (Zpos m, 2 ^ (- e)).

(** C's ["%+.02d"] *)
Definition exp_str (e : Z) : string :=
  let d := dec_digits (Z.abs e) in
  (if e <? 0 then "-" else "+") ++
  (if (String.length d <? 2)%nat then String "0" d else d).

Definition str_take (n : nat) (s : string) : string := String.substring 0 n s.

Fixpoint str_drop (n : nat) (s : string) : string :=
  match n, s with
  | O, _ => s
  | S n', String _ s' => str_drop n' s'
  | S _, EmptyString => EmptyString
  end.

Definition layout (precision : Z) (add_dot_0 : bool)
    (digits : string) (decpt : Z) : string :=
  let n := Z.of_nat (String.length digits) in
  if (decpt <=? -4) ||
     ((if add_dot_0 then precision - 1 else precision) <? decpt) then
    match digits with
    | EmptyString => EmptyString
    | String d EmptyString => String d EmptyString
    | String d rest => String d (String "." rest)
    end ++ String "e" (exp_str (decpt - 1))
  else if decpt <=? 0 then
    "0." ++ zeros (Z.to_nat (- decpt)) ++ digits
  else if decpt <? n then
    str_take (Z.to_nat decpt) digits ++
    String "." (str_drop (Z.to_nat decpt) digits)
  else
    digits ++ zeros (Z.to_nat (decpt - n)) ++
    (if add_dot_0 then ".0" else "").

Definition sign_str (neg : bool) : string := if neg then "-" else "".

Definition format_float_short (precision : Z) (add_dot_0 : bool)
    (x : float) : string :=
  match x with
  | S754_nan => "nan"
  | S754_infinity s => sign_str s ++ "inf"
  | S754_zero s => sign_str s ++ layout precision add_dot_0 "0" 1
  | S754_finite s m e =>
      let '(a, b) := float_fraction m e in
      let '(digits, decpt) := dtoa_digits precision a b in
      sign_str s ++ layout precision add_dot_0 digits decpt
  end.

(** ['%g' % x] for a float [x] *)
Definition format_g (x : float) : string := format_float_short 6 false x.

(** [str(x)] for a float [x]: twelve significant digits, and [".0"]
    added to what would look like an integer. *)
Definition float_str (x : float) : string := format_float_short 12 true x.

(** The integer part of a finite float (towards zero). *)
Definition float_trunc (x : float) : option Z :=
  match x with
  | S754_zero _ => Some 0
  | S754_finite s m e =>
      Some (cond_Zopp s (if 0 <=? e then Zpos m * 2 ^ e
                         else Zpos m / 2 ^ (- e)))
  | _ => None
  end.

(** A float literal of the source text. *)
Definition float_lit (s : string) : float :=
  match float_of_string s with
  | Ok x => x
  | Raise _ => S754_nan
  end.

(** ** Python values

    The values this script handles: [None], [int]/[long], [float] and
    [str] (what [argparse] stores and what the database returns). *)

Inductive pyval : Type :=
  | PyNone
  | PyInt (n : Z)
  | PyFloat (x : float)
  | PyStr (s : string).

(** [str(v)] *)
Definition py_str (v : pyval) : string :=
  match v with
  | PyNone => "None"
  | PyInt n => string_of_Z n
  | PyFloat x => float_str x
  | PyStr s => s
  end.

(** The float a ['%g'] conversion takes from its argument
    ([PyFloat_AsDouble]); every failure is reported as a [TypeError]
    ("float argument required"). *)
Definition float_arg (v : pyval) : result float :=
  match v with
  | PyFloat x => Ok x
  | PyInt n =>
      match float_of_int n with
      | Ok x => Ok x
      | Raise _ => Raise TypeError
      end
  | PyNone | PyStr _ => Raise TypeError
  end.

(** ['%g' % v] *)
Definition fmt_g (v : pyval) : result string :=
  rbind (float_arg v) (fun x => Ok (format_g x)).

(** ['%i' % v]: an integer is printed in decimal, a float is truncated
    first, anything else is a [TypeError] ("a number is required"). *)
Definition fmt_i (v : pyval) : result string :=
  match v with
  | PyInt n => Ok (string_of_Z n)
  | PyFloat x =>
      match float_trunc x with
      | Some n => Ok (string_of_Z n)
      | None => Raise TypeError
      end
  | PyNone | PyStr _ => Raise TypeError
  end.

(** The left operand of [v * f] for a float [f]: a float as it is, an
    integer converted to float (an [OverflowError] when it is too
    large); [None] and strings cannot be multiplied by a float. *)
Definition float_operand (v : pyval) : result float :=
  match v with
  | PyFloat x => Ok x
  | PyInt n => float_of_int n
  | PyNone | PyStr _ => Raise TypeError
  end.

(** [v * f] for a float [f] *)
Definition py_mul_float (v : pyval) (f : float) : result float :=
  rbind (float_operand v) (fun x => Ok (fmul x f)).

(** [v.rstrip(chars)] *)
Definition py_rstrip (v : pyval) (chars : string) : result string :=
  match v with
  | PyStr s => Ok (rstrip chars s)
  | _ => Raise AttributeError
  end.

(** [int(s)] for a [str] in base 10 (CPython 2's [PyInt_FromString]):
    white space around the number and between the sign and the digits
    is skipped. *)
Definition int_of_string (s : string) : result Z :=
  let '(neg, s1) := parse_sign (lstrip_class is_space s) in
  let '(ds, s2) := span is_digit (lstrip_class is_space s1) in
  if is_empty ds then Raise ValueError
  else if is_empty (lstrip_class is_space s2)
       then Ok (cond_Zopp neg (digits_val ds))
       else Raise ValueError.

(** [int(v)] *)
Definition py_int (v : pyval) : result Z :=
  match v with
  | PyInt n => Ok n
  | PyStr s => int_of_string s
  | PyFloat x =>
      match x, float_trunc x with
      | _, Some n => Ok n
      | S754_nan, None => Raise ValueError
      | _, None => Raise OverflowError
      end
  | PyNone => Raise TypeError
  end.

(** [s + v] for a [str] [s] *)
Definition py_concat (s : string) (v : pyval) : result string :=
  match v with
  | PyStr t => Ok (s ++ t)
  | _ => Raise TypeError
  end.

(** [table[i]] *)
Definition py_index (table : list pyval) (i : nat) : result pyval :=
  match nth_error table i with
  | Some v => Ok v
  | None => Raise IndexError
  end.

(** ** Regular expressions

    The two patterns of the script are sequences of literal text,
    [[...]+] and one capturing group [([...]+)].  [search] is Python's
    [re.search]: the leftmost match, each [+] greedy with backtracking;
    it returns the text of group 1. *)

Inductive cset_item : Set :=
  | Range (lo hi : ascii)
  | One (c : ascii).

Definition in_item (c : ascii) (i : cset_item) : bool :=
  match i with
  | Range lo hi => (code lo <=? code c)%N && (code c <=? code hi)%N
  | One d => Ascii.eqb c d
  end.

Definition in_class (cls : list cset_item) (c : ascii) : bool :=
  existsb (in_item c) cls.

Inductive atom : Set :=
  | Lit (t : string)
  | Plus (cls : list cset_item)
  | Group (cls : list cset_item).

Fixpoint strip_prefix (t s : string) : option string :=
  match t, s with
  | EmptyString, _ => Some s
  | String a t', String c s' =>
      if Ascii.eqb a c then strip_prefix t' s' else None
  | String _ _, EmptyString => None
  end.

(** One or more characters of the class, the longest run first, then
    the continuation [k]. *)
Fixpoint plus_k {R} (p : ascii -> bool) (k : string -> option R)
    (s : string) : option R :=
  match s with
  | String c s' =>
      if p c then
        match plus_k p k s' with
        | Some r => Some r
        | None => k s'
        end
      else None
  | EmptyString => None
  end.

(** The same, returning the run that was taken. *)
Fixpoint group_k {R} (p : ascii -> bool) (k : string -> option R)
    (s : string) : option string :=
  match s with
  | String c s' =>
      if p c then
        match group_k p k s' with
        | Some cap => Some (String c cap)
        | None =>
            match k s' with
            | Some _ => Some (String c EmptyString)
            | None => None
            end
        end
      else None
  | EmptyString => None
  end.

(** A match starting at the beginning of [s]; [Some None] is a match
    of a pattern without a group. *)
Fixpoint match_here (re : list atom) (s : string) : option (option string) :=
  match re with
  | [] => Some None
  | Lit t :: re' =>
      match strip_prefix t s with
      | Some s' => match_here re' s'
      | None => None
      end
  | Plus cls :: re' => plus_k (in_class cls) (match_here re') s
  | Group cls :: re' =>
      option_map Some (group_k (in_class cls) (match_here re') s)
  end.

Fixpoint search (re : list atom) (s : string) : option (option string) :=
  match match_here re s with
  | Some r => Some r
  | None =>
      match s with
      | EmptyString => None
      | String _ s' => search re s'
      end
  end.

(** [search(pattern, v).group(1)]: a [TypeError] for an argument that is
    not a string, an [AttributeError] ([None] has no [group]) when
    nothing matches. *)
Definition search_group1 (re : list atom) (v : pyval) : result string :=
  match v with
  | PyStr s =>
      match search re s with
      | Some (Some g) => Ok g
      | Some None => Raise IndexError
      | None => Raise AttributeError
      end
  | _ => Raise TypeError
  end.

Definition token_class : list cset_item :=
  [Range "A" "Z"; Range "a" "z"; Range "0" "9"; One "-"].

Definition digit_class : list cset_item := [Range "0" "9"].

Definition number_class : list cset_item :=
  [Range "0" "9"; One "."; One "E"; One "+"; One "-"].

(** ['[A-Za-z0-9-]+ ([0-9]+)'] *)
Definition radiator_pattern : list atom :=
  [Plus token_class; Lit " "; Group digit_class].

Definition flux_marker : string :=
  "<tr><td><b> Endpoint tagged flux sum is ".

(** ['<tr><td><b> Endpoint tagged flux sum is ([0-9.E+-]+)'] *)
Definition flux_pattern : list atom :=
  [Lit flux_marker; Group number_class].

(** ** The world around the script *)

(** A run of the conditions database: its number and its conditions by
    name. *)
Record rcdb_run : Type := {
  run_number : Z;
  run_conditions : gmap string pyval
}.

(** A database connection: [select_runs(query, run_min, run_max)]. *)
Definition database : Type := string -> Z -> Z -> result (list rcdb_run).

(** What the script reads and cannot change: the databases behind the
    connection strings and the answers of the web server by URL. *)
Record environment : Type := {
  RCDBProvider : string -> result database;
  http_get : string -> result string
}.

(** What the script changes: the files (by name) and the requests sent
    so far, oldest first. *)
Record world : Type := {
  files : gmap string string;
  requests : list string
}.

(** Modelled from the spec: [get_values(names, insert_run_number)] of the
    external package [rcdb] (not part of this repository) returns one row
    per selected run, the values in the order of [names], [None] for a
    condition the run does not have, and with the run number first when
    asked for.  The spec leaves open what a selection without runs
    gives; the package answers it with a table of one row without
    values, [[[]]], and so does this definition. *)
Definition get_values (names : list string) (insert_run_number : bool)
    (runs : list rcdb_run) : list (list pyval) :=
  match runs with
  | [] => [[]]
  | _ =>
      List.map (fun r =>
        (if insert_run_number then [PyInt (run_number r)] else []) ++
        List.map (fun name => default PyNone (run_conditions r !! name)) names)%list
        runs
  end.

(** ** Computations with state and exceptions *)

Definition M (A : Type) : Type := world -> result A * world.

Definition ret {A} (a : A) : M A := fun w => (Ok a, w).

Definition bind {A B} (m : M A) (k : A -> M B) : M B :=
  fun w =>
    match m w with
    | (Ok a, w') => k a w'
    | (Raise e, w') => (Raise e, w')
    end.

Definition lift {A} (r : result A) : M A := fun w => (r, w).

Notation "x <- e ;; k" := (rbind e (fun x => k))
  (at level 90, e at next level, right associativity).
Notation "x <~ e ;; k" := (bind e (fun x => k))
  (at level 90, e at next level, right associativity).
Notation "e ;;; k" := (bind e (fun _ => k))
  (at level 90, right associativity).

Fixpoint for_each {A} (l : list A) (body : A -> M unit) : M unit :=
  match l with
  | [] => ret tt
  | x :: l' => body x ;;; for_each l' body
  end.

(** [open(name, 'w')]: the file exists afterwards and is empty (the
    directory is taken to be writable). *)
Definition open_w (name : string) : M unit :=
  fun w => (Ok tt, {| files := <[name := EmptyString]> (files w);
                      requests := requests w |}).

(** [f.write(s)] on the file opened under [name]. *)
Definition file_write (name : string) (s : string) : M unit :=
  fun w => (Ok tt,
            {| files := <[name := default EmptyString (files w !! name) ++ s]>
                          (files w);
               requests := requests w |}).

Definition log_request (url : string) (w : world) : world :=
  {| files := files w; requests := (requests w ++ [url])%list |}.

(** [urlopen(url).read()] *)
Definition urlopen_read (env : environment) (url : string) : M string :=
  fun w => (http_get env url, log_request url w).

(** ** The command line (lines 29-45)

    Every option is declared with [action='store'] and without [type=]:
    a value given on the command line is stored as the string it is, an
    option that is not given gets its default ([None] when none is
    declared).  [cmdline] holds, per option, the text given for it. *)

Record cmdline : Type := {
  opt_p : option string;
  opt_minRun : option string;
  opt_maxRun : option string;
  opt_beamEmittance : option string;
  opt_photonNbins : option string;
  opt_photonEmax : option string;
  opt_photonEmin : option string;
  opt_collimDistance : option string;
  opt_peakElow : option string;
  opt_peakEhigh : option string;
  opt_backElow : option string;
  opt_backEhigh : option string;
  opt_endpElow : option string;
  opt_endpEhigh : option string
}.

Record Namespace : Type := {
  pathToRCDB : pyval;
  minRun : pyval;
  maxRun : pyval;
  beamEmittance : pyval;
  photonNbins : pyval;
  photonEmax : pyval;
  photonEmin : pyval;
  collimDistance : pyval;
  peakElow : pyval;
  peakEhigh : pyval;
  backElow : pyval;
  backEhigh : pyval;
  endpElow : pyval;
  endpEhigh : pyval
}.

Definition store (given : option string) (dflt : pyval) : pyval :=
  match given with
  | Some s => PyStr s
  | None => dflt
  end.

Definition parse_args (c : cmdline) : Namespace := {|
  pathToRCDB := store (opt_p c) PyNone;
  minRun := store (opt_minRun c) PyNone;
  maxRun := store (opt_maxRun c) PyNone;
  beamEmittance := store (opt_beamEmittance c) (PyFloat (float_lit "10e-09"));
  photonNbins := store (opt_photonNbins c) (PyInt 2000);
  photonEmax := store (opt_photonEmax c) (PyInt 12);
  photonEmin := store (opt_photonEmin c) (PyInt 3);
  collimDistance := store (opt_collimDistance c) (PyInt 76);
  peakElow := store (opt_peakElow c) (PyFloat (float_lit "8.4"));
  peakEhigh := store (opt_peakEhigh c) (PyInt 9);
  backElow := store (opt_backElow c) (PyFloat (float_lit "0.1"));
  backEhigh := store (opt_backEhigh c) (PyInt 3);
  endpElow := store (opt_endpElow c) (PyInt 10);
  endpEhigh := store (opt_endpEhigh c) (PyFloat (float_lit "11.7"))
|}.

(** The eleven physics options, in the order of the source. *)
Definition physics_options (c : cmdline) : list (option string) :=
  [opt_beamEmittance c; opt_photonNbins c; opt_photonEmax c;
   opt_photonEmin c; opt_collimDistance c; opt_peakElow c;
   opt_peakEhigh c; opt_backElow c; opt_backEhigh c; opt_endpElow c;
   opt_endpEhigh c].

(** ** [BGRate_RCDB_values] (lines 56-63) *)

Definition valueList : list string :=
  ["event_count"; "beam_on_current"; "beam_energy"; "coherent_peak";
   "collimator_diameter"; "radiator_type"].

Definition BGRate_RCDB_values (env : environment) (parsedArgs : Namespace)
    (minRun maxRun : pyval) : result (list (list pyval)) :=
  conn <- py_concat "sqlite:///" (pathToRCDB parsedArgs) ;;
  db <- RCDBProvider env conn ;;
  lo <- py_int minRun ;;
  hi <- py_int maxRun ;;
  runs <- db "@is_production and @status_approved" lo hi ;;
  Ok (get_values valueList true runs).

(** ** [CalcBGRate] (lines 69-101) *)

(** [template % v] for a template that ends in its only conversion,
    [%g]. *)
Definition percent_g (before : string) (v : pyval) : result string :=
  s <- fmt_g v ;; Ok (before ++ s).

Definition percent_i (before : string) (v : pyval) : result string :=
  s <- fmt_i v ;; Ok (before ++ s).

(** [table[i]*10**(-3)] (lines 83, 85, 87) *)
Definition milli (table : list pyval) (i : nat) : result float :=
  v <- py_index table i ;; py_mul_float v (pow10_neg 3).

(** [cd] (line 89) *)
Definition collimDiam (table : list pyval) : result float :=
  v <- py_index table 5 ;;
  s <- py_rstrip v "mm hole" ;;
  x <- float_of_string s ;;
  Ok (fmul x (pow10_neg 3)).

(** [rt] (line 91) *)
Definition radThickness (table : list pyval) : result float :=
  v <- py_index table 6 ;;
  g <- search_group1 radiator_pattern v ;;
  x <- float_of_string g ;;
  Ok (fmul x (pow10_neg 6)).

Definition webAddr : string :=
  "http://zeus.phys.uconn.edu/halld/cobrems/ratetool.cgi".

(** Lines 70-96: the query string [conditions], or the first exception
    on the way to it. *)
Definition conditions (table : list pyval)
    (beamEmittance photonNbins photonEmax photonEmin collimDistance
     peakElow peakEhigh backElow backEhigh endpElow endpEhigh : pyval)
    : result string :=
  beamEmittanceStr <- percent_g "&beamEmittance=" beamEmittance ;;
  photonNbinsStr <- percent_i "&photonNbins=" photonNbins ;;
  photonEmaxStr <- percent_g "&photonEmax=" photonEmax ;;
  photonEminStr <- percent_g "&photonEmin=" photonEmin ;;
  collimDistanceStr <- percent_g "&collimDistance=" collimDistance ;;
  peakElowStr <- percent_g "&peakElow=" peakElow ;;
  peakEhighStr <- percent_g "&peakEhigh=" peakEhigh ;;
  backElowStr <- percent_g "&backElow=" backElow ;;
  backEhighStr <- percent_g "&backEhigh=" backEhigh ;;
  endpElowStr <- percent_g "&endpElow=" endpElow ;;
  endpEhighStr <- percent_g "&endpEhigh=" endpEhigh ;;
  let finalStr := "&run=plot+collimated+beam+rate+spectrum" in
  bc <- milli table 2 ;;
  let beamCurrentStr := "&beamCurrent=" ++ format_g bc in
  be <- milli table 3 ;;
  let beamEnergyStr := "&beamEnergy=" ++ format_g be in
  ep <- milli table 4 ;;
  let photonEpeakStr := "&photonEpeak=" ++ format_g ep in
  cd <- collimDiam table ;;
  let collimDiamStr := "&collimDiam=" ++ format_g cd in
  rt <- radThickness table ;;
  let radThicknessStr := "&radThickness=" ++ format_g rt in
  Ok ("?" ++ beamEnergyStr ++ beamCurrentStr ++ beamEmittanceStr ++
      radThicknessStr ++ photonEpeakStr ++ photonNbinsStr ++
      photonEmaxStr ++ photonEminStr ++ collimDistanceStr ++
      collimDiamStr ++ peakElowStr ++ peakEhighStr ++ backElowStr ++
      backEhighStr ++ endpElowStr ++ endpEhighStr ++ finalStr).

(** Lines 99-101: the rate read from the page. *)
Definition read_rate (CBRC_page : string) : result float :=
  BGRate <- search_group1 flux_pattern (PyStr CBRC_page) ;;
  x <- float_of_string BGRate ;;
  Ok (fmul x (pow10_neg 9)).

Definition CalcBGRate (env : environment) (table : list pyval)
    (beamEmittance photonNbins photonEmax photonEmin collimDistance
     peakElow peakEhigh backElow backEhigh endpElow endpEhigh : pyval)
    : M float :=
  c <~ lift (conditions table beamEmittance photonNbins photonEmax
               photonEmin collimDistance peakElow peakEhigh backElow
               backEhigh endpElow endpEhigh) ;;
  CBRC_page <~ urlopen_read env (webAddr ++ c) ;;
  lift (read_rate CBRC_page).

(** ** The script body (lines 108-116) *)

Definition nl : string := String "010" EmptyString.

Definition fileName (parsedArgs : Namespace) : string :=
  "BGRateRCDBValue_" ++ py_str (minRun parsedArgs) ++ "-" ++
  py_str (maxRun parsedArgs) ++ ".csv".

Definition header : string :=
  "run_number,event_count,beam_on_current,beam_energy,coherent_peak,collimator_diameter,radiator_type,BGRate"
  ++ nl.

(** Lines 113-115 *)
Definition runToWrite (run : list pyval) : string :=
  fold_left (fun acc val => acc ++ py_str val ++ ",") run EmptyString.

Definition data_line (run : list pyval) (BGRate : float) : string :=
  runToWrite run ++ format_g BGRate ++ nl.

(** The body of the loop (lines 112-116) *)
Definition write_run (env : environment) (parsedArgs : Namespace)
    (f : string) (run : list pyval) : M unit :=
  BGRate <~ CalcBGRate env run (beamEmittance parsedArgs)
              (photonNbins parsedArgs) (photonEmax parsedArgs)
              (photonEmin parsedArgs) (collimDistance parsedArgs)
              (peakElow parsedArgs) (peakEhigh parsedArgs)
              (backElow parsedArgs) (backEhigh parsedArgs)
              (endpElow parsedArgs) (endpEhigh parsedArgs) ;;
  file_write f (data_line run BGRate).

Definition script (env : environment) (c : cmdline) : M unit :=
  let parsedArgs := parse_args c in
  let f := fileName parsedArgs in
  open_w f ;;;
  file_write f header ;;;
  table <~ lift (BGRate_RCDB_values env parsedArgs (minRun parsedArgs)
                   (maxRun parsedArgs)) ;;
  for_each table (write_run env parsedArgs f).

(** The exit status of the process: 0 when the script runs to its end,
    1 when an exception reaches the top level. *)
Definition exit_status (r : result unit) : Z :=
  match r with
  | Ok _ => 0
  | Raise _ => 1
  end.

(** * Notions used in the statements *)

(** ** The call of line 112 and what it computes *)

(** The call of line 112. *)
Definition CalcBGRate_args (env : environment) (args : Namespace)
    (run : list pyval) : M float :=
  CalcBGRate env run (beamEmittance args) (photonNbins args)
    (photonEmax args) (photonEmin args) (collimDistance args)
    (peakElow args) (peakEhigh args) (backElow args) (backEhigh args)
    (endpElow args) (endpEhigh args).

Definition conditions_args (args : Namespace) (run : list pyval)
    : result string :=
  conditions run (beamEmittance args) (photonNbins args)
    (photonEmax args) (photonEmin args) (collimDistance args)
    (peakElow args) (peakEhigh args) (backElow args) (backEhigh args)
    (endpElow args) (endpEhigh args).

(** What [CalcBGRate] returns for a row, as a function of the inputs
    alone. *)
Definition rate_of (env : environment) (args : Namespace)
    (run : list pyval) : result float :=
  c <- conditions_args args run ;;
  CBRC_page <- http_get env (webAddr ++ c) ;;
  read_rate CBRC_page.

(** The data lines of the rows up to the first one that fails, and how
    the loop ends. *)
Fixpoint written (env : environment) (args : Namespace)
    (table : list (list pyval)) : string * result unit :=
  match table with
  | [] => (EmptyString, Ok tt)
  | run :: rest =>
      match rate_of env args run with
      | Ok r =>
          let '(s, res) := written env args rest in
          (data_line run r ++ s, res)
      | Raise e => (EmptyString, Raise e)
      end
  end.

(** ** The query string *)

Definition is_str (v : pyval) : bool :=
  match v with PyStr _ => true | _ => false end.

(** The eleven physics values of a namespace, in the order of the
    parameters of [CalcBGRate]. *)
Definition physics_values (args : Namespace) : list pyval :=
  [beamEmittance args; photonNbins args; photonEmax args; photonEmin args;
   collimDistance args; peakElow args; peakEhigh args; backElow args;
   backEhigh args; endpElow args; endpEhigh args].

(** The eleven physics values are numbers ['%g'] and ['%i'] accept. *)
Definition numeric_physics (args : Namespace) : bool :=
  is_ok (float_arg (beamEmittance args)) &&
  is_ok (fmt_i (photonNbins args)) &&
  is_ok (float_arg (photonEmax args)) &&
  is_ok (float_arg (photonEmin args)) &&
  is_ok (float_arg (collimDistance args)) &&
  is_ok (float_arg (peakElow args)) &&
  is_ok (float_arg (peakEhigh args)) &&
  is_ok (float_arg (backElow args)) &&
  is_ok (float_arg (backEhigh args)) &&
  is_ok (float_arg (endpElow args)) &&
  is_ok (float_arg (endpEhigh args)).

(** Current, energy and peak of the row are numbers. *)
Definition numeric_row (run : list pyval) : bool :=
  is_ok (milli run 2) && is_ok (milli run 3) && is_ok (milli run 4).

Definition given_or_None (o : option string) : string :=
  match o with
  | Some s => s
  | None => "None"
  end.

(** The command line with its physics options taken away. *)
Definition defaults_only (c : cmdline) : cmdline := {|
  opt_p := opt_p c;
  opt_minRun := opt_minRun c;
  opt_maxRun := opt_maxRun c;
  opt_beamEmittance := None; opt_photonNbins := None;
  opt_photonEmax := None; opt_photonEmin := None;
  opt_collimDistance := None; opt_peakElow := None; opt_peakEhigh := None;
  opt_backElow := None; opt_backEhigh := None; opt_endpElow := None;
  opt_endpEhigh := None
|}.

(** The query string, given the seventeen values that go into it; the
    bin count is the only one that is not written with ['%g']. *)
Definition query_string (be bc emittance rt ep : float) (nbins : string)
    (emax emin distance cd pl ph bl bh el eh : float) : string :=
  "?&beamEnergy=" ++ format_g be ++
  "&beamCurrent=" ++ format_g bc ++
  "&beamEmittance=" ++ format_g emittance ++
  "&radThickness=" ++ format_g rt ++
  "&photonEpeak=" ++ format_g ep ++
  "&photonNbins=" ++ nbins ++
  "&photonEmax=" ++ format_g emax ++
  "&photonEmin=" ++ format_g emin ++
  "&collimDistance=" ++ format_g distance ++
  "&collimDiam=" ++ format_g cd ++
  "&peakElow=" ++ format_g pl ++
  "&peakEhigh=" ++ format_g ph ++
  "&backElow=" ++ format_g bl ++
  "&backEhigh=" ++ format_g bh ++
  "&endpElow=" ++ format_g el ++
  "&endpEhigh=" ++ format_g eh ++
  "&run=plot+collimated+beam+rate+spectrum".

(** The query string of a row under the default physics values. *)
Definition default_conditions (run : list pyval) : result string :=
  bc <- milli run 2 ;;
  be <- milli run 3 ;;
  ep <- milli run 4 ;;
  cd <- collimDiam run ;;
  rt <- radThickness run ;;
  Ok ("?&beamEnergy=" ++ format_g be ++
      "&beamCurrent=" ++ format_g bc ++
      "&beamEmittance=1e-08" ++
      "&radThickness=" ++ format_g rt ++
      "&photonEpeak=" ++ format_g ep ++
      "&photonNbins=2000&photonEmax=12&photonEmin=3&collimDistance=76" ++
      "&collimDiam=" ++ format_g cd ++
      "&peakElow=8.4&peakEhigh=9&backElow=0.1&backEhigh=3&endpElow=10&endpEhigh=11.7&run=plot+collimated+beam+rate+spectrum").

(** The query string as the specification words it: every value,
    the bin count included, written with ['%g']. *)
Definition conditions_all_g (args : Namespace) (run : list pyval)
    : result string :=
  emittance <- float_arg (beamEmittance args) ;;
  nbins <- float_arg (photonNbins args) ;;
  emax <- float_arg (photonEmax args) ;;
  emin <- float_arg (photonEmin args) ;;
  distance <- float_arg (collimDistance args) ;;
  pl <- float_arg (peakElow args) ;;
  ph <- float_arg (peakEhigh args) ;;
  bl <- float_arg (backElow args) ;;
  bh <- float_arg (backEhigh args) ;;
  el <- float_arg (endpElow args) ;;
  eh <- float_arg (endpEhigh args) ;;
  bc <- milli run 2 ;;
  be <- milli run 3 ;;
  ep <- milli run 4 ;;
  cd <- collimDiam run ;;
  rt <- radThickness run ;;
  Ok (query_string be bc emittance rt ep (format_g nbins) emax emin
        distance cd pl ph bl bh el eh).

(** ** Places where the patterns match *)

(** The characters a float literal can end with: a digit, the point, or
    the last letter of [inf], [nan], [infinity] in either case. *)
Definition literal_end (c : ascii) : bool :=
  is_digit c || Ascii.eqb c "." || Ascii.eqb (to_lower c) "f" ||
  Ascii.eqb (to_lower c) "n" || Ascii.eqb (to_lower c) "y".

(** [s] starts with the marker, followed by the number text [num]: the
    longest run of characters of [[0-9.E+-]] there, and not empty. *)
Definition flux_at (s num : string) : Prop :=
  exists rest,
    s = flux_marker ++ num ++ rest /\
    num <> "" /\
    str_all (in_class number_class) num = true /\
    starts_in (in_class number_class) rest = false.

(** The page has, somewhere, the marker followed by a number text. *)
Definition flux_matches (page : string) : Prop :=
  exists pre tail num, page = pre ++ tail /\ flux_at tail num.

(** [num] is the number text at the first such place of the page. *)
Definition first_flux (page num : string) : Prop :=
  exists pre tail,
    page = pre ++ tail /\ flux_at tail num /\
    forall p1 p2 n, pre = p1 ++ p2 -> p2 <> "" -> ~ flux_at (p2 ++ tail) n.

(** The radiator text has, somewhere, a character of the token class,
    a space and a digit in a row. *)
Definition radiator_matches (rs : string) : Prop :=
  exists pre c d rest,
    rs = pre ++ String c (String " " (String d rest)) /\
    in_class token_class c = true /\ is_digit d = true.

(** Whether [s] starts with a space followed by a digit. *)
Definition space_then_digit (s : string) : bool :=
  match s with
  | String sp (String d _) => Ascii.eqb " " sp && is_digit d
  | _ => false
  end.

(** The run of digits at the first place of [s] where a token
    character, a space and a digit follow one another. *)
Fixpoint first_token_space_digits (s : string) : option string :=
  match s with
  | EmptyString => None
  | String c s' =>
      if in_class token_class c && space_then_digit s'
      then Some (fst (span is_digit (str_drop 1 s')))
      else first_token_space_digits s'
  end.

(** Whether the pattern fails at every place that starts within [pre]. *)
Fixpoint fails_within (re : list atom) (pre tail : string) : bool :=
  match pre with
  | EmptyString => true
  | String c pre' =>
      match match_here re (pre ++ tail) with
      | Some _ => false
      | None => fails_within re pre' tail
      end
  end.

(** ** Lines and fields of the output file *)

Definition header_text : string :=
  "run_number,event_count,beam_on_current,beam_energy,coherent_peak,collimator_diameter,radiator_type,BGRate".

(** The lines of a file, as reading it line by line gives them
    ([for line in open(name)], without the line feeds): a line ends at
    a line feed and nowhere else, and the text after the last line
    feed, when there is some, is a last line. *)
Definition file_lines (content : string) : list string :=
  let l := split_on "010" content in
  if is_empty (List.last l EmptyString) then removelast l else l.

(** Neither a comma nor a line feed. *)
Definition csv_safe (c : ascii) : bool :=
  negb (Ascii.eqb c ",") && negb (Ascii.eqb c "010").

(** The characters ['%g'] and [str] produce for a float. *)
Definition float_char (c : ascii) : bool :=
  is_digit c || str_mem c ".e+-infa".

(** A data line without its line feed. *)
Definition line_text (run : list pyval) (BGRate : float) : string :=
  runToWrite run ++ format_g BGRate.

(** The text of a file made of the lines [ls]. *)
Definition join_lines (ls : list string) : string :=
  fold_right (fun l acc => l ++ nl ++ acc) EmptyString ls.

(** The line the script writes for a row it can process. *)
Definition line_of (env : environment) (args : Namespace)
    (run : list pyval) : string :=
  match rate_of env args run with
  | Ok r => line_text run r
  | Raise _ => EmptyString
  end.

(** No string of the row holds a comma or a line feed. *)
Definition safe_row (run : list pyval) : Prop :=
  forall s, In (PyStr s) run -> str_all csv_safe s = true.

(** ** Sample inputs *)

Definition tab : ascii := "009".

(** [BGRate.py -p /data/rcdb.sqlite --minRun 30000 --maxRun 30001] *)
Definition sample_cmdline : cmdline := {|
  opt_p := Some "/data/rcdb.sqlite";
  opt_minRun := Some "30000";
  opt_maxRun := Some "30001";
  opt_beamEmittance := None; opt_photonNbins := None;
  opt_photonEmax := None; opt_photonEmin := None;
  opt_collimDistance := None; opt_peakElow := None; opt_peakEhigh := None;
  opt_backElow := None; opt_backEhigh := None; opt_endpElow := None;
  opt_endpEhigh := None
|}.

(** [BGRate.py -p ... --minRun 30000 --maxRun 30001 --photonNbins 3000] *)
Definition cmdline_with_Nbins : cmdline := {|
  opt_p := Some "/data/rcdb.sqlite";
  opt_minRun := Some "30000";
  opt_maxRun := Some "30001";
  opt_beamEmittance := None; opt_photonNbins := Some "3000";
  opt_photonEmax := None; opt_photonEmin := None;
  opt_collimDistance := None; opt_peakElow := None; opt_peakEhigh := None;
  opt_backElow := None; opt_backEhigh := None; opt_endpElow := None;
  opt_endpEhigh := None
|}.

(** The default namespace with a bin count of one million. *)
Definition million_bins : Namespace := {|
  pathToRCDB := PyStr "/data/rcdb.sqlite";
  minRun := PyStr "30000";
  maxRun := PyStr "30001";
  beamEmittance := PyFloat (float_lit "10e-09");
  photonNbins := PyInt 1000000;
  photonEmax := PyInt 12;
  photonEmin := PyInt 3;
  collimDistance := PyInt 76;
  peakElow := PyFloat (float_lit "8.4");
  peakEhigh := PyInt 9;
  backElow := PyFloat (float_lit "0.1");
  backEhigh := PyInt 3;
  endpElow := PyInt 10;
  endpEhigh := PyFloat (float_lit "11.7")
|}.

Definition sample_conditions : gmap string pyval :=
  list_to_map
    [("event_count", PyInt 1234567);
     ("beam_on_current", PyFloat (float_lit "1000"));
     ("beam_energy", PyFloat (float_lit "11608.7"));
     ("coherent_peak", PyFloat (float_lit "9000"));
     ("collimator_diameter", PyStr "5 mm hole");
     ("radiator_type", PyStr "Be 750")].

Definition sample_run : rcdb_run :=
  {| run_number := 30000; run_conditions := sample_conditions |}.

Definition sample_row : list pyval :=
  [PyInt 30000; PyInt 1234567; PyFloat (float_lit "1000");
   PyFloat (float_lit "11608.7"); PyFloat (float_lit "9000");
   PyStr "5 mm hole"; PyStr "Be 750"].

Definition comma_run : rcdb_run := {|
  run_number := 30000;
  run_conditions := <["radiator_type" := PyStr "Be,x 750"]> sample_conditions
|}.

(** A second run, whose collimator is recorded as blocked. *)
Definition blocking_run : rcdb_run := {|
  run_number := 30001;
  run_conditions :=
    <["collimator_diameter" := PyStr "Blocking"]> sample_conditions
|}.

Definition blocking_row : list pyval :=
  [PyInt 30001; PyInt 1234567; PyFloat (float_lit "1000");
   PyFloat (float_lit "11608.7"); PyFloat (float_lit "9000");
   PyStr "Blocking"; PyStr "Be 750"].

(** A row whose collimator text has no suffix at all. *)
Definition bare_collimator_row : list pyval :=
  [PyInt 30000; PyInt 1234567; PyFloat (float_lit "1000");
   PyFloat (float_lit "11608.7"); PyFloat (float_lit "9000");
   PyStr "5"; PyStr "Be 750"].

Definition sample_page : string :=
  "<html><body><table><tr><td><b> Endpoint tagged flux sum is 1.23E+05</b> Hz</td></tr></table></body></html>".

(** A page whose marker is followed by a text that is not a number. *)
Definition dotted_page : string :=
  "<tr><td><b> Endpoint tagged flux sum is 1.2.3</b>".

(** A database holding the runs [runs] (all of them production runs
    with approved status) and a server that answers every request with
    [page]. *)
Definition stub_env (runs : list rcdb_run) (page : string) : environment := {|
  RCDBProvider := fun _ =>
    Ok (fun _ lo hi =>
          Ok (List.filter
                (fun r => (lo <=? run_number r) && (run_number r <=? hi))
                runs));
  http_get := fun _ => Ok page
|}.

Definition empty_world : world := {| files := ∅; requests := [] |}.

(** ** Further notions *)

(** [CalcBGRate(table)]: the call with every optional parameter left to
    the default of the signature (line 69). *)
Definition CalcBGRate_defaults (env : environment) (table : list pyval)
    : M float :=
  CalcBGRate env table (PyFloat (float_lit "10e-09")) (PyInt 2000)
    (PyFloat (float_lit "12.0")) (PyFloat (float_lit "3.0"))
    (PyFloat (float_lit "76.0")) (PyFloat (float_lit "8.4")) (PyInt 9)
    (PyFloat (float_lit "0.1")) (PyFloat (float_lit "3.0"))
    (PyFloat (float_lit "10.0")) (PyFloat (float_lit "11.7")).

(** The address asked for a row whose query string can be built. *)
Definition request_of (args : Namespace) (run : list pyval) : string :=
  match conditions_args args run with
  | Ok c => webAddr ++ c
  | Raise _ => EmptyString
  end.

(** How many rows of the table get a request: the rows before the
    first one that fails, and that one too when its query string can
    be built. *)
Fixpoint attempted (env : environment) (args : Namespace)
    (table : list (list pyval)) : nat :=
  match table with
  | [] => O
  | run :: rest =>
      match conditions_args args run with
      | Raise _ => O
      | Ok _ =>
          match rate_of env args run with
          | Ok _ => S (attempted env args rest)
          | Raise _ => 1%nat
          end
      end
  end.

(** An [int] or a [float]. *)
Definition is_number (v : pyval) : bool :=
  match v with
  | PyInt _ | PyFloat _ => true
  | PyNone | PyStr _ => false
  end.

(** An environment whose database cannot be opened. *)
Definition no_database_env : environment := {|
  RCDBProvider := fun _ => Raise DatabaseError;
  http_get := fun _ => Ok sample_page
|}.

(** [BGRate.py --minRun 30000 --maxRun 30001], the path left out. *)
Definition cmdline_without_path : cmdline := {|
  opt_p := None;
  opt_minRun := Some "30000";
  opt_maxRun := Some "30001";
  opt_beamEmittance := None; opt_photonNbins := None;
  opt_photonEmax := None; opt_photonEmin := None;
  opt_collimDistance := None; opt_peakElow := None; opt_peakEhigh := None;
  opt_backElow := None; opt_backEhigh := None; opt_endpElow := None;
  opt_endpEhigh := None
|}.

(** A row whose collimator text carries a shorter unit. *)
Definition short_unit_row : list pyval :=
  [PyInt 30000; PyInt 1234567; PyFloat (float_lit "1000");
   PyFloat (float_lit "11608.7"); PyFloat (float_lit "9000");
   PyStr "3.4mm"; PyStr "Be 750"].

(** A row without run number and event count. *)
Definition anonymous_row : list pyval :=
  [PyNone; PyNone; PyFloat (float_lit "1000");
   PyFloat (float_lit "11608.7"); PyFloat (float_lit "9000");
   PyStr "5 mm hole"; PyStr "Be 750"; PyStr "one more"].

(** The first field of a line of the output file. *)
Definition first_field (line : string) : string :=
  hd EmptyString (split_on "," line).

(** The rows the loop gets through: those before the first row for
    which [CalcBGRate] raises. *)
Fixpoint processed (env : environment) (args : Namespace)
    (table : list (list pyval)) : list (list pyval) :=
  match table with
  | [] => []
  | run :: rest =>
      match rate_of env args run with
      | Ok _ => run :: processed env args rest
      | Raise _ => []
      end
  end.

(** No string of the row holds a line feed. *)
Definition lf_free_row (run : list pyval) : Prop :=
  forall s, In (PyStr s) run ->
            str_all (fun c => negb (Ascii.eqb c "010")) s = true.

(** [BGRate.py -p /data/rcdb.sqlite --minRun 1 --maxRun 2] *)
Definition early_range_cmdline : cmdline := {|
  opt_p := Some "/data/rcdb.sqlite";
  opt_minRun := Some "1";
  opt_maxRun := Some "2";
  opt_beamEmittance := None; opt_photonNbins := None;
  opt_photonEmax := None; opt_photonEmin := None;
  opt_collimDistance := None; opt_peakElow := None; opt_peakEhigh := None;
  opt_backElow := None; opt_backEhigh := None; opt_endpElow := None;
  opt_endpEhigh := None
|}.

(** The row of [comma_run]. *)
Definition comma_row : list pyval :=
  [PyInt 30000; PyInt 1234567; PyFloat (float_lit "1000");
   PyFloat (float_lit "11608.7"); PyFloat (float_lit "9000");
   PyStr "5 mm hole"; PyStr "Be,x 750"].

(** A run with the sample conditions under the number 30001. *)
Definition later_run : rcdb_run :=
  {| run_number := 30001; run_conditions := sample_conditions |}.

Definition later_row : list pyval :=
  [PyInt 30001; PyInt 1234567; PyFloat (float_lit "1000");
   PyFloat (float_lit "11608.7"); PyFloat (float_lit "9000");
   PyStr "5 mm hole"; PyStr "Be 750"].

(** A row whose collimator text has no space before the unit. *)
Definition tight_unit_row : list pyval :=
  [PyInt 30000; PyInt 1234567; PyFloat (float_lit "1000");
   PyFloat (float_lit "11608.7"); PyFloat (float_lit "9000");
   PyStr "5mm hole"; PyStr "Be 750"].

(** The request for the sample row under the default physics values. *)
Definition sample_url : string :=
  "http://zeus.phys.uconn.edu/halld/cobrems/ratetool.cgi?&beamEnergy=11.6087&beamCurrent=1&beamEmittance=1e-08&radThickness=0.00075&photonEpeak=9&photonNbins=2000&photonEmax=12&photonEmin=3&collimDistance=76&collimDiam=0.005&peakElow=8.4&peakEhigh=9&backElow=0.1&backEhigh=3&endpElow=10&endpEhigh=11.7&run=plot+collimated+beam+rate+spectrum".

(** * Properties *)

(** ** Strings *)

Lemma append_nil_r (s : string) : s ++ "" = s.
Proof. induction s as [|c s IH]; simpl; [reflexivity | now rewrite IH]. Qed.

Lemma append_assoc (a b c : string) : (a ++ b) ++ c = a ++ (b ++ c).
Proof. induction a as [|x a IH]; simpl; [reflexivity | now rewrite IH]. Qed.

Lemma append_is_nil (a b : string) : a ++ b = "" -> a = "" /\ b = "".
Proof. destruct a; simpl; [auto | discriminate]. Qed.

Lemma is_empty_true (s : string) : is_empty s = true <-> s = "".
Proof. destruct s; simpl; split; congruence. Qed.

Lemma is_empty_false (s : string) : is_empty s = false <-> s <> "".
Proof. destruct s; simpl; split; congruence. Qed.

Lemma str_all_app (p : ascii -> bool) (a b : string) :
  str_all p (a ++ b) = str_all p a && str_all p b.
Proof.
  induction a as [|c a IH]; simpl; [reflexivity|].
  rewrite IH. now rewrite andb_assoc.
Qed.

Lemma str_all_impl (p q : ascii -> bool) (s : string) :
  (forall c, p c = true -> q c = true) ->
  str_all p s = true -> str_all q s = true.
Proof.
  intros Hpq. induction s as [|c s IH]; simpl; [reflexivity|].
  intros [Hc Hs]%andb_true_iff. rewrite (Hpq _ Hc). now apply IH.
Qed.

Lemma count_char_app (c : ascii) (a b : string) :
  count_char c (a ++ b) = (count_char c a + count_char c b)%nat.
Proof.
  induction a as [|x a IH]; simpl; [reflexivity|]. rewrite IH. lia.
Qed.

Lemma split_on_length (sep : ascii) (s : string) :
  List.length (split_on sep s) = S (count_char sep s).
Proof.
  induction s as [|c s IH]; simpl; [reflexivity|].
  destruct (Ascii.eqb c sep); simpl.
  - now rewrite IH.
  - destruct (split_on sep s); simpl in *; lia.
Qed.

(** A string whose characters all avoid [c] has no [c] to count. *)
Lemma count_char_none (c : ascii) (s : string) :
  str_all (fun d => negb (Ascii.eqb d c)) s = true -> count_char c s = O.
Proof.
  induction s as [|x s IH]; simpl; [reflexivity|].
  intros [Hx Hs]%andb_true_iff.
  destruct (Ascii.eqb x c); [discriminate|]. now rewrite IH.
Qed.

(** *** [span] *)

Lemma span_spec (p : ascii -> bool) (s a b : string) :
  span p s = (a, b) ->
  s = a ++ b /\ str_all p a = true /\ starts_in p b = false.
Proof.
  revert a b. induction s as [|c s IH]; simpl; intros a b H.
  - inversion H; subst. auto.
  - destruct (p c) eqn:Hc.
    + destruct (span p s) as [a' b'] eqn:Hs. inversion H; subst.
      destruct (IH _ _ eq_refl) as (-> & Ha & Hb).
      simpl. rewrite Hc, Ha. auto.
    + inversion H; subst. simpl. rewrite Hc. auto.
Qed.

Lemma span_app (p : ascii -> bool) (a b : string) :
  str_all p a = true -> starts_in p b = false -> span p (a ++ b) = (a, b).
Proof.
  intros Ha Hb. induction a as [|c a IH]; simpl in *.
  - destruct b as [|d b]; simpl in *; [reflexivity | now rewrite Hb].
  - apply andb_true_iff in Ha as [Hc Ha]. rewrite Hc, (IH Ha). reflexivity.
Qed.

Lemma span_starts_false (p : ascii -> bool) (s : string) :
  starts_in p s = false -> span p s = ("", s).
Proof. destruct s; simpl; [reflexivity | intros ->; reflexivity]. Qed.

(** *** [lstrip] and [rstrip] *)

Lemma last_in_app (p : ascii -> bool) (a b : string) :
  b <> "" -> last_in p (a ++ b) = last_in p b.
Proof.
  intros Hb. induction a as [|c a IH]; simpl; [reflexivity|].
  destruct (a ++ b) eqn:E; [|exact IH].
  apply append_is_nil in E as [_ ->]. contradiction.
Qed.

Lemma last_in_cons (p : ascii -> bool) (c : ascii) (s : string) :
  s <> "" -> last_in p (String c s) = last_in p s.
Proof. destruct s; [contradiction | reflexivity]. Qed.

Lemma last_in_all (p : ascii -> bool) (s : string) :
  s <> "" -> str_all p s = true -> last_in p s = true.
Proof.
  induction s as [|c s IH]; [contradiction|]. intros _ H.
  simpl in H. apply andb_true_iff in H as [Hc Hs].
  destruct s as [|d s]; [exact Hc|].
  rewrite last_in_cons by discriminate. apply IH; [discriminate | exact Hs].
Qed.

Lemma last_in_impl (p q : ascii -> bool) (s : string) :
  (forall c, p c = true -> q c = true) ->
  last_in p s = true -> last_in q s = true.
Proof.
  intros Hpq. induction s as [|c s IH]; simpl; [discriminate|].
  destruct s; auto.
Qed.

Lemma rstrip_class_all (p : ascii -> bool) (s : string) :
  str_all p s = true -> rstrip_class p s = "".
Proof.
  induction s as [|c s IH]; simpl; [reflexivity|].
  intros [Hc Hs]%andb_true_iff. now rewrite (IH Hs), Hc.
Qed.

(** What [rstrip] removes is a run of characters of the class. *)
Lemma rstrip_class_split (p : ascii -> bool) (s : string) :
  exists w, s = rstrip_class p s ++ w /\ str_all p w = true.
Proof.
  induction s as [|c s (w & Hs & Hw)]; simpl.
  - exists "". auto.
  - destruct (is_empty (rstrip_class p s)) eqn:He; simpl.
    + apply is_empty_true in He. rewrite He in Hs. simpl in Hs.
      destruct (p c) eqn:Hc.
      * exists (String c s). simpl. rewrite Hc. split; [reflexivity|].
        now rewrite Hs.
      * exists w. simpl. rewrite He. simpl. split; [now rewrite <- Hs | exact Hw].
    + exists w. simpl. split; [now rewrite <- Hs | exact Hw].
Qed.

(** After a string that ends outside the class, [rstrip] only works on
    what follows. *)
Lemma rstrip_class_app (p : ascii -> bool) (a w : string) :
  last_in (fun c => negb (p c)) a = true ->
  rstrip_class p (a ++ w) = a ++ rstrip_class p w.
Proof.
  induction a as [|c a IH]; simpl; [discriminate|].
  destruct a as [|d a].
  - simpl. intros Hc. apply negb_true_iff in Hc. rewrite Hc.
    now rewrite andb_false_r.
  - intros H. rewrite (IH H). simpl. reflexivity.
Qed.

Lemma rstrip_class_keep (p : ascii -> bool) (a w : string) :
  last_in (fun c => negb (p c)) a = true -> str_all p w = true ->
  rstrip_class p (a ++ w) = a.
Proof.
  intros Ha Hw. rewrite (rstrip_class_app _ _ _ Ha).
  rewrite (rstrip_class_all _ _ Hw). apply append_nil_r.
Qed.

Lemma rstrip_class_last (p : ascii -> bool) (s : string) :
  rstrip_class p s <> "" ->
  last_in (fun c => negb (p c)) (rstrip_class p s) = true.
Proof.
  induction s as [|c s IH]; simpl; [contradiction|].
  destruct (is_empty (rstrip_class p s)) eqn:He; simpl.
  - apply is_empty_true in He. rewrite He.
    destruct (p c) eqn:Hc; [contradiction|]. simpl. now rewrite Hc.
  - intros _. apply is_empty_false in He.
    change (last_in (fun c0 => negb (p c0)) (String c (rstrip_class p s)) = true).
    rewrite last_in_cons by exact He. now apply IH.
Qed.

Lemma lstrip_class_split (p : ascii -> bool) (s : string) :
  exists w, s = w ++ lstrip_class p s /\ str_all p w = true /\
            starts_in p (lstrip_class p s) = false.
Proof.
  induction s as [|c s (w & Hs & Hw & Hn)]; simpl.
  - exists "". auto.
  - destruct (p c) eqn:Hc.
    + exists (String c w). simpl. rewrite Hc, Hw, <- Hs. auto.
    + exists "". simpl. rewrite Hc. auto.
Qed.

Lemma lstrip_class_app (p : ascii -> bool) (w s : string) :
  str_all p w = true -> lstrip_class p (w ++ s) = lstrip_class p s.
Proof.
  induction w as [|c w IH]; simpl; [reflexivity|].
  intros [Hc Hw]%andb_true_iff. rewrite Hc. now apply IH.
Qed.

Lemma lstrip_class_id (p : ascii -> bool) (s : string) :
  starts_in p s = false -> lstrip_class p s = s.
Proof. destruct s; simpl; [reflexivity | intros ->; reflexivity]. Qed.

(** ** Regular expressions *)

Lemma strip_prefix_app (t r : string) : strip_prefix t (t ++ r) = Some r.
Proof.
  induction t as [|c t IH]; simpl; [now destruct r|].
  now rewrite Ascii.eqb_refl.
Qed.

Lemma strip_prefix_some (t s r : string) :
  strip_prefix t s = Some r -> s = t ++ r.
Proof.
  revert s. induction t as [|c t IH]; intros s; simpl.
  - destruct s; intros H; now inversion H.
  - destruct s as [|d s]; [discriminate|].
    destruct (Ascii.eqb_spec c d) as [->|]; [|discriminate].
    intros H. now rewrite (IH _ H).
Qed.

(** A group at the end of a pattern takes the longest run. *)
Lemma group_k_span {R} (p : ascii -> bool) (k : string -> option R)
    (s : string) :
  (forall s', k s' <> None) ->
  group_k p k s =
    if is_empty (fst (span p s)) then None else Some (fst (span p s)).
Proof.
  intros Hk. induction s as [|c s IH]; simpl; [reflexivity|].
  destruct (p c); [|reflexivity].
  rewrite IH. destruct (span p s) as [a b] eqn:Hs. simpl.
  destruct a as [|d a]; simpl; [|reflexivity].
  apply span_spec in Hs as (-> & _ & _). simpl.
  destruct (k b) eqn:Hb; [reflexivity | now apply Hk in Hb].
Qed.

(** A run that has to be followed by something outside its class is
    the longest run: giving characters back cannot help. *)
Lemma plus_k_span {R} (p : ascii -> bool) (k : string -> option R)
    (s : string) :
  (forall s', starts_in p s' = true -> k s' = None) ->
  plus_k p k s =
    if is_empty (fst (span p s)) then None else k (snd (span p s)).
Proof.
  intros Hk. induction s as [|c s IH]; simpl; [reflexivity|].
  destruct (p c) eqn:Hc; [|reflexivity].
  rewrite IH. destruct (span p s) as [a b] eqn:Hs. simpl.
  apply span_spec in Hs as (-> & Ha & Hb).
  destruct a as [|d a]; simpl.
  - reflexivity.
  - destruct (k b) eqn:Hkb; [reflexivity|].
    apply Hk. simpl in *. now apply andb_true_iff in Ha as [-> _].
Qed.

Lemma in_digit_class (c : ascii) : in_class digit_class c = is_digit c.
Proof. unfold in_class, digit_class, is_digit. simpl. apply orb_false_r. Qed.

Lemma token_not_space (c : ascii) :
  in_class token_class c = true -> Ascii.eqb " " c = false.
Proof.
  destruct (Ascii.eqb_spec " " c) as [<-|]; [|reflexivity].
  vm_compute. discriminate.
Qed.

Lemma match_here_nil (s : string) : match_here [] s <> None.
Proof. destruct s; discriminate. Qed.

Lemma match_here_space_digits (c : ascii) (s : string) :
  match_here [Lit " "; Group digit_class] (String c s) =
    if Ascii.eqb " " c
    then option_map Some (group_k (in_class digit_class) (match_here []) s)
    else None.
Proof.
  cbn [match_here strip_prefix]. destruct (Ascii.eqb " " c); reflexivity.
Qed.

(** The radiator pattern at the start of [s]: the longest token, one
    space, the longest run of digits. *)
Lemma match_here_radiator (s : string) :
  match_here radiator_pattern s =
    let '(tok, s1) := span (in_class token_class) s in
    if is_empty tok then None else
    match s1 with
    | String c s2 =>
        if Ascii.eqb " " c then
          let g := fst (span (in_class digit_class) s2) in
          if is_empty g then None else Some (Some g)
        else None
    | EmptyString => None
    end.
Proof.
  unfold radiator_pattern.
  change (match_here (Plus token_class :: [Lit " "; Group digit_class]) s)
    with (plus_k (in_class token_class)
            (match_here [Lit " "; Group digit_class]) s).
  rewrite plus_k_span.
  - destruct (span (in_class token_class) s) as [tok s1]. simpl fst. simpl snd.
    destruct (is_empty tok); [reflexivity|].
    destruct s1 as [|c s2]; [reflexivity|].
    rewrite match_here_space_digits.
    destruct (Ascii.eqb " " c); [|reflexivity].
    rewrite (group_k_span _ _ _ match_here_nil).
    now destruct (is_empty _).
  - intros [|c s'] Hc; [discriminate|]. simpl in Hc.
    rewrite match_here_space_digits.
    now rewrite (token_not_space _ Hc).
Qed.

(** The flux pattern at the start of [s]: the marker, then the longest
    run of characters of [[0-9.E+-]]. *)
Lemma match_here_flux (s : string) :
  match_here flux_pattern s =
    match strip_prefix flux_marker s with
    | Some s1 =>
        let g := fst (span (in_class number_class) s1) in
        if is_empty g then None else Some (Some g)
    | None => None
    end.
Proof.
  unfold flux_pattern.
  change (match_here [Lit flux_marker; Group number_class] s)
    with (match strip_prefix flux_marker s with
          | Some s1 => option_map Some
                         (group_k (in_class number_class) (match_here []) s1)
          | None => None
          end).
  destruct (strip_prefix flux_marker s); [|reflexivity].
  rewrite (group_k_span _ _ _ match_here_nil).
  now destruct (is_empty _).
Qed.

Lemma search_here (re : list atom) (s : string) (r : option string) :
  match_here re s = Some r -> search re s = Some r.
Proof. intros H. destruct s; simpl; now rewrite H. Qed.

(** [search] passes over the positions where the pattern does not
    match. *)
Lemma search_skip (re : list atom) (pre s : string) :
  (forall p1 p2, pre = p1 ++ p2 -> p2 <> "" ->
                 match_here re (p2 ++ s) = None) ->
  search re (pre ++ s) = search re s.
Proof.
  induction pre as [|c pre IH]; intros H; [reflexivity|].
  simpl. pose proof (H "" (String c pre) eq_refl) as H0.
  simpl in H0. rewrite H0 by discriminate.
  apply IH. intros p1 p2 -> Hp2. now apply (H (String c p1) p2).
Qed.

(** A match somewhere is found, and a found match is somewhere. *)
Lemma search_some_iff (re : list atom) (s : string) :
  search re s <> None <->
  exists pre x, s = pre ++ x /\ match_here re x <> None.
Proof.
  split.
  - induction s as [|c s IH]; simpl.
    + destruct (match_here re "") eqn:E; [|contradiction].
      intros _. exists "", "". split; [reflexivity | now rewrite E].
    + destruct (match_here re (String c s)) eqn:E.
      * intros _. exists "", (String c s). split; [reflexivity | now rewrite E].
      * intros H. destruct (IH H) as (pre & x & -> & Hx).
        now exists (String c pre), x.
  - intros (pre & x & -> & Hx). induction pre as [|c pre IH]; simpl.
    + destruct x; simpl; now destruct (match_here re _).
    + now destruct (match_here re (String c (pre ++ x))).
Qed.

(** ** Float literals *)

Lemma last_in_app_nil (p : ascii -> bool) (a b : string) :
  last_in p (a ++ b) = if is_empty b then last_in p a else last_in p b.
Proof.
  destruct b as [|c b]; simpl.
  - now rewrite append_nil_r.
  - now apply last_in_app.
Qed.

Lemma parse_sign_spec (s s1 : string) (neg : bool) :
  parse_sign s = (neg, s1) -> s = s1 \/ exists c, s = String c s1.
Proof.
  unfold parse_sign. destruct s as [|c s'].
  - intros H; inversion H; auto.
  - destruct (Ascii.eqb c "-"); [intros H; inversion H; subst; eauto|].
    destruct (Ascii.eqb c "+"); intros H; inversion H; subst; eauto.
Qed.

Lemma last_in_after_sign (p : ascii -> bool) (s s1 : string) (neg : bool) :
  parse_sign s = (neg, s1) -> last_in p s1 = true -> last_in p s = true.
Proof.
  intros H Hl. destruct (parse_sign_spec _ _ _ H) as [->|[c ->]]; [exact Hl|].
  rewrite last_in_cons; [exact Hl|]. now destruct s1.
Qed.

Lemma parse_exponent_end (s : string) (ex : Z) :
  parse_exponent s = (ex, "") -> s = "" \/ last_in is_digit s = true.
Proof.
  unfold parse_exponent. destruct s as [|c s1]; [auto|].
  destruct (Ascii.eqb (to_lower c) "e"); [|discriminate].
  destruct (parse_sign s1) as [neg s2] eqn:Hsign.
  destruct (span is_digit s2) as [ds s3] eqn:Hspan.
  destruct (is_empty ds) eqn:He; [discriminate|].
  intros H. inversion H; subst. right.
  apply span_spec in Hspan as (-> & Hds & _). rewrite append_nil_r in Hsign.
  apply is_empty_false in He.
  rewrite last_in_cons.
  - eapply last_in_after_sign; [exact Hsign|]. now apply last_in_all.
  - destruct (parse_sign_spec _ _ _ Hsign) as [->|[d ->]];
      [exact He | discriminate].
Qed.

Lemma digit_literal_end (c : ascii) : is_digit c = true -> literal_end c = true.
Proof. unfold literal_end. now intros ->. Qed.

Lemma parse_decimal_end (s : string) (v : float) :
  parse_decimal s = Some (v, "") -> last_in literal_end s = true.
Proof.
  unfold parse_decimal.
  destruct (parse_sign s) as [neg s1] eqn:Hsign.
  destruct (span is_digit s1) as [ip s2] eqn:Hip.
  apply span_spec in Hip as (-> & Hipd & _).
  intros H. apply (last_in_after_sign _ _ _ _ Hsign). clear Hsign.
  assert (Hdig : forall x, x <> "" -> str_all is_digit x = true ->
                           last_in literal_end x = true).
  { intros x Hx Hd. apply (last_in_impl is_digit); [apply digit_literal_end|].
    now apply last_in_all. }
  assert (Hexp : forall x ex, x <> "" -> parse_exponent x = (ex, "") ->
                              last_in literal_end x = true).
  { intros x ex Hx Hp. destruct (parse_exponent_end _ _ Hp) as [->|Hl];
      [contradiction|].
    now apply (last_in_impl is_digit); [apply digit_literal_end|]. }
  destruct s2 as [|c s2'].
  - (* no point, no exponent *)
    rewrite append_nil_r. simpl in H.
    destruct (is_empty ip) eqn:He; simpl in H; [discriminate|].
    apply Hdig; [now apply is_empty_false | exact Hipd].
  - destruct (Ascii.eqb_spec c ".") as [->|Hc].
    + destruct (span is_digit s2') as [fp s3] eqn:Hfp.
      apply span_spec in Hfp as (-> & Hfpd & _).
      destruct (is_empty ip && is_empty fp) eqn:He; [discriminate|].
      destruct (parse_exponent s3) as [ex s4] eqn:Hex.
      inversion H; subst. rewrite last_in_app by discriminate.
      destruct s3 as [|d s3'].
      * rewrite append_nil_r. destruct fp as [|d fp']; [reflexivity|].
        rewrite last_in_cons by discriminate. now apply Hdig.
      * rewrite last_in_cons by (now destruct fp).
        rewrite last_in_app by discriminate. now apply (Hexp _ ex).
    + destruct (is_empty ip && is_empty "") eqn:He; [discriminate|].
      destruct (parse_exponent (String c s2')) as [ex s4] eqn:Hex.
      inversion H; subst. rewrite last_in_app by discriminate.
      now apply (Hexp _ ex).
Qed.

Ltac split_eqb H :=
  repeat match type of H with
         | context [Ascii.eqb ?a ?b] => destruct (Ascii.eqb a b) eqn:?
         end.

Ltac literal_end_by_hyp :=
  unfold literal_end;
  repeat match goal with
         | E : Ascii.eqb _ _ = true |- _ => rewrite E
         end;
  rewrite ?orb_true_r; reflexivity.

Lemma parse_inf_or_nan_end (s : string) (v : float) :
  parse_inf_or_nan s = Some (v, "") -> last_in literal_end s = true.
Proof.
  unfold parse_inf_or_nan.
  destruct (parse_sign s) as [neg s1] eqn:Hsign.
  intros H. apply (last_in_after_sign _ _ _ _ Hsign). clear Hsign.
  destruct s1 as [|c1 [|c2 [|c3 s2]]]; simpl in H; split_eqb H;
    try discriminate;
    try (inversion H; subst; simpl; literal_end_by_hyp).
  destruct s2 as [|d1 [|d2 [|d3 [|d4 [|d5 s3]]]]]; simpl in H; split_eqb H;
    try discriminate;
    inversion H; subst; simpl; literal_end_by_hyp.
Qed.

(** A string that [float] accepts ends, white space apart, with a
    character of [literal_end]. *)
Lemma float_of_string_end (s : string) (v : float) :
  float_of_string s = Ok v -> last_in literal_end (strip_space s) = true.
Proof.
  unfold float_of_string, parse_float.
  destruct (parse_decimal (strip_space s)) as [[x r]|] eqn:Hd.
  - destruct r; [|discriminate]. intros _. now apply (parse_decimal_end _ x).
  - destruct (parse_inf_or_nan (strip_space s)) as [[x r]|] eqn:Hi;
      [|discriminate].
    destruct r; [|discriminate]. intros _.
    now apply (parse_inf_or_nan_end _ x).
Qed.

Lemma literal_end_not_space (c : ascii) :
  literal_end c = true -> is_space c = false.
Proof.
  destruct c as [[|] [|] [|] [|] [|] [|] [|] [|]]; vm_compute;
    intros; try reflexivity; discriminate.
Qed.

Lemma literal_end_not_mm_hole (c : ascii) :
  literal_end c = true -> str_mem c "mm hole" = false.
Proof.
  destruct c as [[|] [|] [|] [|] [|] [|] [|] [|]]; vm_compute;
    intros; try reflexivity; discriminate.
Qed.

Lemma last_in_nonempty (p : ascii -> bool) (s : string) :
  last_in p s = true -> s <> "".
Proof. destruct s; [discriminate | discriminate]. Qed.

Lemma starts_in_app (p : ascii -> bool) (a b : string) :
  a <> "" -> starts_in p (a ++ b) = starts_in p a.
Proof. destruct a; [contradiction | reflexivity]. Qed.

Lemma rstrip_class_drop (p : ascii -> bool) (a u : string) :
  str_all p u = true -> rstrip_class p (a ++ u) = rstrip_class p a.
Proof.
  intros Hu. induction a as [|c a IH]; simpl.
  - now apply rstrip_class_all.
  - now rewrite IH.
Qed.

(** Removing, at the right end, characters no float literal ends with
    does not change what [float] reads: beyond the literal there is only
    white space. *)
Lemma strip_space_rstrip (p : ascii -> bool) (t u : string) :
  (forall c, literal_end c = true -> p c = false) ->
  last_in literal_end (strip_space t) = true ->
  str_all p u = true ->
  strip_space (rstrip_class p (t ++ u)) = strip_space t.
Proof.
  intros Hp Hend Hu. rewrite (rstrip_class_drop _ _ _ Hu).
  unfold strip_space in *.
  destruct (lstrip_class_split is_space t) as (w1 & Ht & Hw1 & Hstart).
  destruct (rstrip_class_split is_space (lstrip_class is_space t))
    as (w2 & Ht1 & Hw2).
  remember (lstrip_class is_space t) as t1 eqn:Et1.
  remember (rstrip_class is_space t1) as core eqn:Ecore.
  assert (Hne : core <> "") by now apply (last_in_nonempty literal_end).
  assert (Hnp : last_in (fun c => negb (p c)) core = true).
  { apply (last_in_impl literal_end); [|exact Hend].
    intros c Hc. now rewrite (Hp c Hc). }
  assert (Hnq : last_in (fun c => negb (is_space c)) core = true).
  { apply (last_in_impl literal_end); [|exact Hend].
    intros c Hc. now rewrite (literal_end_not_space c Hc). }
  destruct (rstrip_class_split p w2) as (w4 & Hw2s & _).
  remember (rstrip_class p w2) as w3 eqn:Ew3.
  assert (Hw3 : str_all is_space w3 = true).
  { rewrite Hw2s, str_all_app in Hw2. now apply andb_true_iff in Hw2 as [? _]. }
  assert (E : rstrip_class p t = (w1 ++ core) ++ w3).
  { rewrite Ht at 1. rewrite Ht1 at 1. rewrite <- append_assoc, Ew3.
    apply rstrip_class_app. rewrite last_in_app by exact Hne. exact Hnp. }
  rewrite E, append_assoc, (lstrip_class_app _ _ _ Hw1).
  rewrite lstrip_class_id.
  - now apply rstrip_class_keep.
  - rewrite starts_in_app by exact Hne.
    rewrite Ht1 in Hstart. now rewrite starts_in_app in Hstart.
Qed.

Lemma float_of_string_rstrip (chars t u : string) (v : float) :
  (forall c, literal_end c = true -> str_mem c chars = false) ->
  str_all (fun c => str_mem c chars) u = true ->
  float_of_string t = Ok v ->
  float_of_string (rstrip chars (t ++ u)) = Ok v.
Proof.
  intros Hp Hu Hv. unfold float_of_string, rstrip in *.
  rewrite (strip_space_rstrip (fun c => str_mem c chars)); auto.
  now apply (float_of_string_end t v).
Qed.

(** [float] of a string of digits is the float nearest to the integer
    they denote. *)
Lemma float_of_string_digits (g : string) :
  g <> "" -> str_all is_digit g = true ->
  float_of_string g = Ok (float_of_decimal false (digits_val g) 0).
Proof.
  intros Hne Hd.
  assert (Hns : forall c, is_digit c = true -> is_space c = false).
  { intros c Hc. apply literal_end_not_space. now apply digit_literal_end. }
  assert (Hstrip : strip_space g = g).
  { unfold strip_space. rewrite lstrip_class_id.
    - rewrite <- (append_nil_r g) at 1. apply rstrip_class_keep; [|reflexivity].
      apply (last_in_impl is_digit); [|now apply last_in_all].
      intros c Hc. now rewrite (Hns c Hc).
    - destruct g as [|c g]; [contradiction|]. simpl in *.
      apply Hns. now apply andb_true_iff in Hd as [-> _]. }
  unfold float_of_string. rewrite Hstrip. unfold parse_float, parse_decimal.
  assert (Hsign : parse_sign g = (false, g)).
  { destruct g as [|c g]; [contradiction|]. simpl in *.
    apply andb_true_iff in Hd as [Hc _].
    destruct (Ascii.eqb_spec c "-") as [->|]; [discriminate|].
    destruct (Ascii.eqb_spec c "+") as [->|]; [discriminate|]. reflexivity. }
  rewrite Hsign.
  rewrite <- (append_nil_r g) at 1.
  rewrite (span_app is_digit g "" Hd eq_refl).
  apply is_empty_false in Hne. rewrite Hne. simpl.
  now rewrite append_nil_r.
Qed.

Lemma float_of_string_raise (s : string) (e : exn) :
  float_of_string s = Raise e -> e = ValueError.
Proof.
  unfold float_of_string.
  destruct (parse_float (strip_space s)) as [[x [|c r]]|]; congruence.
Qed.

(** ** The run of the script *)

Lemma CalcBGRate_run (env : environment) (args : Namespace)
    (run : list pyval) (w : world) :
  CalcBGRate_args env args run w =
    match conditions_args args run with
    | Raise e => (Raise e, w)
    | Ok c =>
        (CBRC_page <- http_get env (webAddr ++ c) ;; read_rate CBRC_page,
         log_request (webAddr ++ c) w)
    end.
Proof.
  unfold CalcBGRate_args, CalcBGRate, conditions_args, bind, lift,
    urlopen_read.
  destruct (conditions _ _ _ _ _ _ _ _ _ _ _ _) as [c|e]; [|reflexivity].
  destruct (http_get env (webAddr ++ c)); reflexivity.
Qed.

Lemma CalcBGRate_result (env : environment) (args : Namespace)
    (run : list pyval) (w : world) :
  fst (CalcBGRate_args env args run w) = rate_of env args run /\
  files (snd (CalcBGRate_args env args run w)) = files w.
Proof.
  rewrite CalcBGRate_run. unfold rate_of.
  destruct (conditions_args args run); simpl; auto.
Qed.

Lemma write_run_step (env : environment) (args : Namespace) (f : string)
    (run : list pyval) (w : world) :
  fst (write_run env args f run w) =
    (r <- rate_of env args run ;; Ok tt) /\
  files (snd (write_run env args f run w)) =
    match rate_of env args run with
    | Ok r => <[f := default "" (files w !! f) ++ data_line run r]> (files w)
    | Raise _ => files w
    end.
Proof.
  destruct (CalcBGRate_result env args run w) as [Hr Hf].
  unfold write_run, bind. fold (CalcBGRate_args env args run).
  destruct (CalcBGRate_args env args run w) as [[r|e] w1]; simpl in *;
    rewrite <- Hr; simpl; [|auto].
  now rewrite Hf.
Qed.

Lemma for_each_written (env : environment) (args : Namespace) (f : string)
    (table : list (list pyval)) (w : world) (content : string) :
  files w !! f = Some content ->
  fst (for_each table (write_run env args f) w) =
    snd (written env args table) /\
  files (snd (for_each table (write_run env args f) w)) =
    <[f := content ++ fst (written env args table)]> (files w).
Proof.
  revert w content. induction table as [|run rest IH]; intros w content Hw.
  - simpl. rewrite append_nil_r. split; [reflexivity|].
    symmetry. now apply insert_id.
  - destruct (write_run_step env args f run w) as [Hr Hf].
    simpl. unfold bind.
    destruct (write_run env args f run w) as [[[]|e] w1]; simpl in *.
    + destruct (rate_of env args run) as [r|]; [|discriminate].
      rewrite Hw in Hf. simpl in Hf.
      destruct (IH w1 (content ++ data_line run r)) as [IHr IHf].
      { rewrite Hf. apply lookup_insert_eq. }
      destruct (written env args rest) as [s res]. simpl in *.
      split; [exact IHr|].
      rewrite IHf, Hf, insert_insert_eq. now rewrite append_assoc.
    + destruct (rate_of env args run) as [r|e']; [discriminate|].
      simpl in *. rewrite append_nil_r. split; [congruence|].
      rewrite Hf. symmetry. now apply insert_id.
Qed.

Lemma script_unfold (env : environment) (c : cmdline) (w : world) :
  let args := parse_args c in
  let f := fileName args in
  let w1 := {| files := <[f := header]> (files w); requests := requests w |} in
  script env c w =
    match BGRate_RCDB_values env args (minRun args) (maxRun args) with
    | Raise e => (Raise e, w1)
    | Ok table => for_each table (write_run env args f) w1
    end.
Proof.
  intros args f w1. unfold script, bind, open_w, file_write, lift.
  fold args. fold f. simpl files. simpl requests.
  rewrite lookup_insert_eq. simpl default. rewrite insert_insert_eq.
  simpl append. fold w1.
  now destruct (BGRate_RCDB_values env args (minRun args) (maxRun args)).
Qed.

(** The whole run: the result is the first exception, if any, and the
    output file holds the header and the lines written before it. *)
Lemma script_run (env : environment) (c : cmdline) (w : world) :
  let args := parse_args c in
  let f := fileName args in
  match BGRate_RCDB_values env args (minRun args) (maxRun args) with
  | Raise e =>
      fst (script env c w) = Raise e /\
      files (snd (script env c w)) = <[f := header]> (files w)
  | Ok table =>
      fst (script env c w) = snd (written env args table) /\
      files (snd (script env c w)) =
        <[f := header ++ fst (written env args table)]> (files w)
  end.
Proof.
  intros args f. rewrite script_unfold. fold args. fold f.
  destruct (BGRate_RCDB_values env args (minRun args) (maxRun args))
    as [table|e]; [|simpl; auto].
  match goal with
  | |- context [for_each table _ ?w0] =>
      destruct (for_each_written env args f table w0 header) as [Hr Hf]
  end.
  { simpl. apply lookup_insert_eq. }
  split; [exact Hr|]. rewrite Hf. simpl. apply insert_insert_eq.
Qed.

(** ** The output file *)

(** The result of a run and the content of its output file depend on
    the command line, the database and the server only. *)
Lemma script_files (env : environment) (c : cmdline) :
  exists (r : result unit) (content : string),
    (exists s, content = header ++ s) /\
    forall w,
      fst (script env c w) = r /\
      files (snd (script env c w)) =
        <[fileName (parse_args c) := content]> (files w).
Proof.
  pose proof (script_run env c) as H. cbv zeta in H.
  destruct (BGRate_RCDB_values env (parse_args c) (minRun (parse_args c))
              (maxRun (parse_args c))) as [table|e].
  - exists (snd (written env (parse_args c) table)),
      (header ++ fst (written env (parse_args c) table)).
    split; [eauto | exact H].
  - exists (Raise e), header. split; [|exact H].
    exists "". now rewrite append_nil_r.
Qed.

(** C9: the name of the output file is fixed by the minimum and maximum
    run numbers of the command line alone; opening it truncates it, so
    what it holds after a run does not depend on what any file held
    before, no other file changes, and a second run with the same
    command line, database and server leaves the same files and ends
    the same way as the first. *)
Theorem output_file_overwritten (env : environment) (c : cmdline)
    (w w' : world) :
  let f := fileName (parse_args c) in
  f = "BGRateRCDBValue_" ++ given_or_None (opt_minRun c) ++ "-" ++
      given_or_None (opt_maxRun c) ++ ".csv" /\
  is_Some (files (snd (script env c w)) !! f) /\
  files (snd (script env c w)) !! f = files (snd (script env c w')) !! f /\
  delete f (files (snd (script env c w))) = delete f (files w) /\
  files (snd (script env c (snd (script env c w)))) =
    files (snd (script env c w)) /\
  fst (script env c (snd (script env c w))) = fst (script env c w).
Proof.
  intros f. destruct (script_files env c) as (r & content & _ & H).
  fold f in H.
  destruct (H w) as [Hr Hf]. destruct (H w') as [_ Hf'].
  destruct (H (snd (script env c w))) as [Hr2 Hf2].
  split; [|repeat split].
  - unfold f, fileName, parse_args. simpl.
    now destruct (opt_minRun c), (opt_maxRun c).
  - rewrite Hf, lookup_insert_eq. eauto.
  - now rewrite Hf, Hf', !lookup_insert_eq.
  - rewrite Hf. apply delete_insert_eq.
  - rewrite Hf2, Hf. apply insert_insert_eq.
  - now rewrite Hr2, Hr.
Qed.

(** ** Options given on the command line *)

Lemma percent_g_raise (before : string) (v : pyval) (e : exn) :
  percent_g before v = Raise e -> e = TypeError.
Proof.
  unfold percent_g, fmt_g, float_arg.
  destruct v as [|n|x|s]; simpl; try congruence.
  destruct (float_of_int n); simpl; congruence.
Qed.

Lemma percent_i_raise (before : string) (v : pyval) (e : exn) :
  percent_i before v = Raise e -> e = TypeError.
Proof.
  unfold percent_i, fmt_i.
  destruct v as [|n|x|s]; simpl; try congruence.
  destruct (float_trunc x); simpl; congruence.
Qed.

Lemma percent_g_str (before : string) (v : pyval) (s : string) :
  is_str v = true -> percent_g before v <> Ok s.
Proof. destruct v; simpl; discriminate. Qed.

Lemma percent_i_str (before : string) (v : pyval) (s : string) :
  is_str v = true -> percent_i before v <> Ok s.
Proof. destruct v; simpl; discriminate. Qed.

(** A string among the physics values stops [CalcBGRate] in its first
    lines, whatever the row. *)
Lemma conditions_str_TypeError (args : Namespace) (run : list pyval) :
  existsb is_str (physics_values args) = true ->
  conditions_args args run = Raise TypeError.
Proof.
  unfold conditions_args, conditions, physics_values. intros H.
  repeat match goal with
  | |- context [rbind (percent_g ?b ?v) _] =>
      let E := fresh "E" in
      destruct (percent_g b v) as [?s|?e] eqn:E; cbn [rbind];
        [|now rewrite (percent_g_raise _ _ _ E)]
  | |- context [rbind (percent_i ?b ?v) _] =>
      let E := fresh "E" in
      destruct (percent_i b v) as [?s|?e] eqn:E; cbn [rbind];
        [|now rewrite (percent_i_raise _ _ _ E)]
  end.
  exfalso. cbn [existsb] in H.
  repeat (apply orb_true_iff in H as [H|H];
          [first [ now eapply percent_g_str; eauto
                 | now eapply percent_i_str; eauto ] |]).
  discriminate.
Qed.

Lemma store_given (o : option string) (d : pyval) :
  (exists s, o = Some s) -> is_str (store o d) = true.
Proof. now intros [s ->]. Qed.

Lemma given_option_is_str (c : cmdline) :
  (exists s, In (Some s) (physics_options c)) ->
  existsb is_str (physics_values (parse_args c)) = true.
Proof.
  intros [s Hin]. unfold physics_options in Hin.
  unfold physics_values, parse_args. cbn [beamEmittance photonNbins
    photonEmax photonEmin collimDistance peakElow peakEhigh backElow
    backEhigh endpElow endpEhigh existsb].
  cbn [In] in Hin.
  repeat (destruct Hin as [Hin|Hin];
          [rewrite Hin; cbn [store is_str]; now rewrite ?orb_true_r |]).
  contradiction.
Qed.

Lemma default_strings :
  percent_g "&beamEmittance=" (PyFloat (float_lit "10e-09"))
    = Ok "&beamEmittance=1e-08" /\
  percent_i "&photonNbins=" (PyInt 2000) = Ok "&photonNbins=2000" /\
  percent_g "&photonEmax=" (PyInt 12) = Ok "&photonEmax=12" /\
  percent_g "&photonEmin=" (PyInt 3) = Ok "&photonEmin=3" /\
  percent_g "&collimDistance=" (PyInt 76) = Ok "&collimDistance=76" /\
  percent_g "&peakElow=" (PyFloat (float_lit "8.4")) = Ok "&peakElow=8.4" /\
  percent_g "&peakEhigh=" (PyInt 9) = Ok "&peakEhigh=9" /\
  percent_g "&backElow=" (PyFloat (float_lit "0.1")) = Ok "&backElow=0.1" /\
  percent_g "&backEhigh=" (PyInt 3) = Ok "&backEhigh=3" /\
  percent_g "&endpElow=" (PyInt 10) = Ok "&endpElow=10" /\
  percent_g "&endpEhigh=" (PyFloat (float_lit "11.7")) = Ok "&endpEhigh=11.7".
Proof. vm_compute. repeat split; reflexivity. Qed.

Lemma conditions_defaults (c : cmdline) (run : list pyval) :
  conditions_args (parse_args (defaults_only c)) run = default_conditions run.
Proof.
  destruct default_strings
    as (E1 & E2 & E3 & E4 & E5 & E6 & E7 & E8 & E9 & E10 & E11).
  unfold conditions_args, conditions, default_conditions, parse_args,
    defaults_only.
  cbn [beamEmittance photonNbins photonEmax photonEmin collimDistance
       peakElow peakEhigh backElow backEhigh endpElow endpEhigh store
       opt_beamEmittance opt_photonNbins opt_photonEmax opt_photonEmin
       opt_collimDistance opt_peakElow opt_peakEhigh opt_backElow
       opt_backEhigh opt_endpElow opt_endpEhigh].
  rewrite E1, E2, E3, E4, E5, E6, E7, E8, E9, E10, E11. cbn [rbind].
  destruct (milli run 2) as [bc|]; [|reflexivity].
  destruct (milli run 3) as [be|]; [|reflexivity].
  destruct (milli run 4) as [ep|]; [|reflexivity].
  destruct (collimDiam run) as [cd|]; [|reflexivity].
  destruct (radThickness run) as [rt|]; reflexivity.
Qed.

(** C10: a physics option given on the command line is stored as a
    string (no [type=] is declared): one of the eleven values handed to
    [CalcBGRate] is then a string, the ['%g'] and ['%i'] conversions at
    the top of [CalcBGRate] raise a [TypeError] for every row, before
    any request is sent, and with a result set that is not empty the
    script stops at the first row with exit status 1, the output file
    holding the header only.  Without such options the defaults, which
    are numbers, pass these conversions. *)
Theorem given_physics_option_aborts (env : environment) (c : cmdline) :
  (exists s, In (Some s) (physics_options c)) ->
  let args := parse_args c in
  existsb is_str (physics_values args) = true /\
  (forall run w, CalcBGRate_args env args run w = (Raise TypeError, w)) /\
  (forall w run rest,
     BGRate_RCDB_values env args (minRun args) (maxRun args)
       = Ok (run :: rest) ->
     fst (script env c w) = Raise TypeError /\
     exit_status (fst (script env c w)) = 1 /\
     files (snd (script env c w)) !! fileName args = Some header) /\
  (forall run,
     conditions_args (parse_args (defaults_only c)) run
       = default_conditions run).
Proof.
  intros Hgiven args.
  assert (Hc : forall run, conditions_args args run = Raise TypeError).
  { intros run. apply conditions_str_TypeError.
    now apply given_option_is_str. }
  split; [now apply given_option_is_str|]. split; [|split].
  - intros run w. rewrite CalcBGRate_run. now rewrite Hc.
  - intros w run rest Hq. pose proof (script_run env c w) as H.
    cbv zeta in H. fold args in H. rewrite Hq in H.
    cbn [written] in H. unfold rate_of in H. rewrite Hc in H.
    cbn [rbind fst snd] in H. destruct H as [Hr Hf].
    rewrite Hr, Hf, append_nil_r. repeat split. apply lookup_insert_eq.
  - intros run. apply conditions_defaults.
Qed.

Lemma given_physics_option_aborts_witness :
  fst (script (stub_env [sample_run] sample_page) cmdline_with_Nbins
         empty_world) = Raise TypeError /\
  exit_status
    (fst (script (stub_env [sample_run] sample_page) cmdline_with_Nbins
            empty_world)) = 1 /\
  files (snd (script (stub_env [sample_run] sample_page) cmdline_with_Nbins
                empty_world))
    !! fileName (parse_args cmdline_with_Nbins) = Some header.
Proof.
  assert (H : exists s, In (Some s) (physics_options cmdline_with_Nbins)).
  { exists "3000". simpl. auto. }
  destruct (given_physics_option_aborts
              (stub_env [sample_run] sample_page) cmdline_with_Nbins H)
    as (_ & _ & Hrun & _).
  apply (Hrun empty_world sample_row []). reflexivity.
Defined.

(** ** The rate read from the page *)

Lemma match_here_flux_at (s : string) (r : option string) :
  match_here flux_pattern s = Some r <-> exists num, r = Some num /\ flux_at s num.
Proof.
  rewrite match_here_flux. split.
  - destruct (strip_prefix flux_marker s) as [s1|] eqn:Hp; [|discriminate].
    apply strip_prefix_some in Hp.
    destruct (span (in_class number_class) s1) as [g rest] eqn:Hs.
    apply span_spec in Hs as (-> & Hg & Hrest). simpl.
    destruct (is_empty g) eqn:He; [discriminate|].
    intros H. inversion H; subst. exists g. split; [reflexivity|].
    exists rest. apply is_empty_false in He. auto.
  - intros (num & -> & rest & -> & Hne & Hall & Hrest).
    rewrite strip_prefix_app, (span_app _ _ _ Hall Hrest). simpl.
    apply is_empty_false in Hne. now rewrite Hne.
Qed.

(** The first place of the page where the marker is followed by a
    number text is the one [search] returns. *)
Lemma search_flux_first (pre tail num : string) :
  flux_at tail num ->
  (forall p1 p2 n, pre = p1 ++ p2 -> p2 <> "" -> ~ flux_at (p2 ++ tail) n) ->
  search flux_pattern (pre ++ tail) = Some (Some num).
Proof.
  intros Hat Hfirst. rewrite search_skip.
  - apply search_here. apply match_here_flux_at. eauto.
  - intros p1 p2 Hpre Hp2.
    destruct (match_here flux_pattern (p2 ++ tail)) as [r|] eqn:Hm;
      [|reflexivity].
    apply match_here_flux_at in Hm as (n & _ & Hn).
    now destruct (Hfirst p1 p2 n Hpre Hp2).
Qed.

Lemma fails_within_flux (pre tail : string) :
  fails_within flux_pattern pre tail = true ->
  forall p1 p2 n, pre = p1 ++ p2 -> p2 <> "" -> ~ flux_at (p2 ++ tail) n.
Proof.
  induction pre as [|c pre IH]; intros H p1 p2 n Hpre Hp2 Hat.
  - symmetry in Hpre. apply append_is_nil in Hpre as [_ ->]. contradiction.
  - cbn [fails_within] in H.
    destruct (match_here flux_pattern (String c pre ++ tail)) eqn:Hm;
      [discriminate|].
    destruct p1 as [|d p1]; simpl in Hpre.
    + subst p2.
      assert (Hs : match_here flux_pattern (String c pre ++ tail)
                   = Some (Some n)) by (apply match_here_flux_at; eauto).
      congruence.
    + inversion Hpre; subst. now apply (IH H p1 p2 n).
Qed.

(** C1 (amended): when the request can be built and the answer of the
    server contains the marker ['<tr><td><b> Endpoint tagged flux sum
    is '] followed by a run of characters of [[0-9.E+-]], [CalcBGRate]
    takes the first such place and reads the longest run there: when
    it is a float literal, the rate returned is that float times
    [10**(-9)]; when it is not, [CalcBGRate] raises [ValueError]. *)
Theorem rate_from_first_marker (env : environment) (args : Namespace)
    (run : list pyval) (w : world) (c pre tail num : string) :
  conditions_args args run = Ok c ->
  http_get env (webAddr ++ c) = Ok (pre ++ tail) ->
  flux_at tail num ->
  (forall p1 p2 n, pre = p1 ++ p2 -> p2 <> "" -> ~ flux_at (p2 ++ tail) n) ->
  search_group1 flux_pattern (PyStr (pre ++ tail)) = Ok num /\
  fst (CalcBGRate_args env args run w) =
    match float_of_string num with
    | Ok x => Ok (fmul x (pow10_neg 9))
    | Raise _ => Raise ValueError
    end.
Proof.
  intros Hc Hget Hat Hfirst.
  rewrite CalcBGRate_run, Hc. cbn [fst]. rewrite Hget. cbn [rbind].
  unfold read_rate, search_group1.
  rewrite (search_flux_first _ _ _ Hat Hfirst). cbn [rbind].
  split; [reflexivity|].
  destruct (float_of_string num) as [x|e] eqn:Hx; cbn [rbind];
    [reflexivity|].
  now rewrite (float_of_string_raise num e Hx).
Qed.

Lemma rate_from_first_marker_witness :
  (search_group1 flux_pattern (PyStr sample_page) = Ok "1.23E+05" /\
   fst (CalcBGRate_args (stub_env [sample_run] sample_page)
          (parse_args sample_cmdline) sample_row empty_world)
     = Ok (fmul (float_lit "1.23E+05") (pow10_neg 9))) /\
  (search_group1 flux_pattern (PyStr dotted_page) = Ok "1.2.3" /\
   fst (CalcBGRate_args (stub_env [sample_run] dotted_page)
          (parse_args sample_cmdline) sample_row empty_world)
     = Raise ValueError).
Proof.
  split.
  - apply (rate_from_first_marker (stub_env [sample_run] sample_page)
             (parse_args sample_cmdline) sample_row empty_world
             "?&beamEnergy=11.6087&beamCurrent=1&beamEmittance=1e-08&radThickness=0.00075&photonEpeak=9&photonNbins=2000&photonEmax=12&photonEmin=3&collimDistance=76&collimDiam=0.005&peakElow=8.4&peakEhigh=9&backElow=0.1&backEhigh=3&endpElow=10&endpEhigh=11.7&run=plot+collimated+beam+rate+spectrum"
             "<html><body><table>"
             "<tr><td><b> Endpoint tagged flux sum is 1.23E+05</b> Hz</td></tr></table></body></html>"
             "1.23E+05").
    + vm_compute. reflexivity.
    + reflexivity.
    + exists "</b> Hz</td></tr></table></body></html>".
      split; [reflexivity|]. split; [discriminate|]. split; reflexivity.
    + apply fails_within_flux. vm_compute. reflexivity.
  - apply (rate_from_first_marker (stub_env [sample_run] dotted_page)
             (parse_args sample_cmdline) sample_row empty_world
             "?&beamEnergy=11.6087&beamCurrent=1&beamEmittance=1e-08&radThickness=0.00075&photonEpeak=9&photonNbins=2000&photonEmax=12&photonEmin=3&collimDistance=76&collimDiam=0.005&peakElow=8.4&peakEhigh=9&backElow=0.1&backEhigh=3&endpElow=10&endpEhigh=11.7&run=plot+collimated+beam+rate+spectrum"
             ""
             "<tr><td><b> Endpoint tagged flux sum is 1.2.3</b>"
             "1.2.3").
    + vm_compute. reflexivity.
    + reflexivity.
    + exists "</b>".
      split; [reflexivity|]. split; [discriminate|]. split; reflexivity.
    + apply fails_within_flux. vm_compute. reflexivity.
Defined.

(** C1 as stated fails: a page that contains the text "Endpoint tagged
    flux sum is 1.23E+05" without the table markup in front of it is
    not matched, and [CalcBGRate] raises [AttributeError]. *)
Lemma marker_text_without_markup :
  float_of_string "1.23E+05" = Ok (float_lit "1.23E+05") /\
  fst (CalcBGRate_args
         (stub_env [sample_run] "Endpoint tagged flux sum is 1.23E+05")
         (parse_args sample_cmdline) sample_row empty_world)
    = Raise AttributeError.
Proof. vm_compute. split; reflexivity. Qed.

(** ** The query string *)

Lemma percent_g_ok (before : string) (v : pyval) (s : string) :
  percent_g before v = Ok s <->
  exists x, float_arg v = Ok x /\ s = before ++ format_g x.
Proof.
  unfold percent_g, fmt_g. split.
  - destruct (float_arg v) as [x|]; simpl; [|discriminate].
    intros H. inversion H. eauto.
  - intros (x & -> & ->). reflexivity.
Qed.

Lemma percent_i_ok (before : string) (v : pyval) (s : string) :
  percent_i before v = Ok s <->
  exists t, fmt_i v = Ok t /\ s = before ++ t.
Proof.
  unfold percent_i. split.
  - destruct (fmt_i v) as [t|]; simpl; [|discriminate].
    intros H. inversion H. eauto.
  - intros (t & -> & ->). reflexivity.
Qed.

Ltac norm_append :=
  repeat rewrite append_assoc; cbn [String.append].

(** [conditions] succeeds exactly when the eleven physics values can be
    formatted and the five values of the row can be computed, and its
    value is then [query_string] of them. *)
Lemma conditions_ok (args : Namespace) (run : list pyval) (c : string) :
  conditions_args args run = Ok c <->
  exists be bc emittance rt ep nbins emax emin distance cd pl ph bl bh el eh,
    float_arg (beamEmittance args) = Ok emittance /\
    fmt_i (photonNbins args) = Ok nbins /\
    float_arg (photonEmax args) = Ok emax /\
    float_arg (photonEmin args) = Ok emin /\
    float_arg (collimDistance args) = Ok distance /\
    float_arg (peakElow args) = Ok pl /\
    float_arg (peakEhigh args) = Ok ph /\
    float_arg (backElow args) = Ok bl /\
    float_arg (backEhigh args) = Ok bh /\
    float_arg (endpElow args) = Ok el /\
    float_arg (endpEhigh args) = Ok eh /\
    milli run 2 = Ok bc /\
    milli run 3 = Ok be /\
    milli run 4 = Ok ep /\
    collimDiam run = Ok cd /\
    radThickness run = Ok rt /\
    c = query_string be bc emittance rt ep nbins emax emin distance cd
          pl ph bl bh el eh.
Proof.
  unfold conditions_args, conditions. split.
  - repeat match goal with
    | |- context [rbind (percent_g ?b ?v) _] =>
        let E := fresh "E" in
        destruct (percent_g b v) as [?s|?e] eqn:E; cbn [rbind];
          [apply percent_g_ok in E as (? & ? & ->) | discriminate]
    | |- context [rbind (percent_i ?b ?v) _] =>
        let E := fresh "E" in
        destruct (percent_i b v) as [?s|?e] eqn:E; cbn [rbind];
          [apply percent_i_ok in E as (? & ? & ->) | discriminate]
    end.
    destruct (milli run 2) as [bc|]; cbn [rbind]; [|discriminate].
    destruct (milli run 3) as [be|]; cbn [rbind]; [|discriminate].
    destruct (milli run 4) as [ep|]; cbn [rbind]; [|discriminate].
    destruct (collimDiam run) as [cd|]; cbn [rbind]; [|discriminate].
    destruct (radThickness run) as [rt|]; cbn [rbind]; [|discriminate].
    intros Hok. inversion Hok; subst c. clear Hok.
    do 16 eexists. repeat (split; [eassumption || reflexivity|]).
    unfold query_string. norm_append. reflexivity.
  - intros (be & bc & emittance & rt & ep & nbins & emax & emin & distance
            & cd & pl & ph & bl & bh & el & eh & H1 & H2 & H3 & H4 & H5 & H6
            & H7 & H8 & H9 & H10 & H11 & Hbc & Hbe & Hep & Hcd & Hrt & ->).
    unfold percent_g, percent_i, fmt_g.
    rewrite H1, H2, H3, H4, H5, H6, H7, H8, H9, H10, H11. cbn [rbind].
    rewrite Hbc, Hbe, Hep, Hcd, Hrt. cbn [rbind].
    unfold query_string. norm_append. reflexivity.
Qed.

Lemma is_ok_true {A} (r : result A) : is_ok r = true -> exists a, r = Ok a.
Proof. destruct r; [eauto | discriminate]. Qed.

(** With numbers everywhere else, only the collimator and the radiator
    text decide whether the query string can be built. *)
Lemma conditions_numeric (args : Namespace) (run : list pyval) :
  numeric_physics args = true -> numeric_row run = true ->
  exists q : float -> float -> string,
    conditions_args args run =
      (cd <- collimDiam run ;; rt <- radThickness run ;; Ok (q cd rt)).
Proof.
  unfold numeric_physics, numeric_row. intros Hp Hr.
  apply andb_true_iff in Hp as [Hp [eh H11]%is_ok_true].
  apply andb_true_iff in Hp as [Hp [el H10]%is_ok_true].
  apply andb_true_iff in Hp as [Hp [bh H9]%is_ok_true].
  apply andb_true_iff in Hp as [Hp [bl H8]%is_ok_true].
  apply andb_true_iff in Hp as [Hp [ph H7]%is_ok_true].
  apply andb_true_iff in Hp as [Hp [pl H6]%is_ok_true].
  apply andb_true_iff in Hp as [Hp [distance H5]%is_ok_true].
  apply andb_true_iff in Hp as [Hp [emin H4]%is_ok_true].
  apply andb_true_iff in Hp as [Hp [emax H3]%is_ok_true].
  apply andb_true_iff in Hp as [[emittance H1]%is_ok_true
                                [nbins H2]%is_ok_true].
  apply andb_true_iff in Hr as [Hr [ep Hep]%is_ok_true].
  apply andb_true_iff in Hr as [[bc Hbc]%is_ok_true [be Hbe]%is_ok_true].
  exists (fun cd rt => query_string be bc emittance rt ep nbins emax emin
                         distance cd pl ph bl bh el eh).
  unfold conditions_args, conditions, percent_g, percent_i, fmt_g.
  rewrite H1, H2, H3, H4, H5, H6, H7, H8, H9, H10, H11. cbn [rbind].
  rewrite Hbc, Hbe, Hep. cbn [rbind].
  destruct (collimDiam run) as [cd|]; cbn [rbind]; [|reflexivity].
  destruct (radThickness run) as [rt|]; cbn [rbind]; [|reflexivity].
  unfold query_string. norm_append. reflexivity.
Qed.

(** C2 (amended): when the eleven physics values are numbers and the
    five values of the row can be computed, [CalcBGRate] sends one
    request, to the fixed address followed by the query string that
    names the sixteen values in a fixed order and ends with the fixed
    directive; every value is written with ['%g'] except the bin count
    [photonNbins], which is written as an integer with ['%i']. *)
Theorem request_query_string (env : environment) (args : Namespace)
    (run : list pyval) (w : world)
    (be bc emittance rt ep : float) (nbins : string)
    (emax emin distance cd pl ph bl bh el eh : float) :
  float_arg (beamEmittance args) = Ok emittance ->
  fmt_i (photonNbins args) = Ok nbins ->
  float_arg (photonEmax args) = Ok emax ->
  float_arg (photonEmin args) = Ok emin ->
  float_arg (collimDistance args) = Ok distance ->
  float_arg (peakElow args) = Ok pl ->
  float_arg (peakEhigh args) = Ok ph ->
  float_arg (backElow args) = Ok bl ->
  float_arg (backEhigh args) = Ok bh ->
  float_arg (endpElow args) = Ok el ->
  float_arg (endpEhigh args) = Ok eh ->
  milli run 2 = Ok bc ->
  milli run 3 = Ok be ->
  milli run 4 = Ok ep ->
  collimDiam run = Ok cd ->
  radThickness run = Ok rt ->
  snd (CalcBGRate_args env args run w) =
    log_request
      (webAddr ++ query_string be bc emittance rt ep nbins emax emin
                    distance cd pl ph bl bh el eh) w /\
  (forall n, photonNbins args = PyInt n -> nbins = string_of_Z n).
Proof.
  intros H1 H2 H3 H4 H5 H6 H7 H8 H9 H10 H11 Hbc Hbe Hep Hcd Hrt.
  assert (Hc : conditions_args args run =
               Ok (query_string be bc emittance rt ep nbins emax emin
                     distance cd pl ph bl bh el eh)).
  { apply conditions_ok. do 16 eexists.
    repeat (split; [eassumption|]). reflexivity. }
  rewrite CalcBGRate_run, Hc. split; [reflexivity|].
  intros n Hn. rewrite Hn in H2. simpl in H2. congruence.
Qed.

Lemma request_query_string_witness :
  snd (CalcBGRate_args (stub_env [sample_run] sample_page)
         million_bins sample_row empty_world) =
    log_request
      "http://zeus.phys.uconn.edu/halld/cobrems/ratetool.cgi?&beamEnergy=11.6087&beamCurrent=1&beamEmittance=1e-08&radThickness=0.00075&photonEpeak=9&photonNbins=1000000&photonEmax=12&photonEmin=3&collimDistance=76&collimDiam=0.005&peakElow=8.4&peakEhigh=9&backElow=0.1&backEhigh=3&endpElow=10&endpEhigh=11.7&run=plot+collimated+beam+rate+spectrum"
      empty_world.
Proof.
  refine (eq_trans
    (proj1 (request_query_string (stub_env [sample_run] sample_page)
       million_bins sample_row empty_world
       (fmul (float_lit "11608.7") (pow10_neg 3))
       (fmul (float_lit "1000") (pow10_neg 3))
       (float_lit "10e-09")
       (fmul (float_lit "750") (pow10_neg 6))
       (fmul (float_lit "9000") (pow10_neg 3))
       "1000000" (float_lit "12") (float_lit "3") (float_lit "76")
       (fmul (float_lit "5") (pow10_neg 3))
       (float_lit "8.4") (float_lit "9") (float_lit "0.1") (float_lit "3")
       (float_lit "10") (float_lit "11.7")
       _ _ _ _ _ _ _ _ _ _ _ _ _ _ _ _)) _);
    vm_compute; reflexivity.
Defined.

(** C2 as stated fails: with a bin count of one million the request
    carries [photonNbins=1000000] where ['%g'] would give [1e+06], and
    a bin count given on the command line, a string, is not serialized
    at all. *)
Lemma bin_count_not_percent_g :
  conditions_args million_bins sample_row =
    Ok "?&beamEnergy=11.6087&beamCurrent=1&beamEmittance=1e-08&radThickness=0.00075&photonEpeak=9&photonNbins=1000000&photonEmax=12&photonEmin=3&collimDistance=76&collimDiam=0.005&peakElow=8.4&peakEhigh=9&backElow=0.1&backEhigh=3&endpElow=10&endpEhigh=11.7&run=plot+collimated+beam+rate+spectrum" /\
  conditions_all_g million_bins sample_row =
    Ok "?&beamEnergy=11.6087&beamCurrent=1&beamEmittance=1e-08&radThickness=0.00075&photonEpeak=9&photonNbins=1e+06&photonEmax=12&photonEmin=3&collimDistance=76&collimDiam=0.005&peakElow=8.4&peakEhigh=9&backElow=0.1&backEhigh=3&endpElow=10&endpEhigh=11.7&run=plot+collimated+beam+rate+spectrum" /\
  conditions_args (parse_args cmdline_with_Nbins) sample_row
    = Raise TypeError.
Proof. vm_compute. repeat split; reflexivity. Qed.

(** ** The values taken from the row *)

Lemma milli_ok (run : list pyval) (i : nat) (v : pyval) (x : float) :
  nth_error run i = Some v -> float_operand v = Ok x ->
  milli run i = Ok (fmul x (pow10_neg 3)).
Proof.
  intros Hv Hx. unfold milli, py_index, py_mul_float.
  rewrite Hv. cbn [rbind]. now rewrite Hx.
Qed.

(** C6: beam current, beam energy and coherent-peak energy (a float, or
    an integer, which is converted to float) are each multiplied by
    [10**(-3)] and the products are what the query string carries under
    [beamCurrent], [beamEnergy] and [photonEpeak]; a beam current of
    1000, integer or float, is serialized as [beamCurrent=1]. *)
Theorem current_and_energies_scaled :
  (forall (args : Namespace) (run : list pyval) (c : string)
          (v2 v3 v4 : pyval) (x2 x3 x4 : float),
     nth_error run 2 = Some v2 -> float_operand v2 = Ok x2 ->
     nth_error run 3 = Some v3 -> float_operand v3 = Ok x3 ->
     nth_error run 4 = Some v4 -> float_operand v4 = Ok x4 ->
     conditions_args args run = Ok c ->
     exists mid rest,
       c = "?&beamEnergy=" ++ format_g (fmul x3 (pow10_neg 3)) ++
           "&beamCurrent=" ++ format_g (fmul x2 (pow10_neg 3)) ++
           mid ++
           "&photonEpeak=" ++ format_g (fmul x4 (pow10_neg 3)) ++
           rest) /\
  float_operand (PyInt 1000) = Ok (float_lit "1000") /\
  float_operand (PyFloat (float_lit "1000")) = Ok (float_lit "1000") /\
  format_g (fmul (float_lit "1000") (pow10_neg 3)) = "1" /\
  conditions_args (parse_args sample_cmdline) sample_row =
    Ok "?&beamEnergy=11.6087&beamCurrent=1&beamEmittance=1e-08&radThickness=0.00075&photonEpeak=9&photonNbins=2000&photonEmax=12&photonEmin=3&collimDistance=76&collimDiam=0.005&peakElow=8.4&peakEhigh=9&backElow=0.1&backEhigh=3&endpElow=10&endpEhigh=11.7&run=plot+collimated+beam+rate+spectrum".
Proof.
  split; [|vm_compute; repeat split; reflexivity].
  intros args run c v2 v3 v4 x2 x3 x4 Hv2 Hx2 Hv3 Hx3 Hv4 Hx4 Hc.
  apply conditions_ok in Hc
    as (be & bc & emittance & rt & ep & nbins & emax & emin & distance
        & cd & pl & ph & bl & bh & el & eh & _ & _ & _ & _ & _ & _ & _ & _
        & _ & _ & _ & Hbc & Hbe & Hep & _ & _ & ->).
  rewrite (milli_ok _ _ _ _ Hv2 Hx2) in Hbc.
  rewrite (milli_ok _ _ _ _ Hv3 Hx3) in Hbe.
  rewrite (milli_ok _ _ _ _ Hv4 Hx4) in Hep.
  inversion Hbc; inversion Hbe; inversion Hep; subst.
  unfold query_string.
  exists ("&beamEmittance=" ++ format_g emittance ++
          "&radThickness=" ++ format_g rt).
  eexists. norm_append. reflexivity.
Qed.

Lemma current_and_energies_scaled_witness :
  exists mid rest,
    "?&beamEnergy=11.6087&beamCurrent=1&beamEmittance=1e-08&radThickness=0.00075&photonEpeak=9&photonNbins=2000&photonEmax=12&photonEmin=3&collimDistance=76&collimDiam=0.005&peakElow=8.4&peakEhigh=9&backElow=0.1&backEhigh=3&endpElow=10&endpEhigh=11.7&run=plot+collimated+beam+rate+spectrum"
    = "?&beamEnergy=" ++
      format_g (fmul (float_lit "11608.7") (pow10_neg 3)) ++
      "&beamCurrent=" ++
      format_g (fmul (float_lit "1000") (pow10_neg 3)) ++
      mid ++
      "&photonEpeak=" ++
      format_g (fmul (float_lit "9000") (pow10_neg 3)) ++
      rest.
Proof.
  apply (proj1 current_and_energies_scaled (parse_args sample_cmdline)
           sample_row _
           (PyFloat (float_lit "1000")) (PyFloat (float_lit "11608.7"))
           (PyFloat (float_lit "9000")));
    vm_compute; reflexivity.
Defined.

(** ** The collimator diameter *)

(** C4: the collimator field is a number text followed by the unit
    suffix [" mm hole"] (or ["mm hole"]); [CalcBGRate] reads the number
    in front of the suffix and multiplies it by [10**(-3)], and this
    product, written with ['%g'], is the value the request carries
    under [collimDiam]: the query string is [query_string] with the
    product in the place of the collimator diameter, it is built
    whenever the other values can be computed, and the one request
    sent goes to the fixed address followed by it.  For ["5 mm hole"]
    and ["5mm hole"] the value is 0.005 and the request carries
    [collimDiam=0.005]. *)
Theorem collimator_suffix_stripped :
  (forall (run : list pyval) (t suffix : string) (v : float),
     suffix = " mm hole" \/ suffix = "mm hole" ->
     nth_error run 5 = Some (PyStr (t ++ suffix)) ->
     float_of_string t = Ok v ->
     collimDiam run = Ok (fmul v (pow10_neg 3)) /\
     (forall args c,
        conditions_args args run = Ok c ->
        exists be bc emittance rt ep nbins emax emin distance pl ph bl bh
               el eh,
          c = query_string be bc emittance rt ep nbins emax emin distance
                (fmul v (pow10_neg 3)) pl ph bl bh el eh) /\
     (forall env args w rt,
        numeric_physics args = true -> numeric_row run = true ->
        radThickness run = Ok rt ->
        exists c,
          conditions_args args run = Ok c /\
          requests (snd (CalcBGRate_args env args run w)) =
            (requests w ++ [webAddr ++ c]%string)%list)) /\
  collimDiam sample_row = Ok (float_lit "0.005") /\
  collimDiam tight_unit_row = Ok (float_lit "0.005") /\
  format_g (float_lit "0.005") = "0.005" /\
  (forall env w,
     requests (snd (CalcBGRate_args env (parse_args sample_cmdline)
                      sample_row w)) = (requests w ++ [sample_url])%list /\
     requests (snd (CalcBGRate_args env (parse_args sample_cmdline)
                      tight_unit_row w)) = (requests w ++ [sample_url])%list).
Proof.
  split.
  2:{ split; [vm_compute; reflexivity|]. split; [vm_compute; reflexivity|].
      split; [vm_compute; reflexivity|].
      intros env w. rewrite !CalcBGRate_run.
      assert (E1 : conditions_args (parse_args sample_cmdline) sample_row
                   = Ok (str_drop (String.length webAddr) sample_url))
        by (vm_compute; reflexivity).
      assert (E2 : conditions_args (parse_args sample_cmdline) tight_unit_row
                   = Ok (str_drop (String.length webAddr) sample_url))
        by (vm_compute; reflexivity).
      rewrite E1, E2. split; reflexivity. }
  intros run t suffix v Hsuf Hrun Hv.
  assert (Hcd : collimDiam run = Ok (fmul v (pow10_neg 3))).
  { unfold collimDiam, py_index. rewrite Hrun. cbn [rbind py_rstrip].
    rewrite (float_of_string_rstrip "mm hole" t suffix v); auto.
    - apply literal_end_not_mm_hole.
    - destruct Hsuf as [-> | ->]; reflexivity. }
  split; [exact Hcd|]. split.
  - intros args c Hc.
    apply conditions_ok in Hc
      as (be & bc & emittance & rt & ep & nbins & emax & emin & distance
          & cd & pl & ph & bl & bh & el & eh & _ & _ & _ & _ & _ & _ & _ & _
          & _ & _ & _ & _ & _ & _ & Hcd' & _ & ->).
    rewrite Hcd in Hcd'. inversion Hcd'; subst cd.
    exists be, bc, emittance, rt, ep, nbins, emax, emin, distance, pl, ph,
      bl, bh, el, eh. reflexivity.
  - intros env args w rt Hphys Hrow Hrt.
    destruct (conditions_numeric args run Hphys Hrow) as [q Hq].
    rewrite Hcd, Hrt in Hq. cbn [rbind] in Hq.
    exists (q (fmul v (pow10_neg 3)) rt). split; [exact Hq|].
    rewrite CalcBGRate_run, Hq. reflexivity.
Qed.

Lemma collimator_suffix_stripped_witness :
  collimDiam sample_row = Ok (fmul (float_lit "5") (pow10_neg 3)) /\
  (exists be bc emittance rt ep nbins emax emin distance pl ph bl bh el eh,
     str_drop (String.length webAddr) sample_url =
       query_string be bc emittance rt ep nbins emax emin distance
         (fmul (float_lit "5") (pow10_neg 3)) pl ph bl bh el eh) /\
  (exists c,
     conditions_args (parse_args sample_cmdline) sample_row = Ok c /\
     requests (snd (CalcBGRate_args (stub_env [sample_run] sample_page)
                      (parse_args sample_cmdline) sample_row empty_world))
       = (requests empty_world ++ [webAddr ++ c]%string)%list).
Proof.
  destruct (proj1 collimator_suffix_stripped sample_row "5" " mm hole"
              (float_lit "5") (or_introl eq_refl) eq_refl eq_refl)
    as (Hcd & Hquery & Hsent).
  split; [exact Hcd|]. split.
  - apply (Hquery (parse_args sample_cmdline)). vm_compute. reflexivity.
  - apply (Hsent (stub_env [sample_run] sample_page)
             (parse_args sample_cmdline) empty_world
             (fmul (float_lit "750") (pow10_neg 6)));
      vm_compute; reflexivity.
Defined.

(** ** The radiator thickness *)

Lemma str_all_digit_class (g : string) :
  str_all (in_class digit_class) g = str_all is_digit g.
Proof.
  induction g as [|c g IH]; cbn [str_all]; [reflexivity|].
  now rewrite IH, in_digit_class.
Qed.

Lemma starts_in_digit_class (s : string) :
  starts_in (in_class digit_class) s = starts_in is_digit s.
Proof. destruct s; cbn [starts_in]; [reflexivity | apply in_digit_class]. Qed.

(** A token at the start of the string, one space and a run of digits:
    the pattern matches there and the group is the run of digits. *)
Lemma search_radiator_leading (tok g rest : string) :
  tok <> "" -> str_all (in_class token_class) tok = true ->
  g <> "" -> str_all is_digit g = true ->
  starts_in is_digit rest = false ->
  search radiator_pattern (tok ++ " " ++ g ++ rest) = Some (Some g).
Proof.
  intros Htok Htokc Hg Hgd Hrest. apply search_here.
  rewrite match_here_radiator.
  rewrite (span_app (in_class token_class) tok (" " ++ g ++ rest) Htokc eq_refl).
  apply is_empty_false in Htok. rewrite Htok.
  cbn [String.append]. rewrite Ascii.eqb_refl.
  rewrite (span_app (in_class digit_class) g rest).
  - simpl. apply is_empty_false in Hg. now rewrite Hg.
  - now rewrite str_all_digit_class.
  - now rewrite starts_in_digit_class.
Qed.

(** C5 (amended): when the radiator field starts with a token of
    letters, digits and hyphens followed by one space character and a
    run of digits, [CalcBGRate] takes that run of digits, reads it as
    a number and multiplies it by [10**(-6)], and this product is what
    the query string carries under [radThickness]; ["Be 750"] gives
    the digits 750 and the value 0.00075, ["Al-2 300"] gives 300 and
    0.0003. *)
Theorem radiator_thickness_extracted :
  (forall (run : list pyval) (tok g rest : string),
     tok <> "" -> str_all (in_class token_class) tok = true ->
     g <> "" -> str_all is_digit g = true ->
     starts_in is_digit rest = false ->
     nth_error run 6 = Some (PyStr (tok ++ " " ++ g ++ rest)) ->
     search_group1 radiator_pattern (PyStr (tok ++ " " ++ g ++ rest)) = Ok g /\
     radThickness run =
       Ok (fmul (float_of_decimal false (digits_val g) 0) (pow10_neg 6)) /\
     forall args c,
       conditions_args args run = Ok c ->
       exists a b,
         c = a ++ "&radThickness=" ++
             format_g (fmul (float_of_decimal false (digits_val g) 0)
                            (pow10_neg 6)) ++ b) /\
  search_group1 radiator_pattern (PyStr "Be 750") = Ok "750" /\
  radThickness
    [PyNone; PyNone; PyNone; PyNone; PyNone; PyNone; PyStr "Be 750"]
    = Ok (float_lit "0.00075") /\
  search_group1 radiator_pattern (PyStr "Al-2 300") = Ok "300" /\
  radThickness
    [PyNone; PyNone; PyNone; PyNone; PyNone; PyNone; PyStr "Al-2 300"]
    = Ok (fmul (float_lit "300") (pow10_neg 6)) /\
  format_g (fmul (float_lit "300") (pow10_neg 6)) = "0.0003".
Proof.
  split; [|vm_compute; repeat split; reflexivity].
  intros run tok g rest Htok Htokc Hg Hgd Hrest Hrun.
  assert (Hs : search_group1 radiator_pattern
                 (PyStr (tok ++ " " ++ g ++ rest)) = Ok g).
  { unfold search_group1. now rewrite search_radiator_leading. }
  assert (Hrt : radThickness run =
                Ok (fmul (float_of_decimal false (digits_val g) 0)
                         (pow10_neg 6))).
  { unfold radThickness, py_index. rewrite Hrun. cbn [rbind].
    rewrite Hs. cbn [rbind]. now rewrite (float_of_string_digits g Hg Hgd). }
  split; [exact Hs|]. split; [exact Hrt|].
  intros args c Hc.
  apply conditions_ok in Hc
    as (be & bc & emittance & rt & ep & nbins & emax & emin & distance
        & cd & pl & ph & bl & bh & el & eh & _ & _ & _ & _ & _ & _ & _ & _
        & _ & _ & _ & _ & _ & _ & _ & Hrt' & ->).
  rewrite Hrt in Hrt'. inversion Hrt'; subst rt.
  unfold query_string.
  exists ("?&beamEnergy=" ++ format_g be ++ "&beamCurrent=" ++ format_g bc ++
          "&beamEmittance=" ++ format_g emittance).
  eexists. norm_append. reflexivity.
Qed.

Lemma radiator_thickness_extracted_witness :
  search_group1 radiator_pattern (PyStr ("Be" ++ " " ++ "750" ++ "")) = Ok "750" /\
  radThickness sample_row =
    Ok (fmul (float_of_decimal false (digits_val "750") 0) (pow10_neg 6)).
Proof.
  destruct (proj1 radiator_thickness_extracted sample_row "Be" "750" "")
    as (H1 & H2 & _);
    try reflexivity; try discriminate.
  split; [exact H1 | exact H2].
Defined.

(** C5 as stated fails: a tab is white space, yet a token, a tab and
    digits are not matched (the pattern asks for the space character),
    and neither are two spaces; [CalcBGRate] raises [AttributeError]. *)
Lemma radiator_tab_not_matched :
  is_space tab = true /\
  radThickness
    [PyNone; PyNone; PyNone; PyNone; PyNone; PyNone;
     PyStr ("Be" ++ String tab "750")]
    = Raise AttributeError /\
  radThickness
    [PyNone; PyNone; PyNone; PyNone; PyNone; PyNone; PyStr "Be  750"]
    = Raise AttributeError.
Proof. vm_compute. repeat split; reflexivity. Qed.

(** ** The characters of the output lines *)

Lemma float_char_safe (c : ascii) : float_char c = true -> csv_safe c = true.
Proof.
  destruct c as [[|] [|] [|] [|] [|] [|] [|] [|]]; vm_compute;
    intros; try reflexivity; discriminate.
Qed.

Lemma digit_float_char (c : ascii) : is_digit c = true -> float_char c = true.
Proof. unfold float_char. now intros ->. Qed.

Lemma string_of_uint_digits (d : Decimal.uint) :
  str_all is_digit (NilEmpty.string_of_uint d) = true.
Proof. induction d; simpl; auto. Qed.

Lemma dec_digits_digits (n : Z) : str_all is_digit (dec_digits n) = true.
Proof.
  unfold dec_digits, NilZero.string_of_uint.
  destruct (N.to_uint (Z.to_N n)); try reflexivity;
    apply (string_of_uint_digits (_ _)).
Qed.

Lemma zeros_digits (n : nat) : str_all is_digit (zeros n) = true.
Proof. induction n; simpl; auto. Qed.

Lemma str_all_rstrip (p q : ascii -> bool) (s : string) :
  str_all p s = true -> str_all p (rstrip_class q s) = true.
Proof.
  destruct (rstrip_class_split q s) as (w & Hs & _).
  intros H. rewrite Hs, str_all_app in H.
  now apply andb_true_iff in H as [? _].
Qed.

Lemma str_all_drop (p : ascii -> bool) (n : nat) (s : string) :
  str_all p s = true -> str_all p (str_drop n s) = true.
Proof.
  revert s. induction n as [|n IH]; intros [|c s]; simpl; auto.
  intros [_ Hs]%andb_true_iff. now apply IH.
Qed.

Lemma str_all_take (p : ascii -> bool) (n : nat) (s : string) :
  str_all p s = true -> str_all p (str_take n s) = true.
Proof.
  unfold str_take. revert s.
  induction n as [|n IH]; intros [|c s]; simpl; auto.
  intros [Hc Hs]%andb_true_iff. rewrite Hc. now apply IH.
Qed.

Lemma exp_str_chars (e : Z) : str_all float_char (exp_str e) = true.
Proof.
  unfold exp_str. rewrite str_all_app.
  assert (Hd : str_all float_char (dec_digits (Z.abs e)) = true).
  { apply (str_all_impl is_digit); [apply digit_float_char|].
    apply dec_digits_digits. }
  destruct (e <? 0); destruct (_ <? 2)%nat; simpl; now rewrite Hd.
Qed.

Lemma layout_chars (precision : Z) (add_dot_0 : bool) (digits : string)
    (decpt : Z) :
  str_all is_digit digits = true ->
  str_all float_char (layout precision add_dot_0 digits decpt) = true.
Proof.
  intros Hd.
  assert (Hf : forall s, str_all is_digit s = true ->
                         str_all float_char s = true).
  { intros s. apply str_all_impl, digit_float_char. }
  unfold layout.
  destruct ((decpt <=? -4) || (_ <? decpt)).
  - rewrite str_all_app. cbn [str_all]. rewrite exp_str_chars.
    destruct digits as [|d [|d' rest]]; [reflexivity | |].
    + simpl in *. apply andb_true_iff in Hd as [Hd _].
      now rewrite (digit_float_char _ Hd).
    + pose proof (Hf _ Hd) as Hfd. cbn [str_all] in *.
      apply andb_true_iff in Hfd as [-> ->]. reflexivity.
  - destruct (decpt <=? 0).
    + rewrite !str_all_app, (Hf _ (zeros_digits _)), (Hf _ Hd). reflexivity.
    + destruct (decpt <? _).
      * rewrite str_all_app. cbn [str_all].
        rewrite (Hf _ (str_all_take _ _ _ Hd)), (Hf _ (str_all_drop _ _ _ Hd)).
        reflexivity.
      * rewrite !str_all_app, (Hf _ (zeros_digits _)), (Hf _ Hd).
        now destruct add_dot_0.
Qed.

Lemma format_float_short_chars (precision : Z) (add_dot_0 : bool)
    (x : float) :
  str_all float_char (format_float_short precision add_dot_0 x) = true.
Proof.
  unfold format_float_short.
  destruct x as [s|s| |s m e].
  - rewrite str_all_app, layout_chars by reflexivity. now destruct s.
  - now destruct s.
  - reflexivity.
  - destruct (float_fraction m e) as [a b].
    destruct (dtoa_digits precision a b) as [digits decpt] eqn:Hdt.
    rewrite str_all_app, layout_chars; [now destruct s|].
    unfold dtoa_digits in Hdt.
    destruct (scale10 a b _) as [a' b'].
    destruct (_ =? _) in Hdt; inversion Hdt; subst;
      apply str_all_rstrip, dec_digits_digits.
Qed.

Lemma format_g_safe (x : float) : str_all csv_safe (format_g x) = true.
Proof.
  apply (str_all_impl float_char); [apply float_char_safe|].
  apply format_float_short_chars.
Qed.

(** [str] of a value that is not a string has neither comma nor line
    feed. *)
Lemma py_str_safe (v : pyval) :
  (forall s, v = PyStr s -> str_all csv_safe s = true) ->
  str_all csv_safe (py_str v) = true.
Proof.
  intros Hs. destruct v as [|n|x|s]; simpl.
  - reflexivity.
  - unfold string_of_Z.
    assert (Hd : forall k, str_all csv_safe (dec_digits k) = true).
    { intros k. apply (str_all_impl is_digit); [|apply dec_digits_digits].
      intros c Hc. now apply float_char_safe, digit_float_char. }
    destruct (n <? 0); simpl; now rewrite Hd.
  - apply (str_all_impl float_char); [apply float_char_safe|].
    apply format_float_short_chars.
  - now apply Hs.
Qed.

(** ** The lines of the output file *)

Lemma fold_left_runToWrite (run : list pyval) (acc : string) :
  fold_left (fun a val => a ++ py_str val ++ ",") run acc =
  acc ++ runToWrite run.
Proof.
  unfold runToWrite. revert acc.
  induction run as [|v run IH]; intros acc; cbn [fold_left].
  - now rewrite append_nil_r.
  - rewrite IH, (IH ("" ++ py_str v ++ ",")). cbn [String.append].
    now rewrite !append_assoc.
Qed.

Lemma runToWrite_cons (v : pyval) (run : list pyval) :
  runToWrite (v :: run) = py_str v ++ "," ++ runToWrite run.
Proof.
  unfold runToWrite at 1. cbn [fold_left]. rewrite fold_left_runToWrite.
  cbn [String.append]. now rewrite append_assoc.
Qed.

Lemma safe_no_comma (s : string) :
  str_all csv_safe s = true -> count_char "," s = O.
Proof.
  intros H. apply count_char_none. revert H. apply str_all_impl.
  unfold csv_safe. now intros c [-> _]%andb_true_iff.
Qed.

Lemma safe_no_nl (s : string) :
  str_all csv_safe s = true ->
  str_all (fun c => negb (Ascii.eqb c "010")) s = true.
Proof.
  apply str_all_impl. unfold csv_safe. now intros c [_ ->]%andb_true_iff.
Qed.

Lemma safe_row_cons (v : pyval) (run : list pyval) :
  safe_row (v :: run) ->
  str_all csv_safe (py_str v) = true /\ safe_row run.
Proof.
  intros H. split.
  - apply py_str_safe. intros s ->. apply H. now left.
  - intros s Hs. apply H. now right.
Qed.

Lemma runToWrite_commas (run : list pyval) :
  safe_row run ->
  count_char "," (runToWrite run) = List.length run /\
  str_all (fun c => negb (Ascii.eqb c "010")) (runToWrite run) = true.
Proof.
  induction run as [|v run IH]; intros H; [split; reflexivity|].
  apply safe_row_cons in H as [Hv Hrun]. destruct (IH Hrun) as [IHc IHn].
  rewrite runToWrite_cons, !count_char_app, !str_all_app.
  rewrite (safe_no_comma _ Hv), (safe_no_nl _ Hv), IHc, IHn.
  split; reflexivity.
Qed.

(** A row whose strings have no comma gives a line with one field per
    value and one more for the rate. *)
Lemma line_text_fields (run : list pyval) (r : float) :
  safe_row run ->
  List.length (split_on "," (line_text run r)) = S (List.length run) /\
  str_all (fun c => negb (Ascii.eqb c "010")) (line_text run r) = true.
Proof.
  intros H. destruct (runToWrite_commas run H) as [Hc Hn].
  unfold line_text.
  rewrite split_on_length, count_char_app, str_all_app, Hc, Hn.
  rewrite (safe_no_comma _ (format_g_safe r)), (safe_no_nl _ (format_g_safe r)).
  split; [lia | reflexivity].
Qed.

Lemma split_on_line (a rest : string) :
  str_all (fun c => negb (Ascii.eqb c "010")) a = true ->
  split_on "010" (a ++ nl ++ rest) = a :: split_on "010" rest.
Proof.
  induction a as [|c a IH]; intros H.
  - reflexivity.
  - cbn [str_all] in H. apply andb_true_iff in H as [Hc Ha].
    apply negb_true_iff in Hc.
    cbn [String.append split_on]. rewrite Hc.
    fold (String.append a (nl ++ rest)). now rewrite (IH Ha).
Qed.

Lemma split_on_join (ls : list string) :
  Forall (fun l => str_all (fun c => negb (Ascii.eqb c "010")) l = true) ls ->
  split_on "010" (join_lines ls) = (ls ++ [""])%list.
Proof.
  induction 1 as [|l ls Hl _ IH]; [reflexivity|].
  cbn [join_lines fold_right]. fold (join_lines ls).
  now rewrite (split_on_line _ _ Hl), IH.
Qed.

Lemma file_lines_join (ls : list string) :
  Forall (fun l => str_all (fun c => negb (Ascii.eqb c "010")) l = true) ls ->
  file_lines (join_lines ls) = ls.
Proof.
  intros H. unfold file_lines. rewrite (split_on_join _ H).
  rewrite List.last_last. cbn [is_empty]. apply List.removelast_last.
Qed.

Lemma data_line_text (run : list pyval) (r : float) :
  data_line run r = line_text run r ++ nl.
Proof. unfold data_line, line_text. now rewrite append_assoc. Qed.

(** A loop that ends normally has written the line of every row. *)
Lemma written_ok (env : environment) (args : Namespace)
    (table : list (list pyval)) :
  snd (written env args table) = Ok tt ->
  fst (written env args table) = join_lines (List.map (line_of env args) table) /\
  Forall (fun run => exists r, rate_of env args run = Ok r) table.
Proof.
  induction table as [|run rest IH]; cbn [written]; [auto|].
  change (List.map (line_of env args) (run :: rest))
    with (line_of env args run :: List.map (line_of env args) rest).
  assert (Hl : forall r, rate_of env args run = Ok r ->
                         line_of env args run = line_text run r).
  { intros r Hr. unfold line_of. now rewrite Hr. }
  destruct (rate_of env args run) as [r|e] eqn:Hr; [|discriminate].
  rewrite (Hl r eq_refl).
  destruct (written env args rest) as [s res]. cbn [fst snd] in *.
  intros Hres. destruct (IH Hres) as [-> Hall].
  split; [|constructor; eauto].
  cbn [join_lines fold_right]. rewrite data_line_text.
  now rewrite append_assoc.
Qed.

(** The lines written before the first row that fails. *)
Lemma written_until (env : environment) (args : Namespace)
    (done rest : list (list pyval)) :
  Forall (fun run => exists r, rate_of env args run = Ok r) done ->
  written env args (done ++ rest) =
    (join_lines (List.map (line_of env args) done) ++
       fst (written env args rest),
     snd (written env args rest)).
Proof.
  induction 1 as [|run done [r Hr] _ IH]; cbn [List.app written List.map].
  - now destruct (written env args rest).
  - assert (Hl : line_of env args run = line_text run r).
    { unfold line_of. now rewrite Hr. }
    rewrite Hr, IH, Hl.
    cbn [join_lines fold_right]. rewrite data_line_text.
    now rewrite !append_assoc.
Qed.

(** A table [BGRate_RCDB_values] returns is the one row without values
    of an empty selection, or has seven values in every row, the run
    number first. *)
Lemma rows_have_seven_values (env : environment) (args : Namespace)
    (lo hi : pyval) (table : list (list pyval)) :
  BGRate_RCDB_values env args lo hi = Ok table ->
  table = [[]] \/
  Forall (fun run => List.length run = 7%nat /\
                     exists n, nth_error run 0 = Some (PyInt n)) table.
Proof.
  unfold BGRate_RCDB_values.
  destruct (py_concat _ _) as [conn|]; cbn [rbind]; [|discriminate].
  destruct (RCDBProvider env conn) as [db|]; cbn [rbind]; [|discriminate].
  destruct (py_int lo) as [l|]; cbn [rbind]; [|discriminate].
  destruct (py_int hi) as [h|]; cbn [rbind]; [|discriminate].
  destruct (db _ l h) as [runs|]; cbn [rbind]; [|discriminate].
  intros H. inversion H; subst. clear H.
  unfold get_values. destruct runs as [|r0 runs]; [now left|]. right.
  apply List.Forall_forall. intros run Hin.
  apply in_map_iff in Hin as (r & <- & _). split; [reflexivity|].
  now exists (run_number r).
Qed.

Lemma header_is_a_line : header = header_text ++ nl.
Proof. reflexivity. Qed.

(** C8 as stated fails: the radiator text ["Be,x 750"] passes the
    pattern, the run is processed, and its line has 9 comma-separated
    fields. *)
Lemma comma_in_radiator_nine_fields :
  fst (script (stub_env [comma_run] sample_page) sample_cmdline empty_world)
    = Ok tt /\
  files (snd (script (stub_env [comma_run] sample_page) sample_cmdline
                empty_world))
    !! "BGRateRCDBValue_30000-30001.csv"
    = Some (header ++
            "30000,1234567,1000.0,11608.7,9000.0,5 mm hole,Be,x 750,0.000123"
            ++ nl) /\
  List.length
    (split_on ","
       "30000,1234567,1000.0,11608.7,9000.0,5 mm hole,Be,x 750,0.000123")
    = 9%nat.
Proof. vm_compute. repeat split; reflexivity. Qed.

(** ** Where parsing fails *)

Lemma str_last_split (p : ascii -> bool) (s : string) :
  s <> "" -> str_all p s = true ->
  exists init c, s = init ++ String c "" /\ p c = true.
Proof.
  induction s as [|c s IH]; [contradiction|]. intros _ H.
  cbn [str_all] in H. apply andb_true_iff in H as [Hc Hs].
  destruct s as [|d s].
  - exists "", c. auto.
  - destruct (IH ltac:(discriminate) Hs) as (init & l & E & Hl).
    exists (String c init), l. cbn [String.append]. now rewrite <- E.
Qed.

Lemma match_here_radiator_some (x : string) (r : option string) :
  match_here radiator_pattern x = Some r ->
  exists tok g rest,
    r = Some g /\ x = tok ++ " " ++ g ++ rest /\
    tok <> "" /\ str_all (in_class token_class) tok = true /\
    g <> "" /\ str_all is_digit g = true.
Proof.
  rewrite match_here_radiator.
  destruct (span (in_class token_class) x) as [tok s1] eqn:Htok.
  apply span_spec in Htok as (-> & Htokc & _).
  destruct (is_empty tok) eqn:He; [discriminate|].
  destruct s1 as [|c s2]; [discriminate|].
  destruct (Ascii.eqb_spec " " c) as [<-|]; [|discriminate].
  destruct (span (in_class digit_class) s2) as [g rest] eqn:Hg.
  apply span_spec in Hg as (-> & Hgd & _). cbn [fst].
  destruct (is_empty g) eqn:Heg; [discriminate|].
  intros H. inversion H; subst. exists tok, g, rest.
  apply is_empty_false in He, Heg. rewrite str_all_digit_class in Hgd.
  repeat split; auto.
Qed.

Lemma search_radiator_matches (rs : string) :
  search radiator_pattern rs <> None <-> radiator_matches rs.
Proof.
  rewrite search_some_iff. split.
  - intros (pre & x & -> & Hx).
    destruct (match_here radiator_pattern x) as [r|] eqn:Hm; [|contradiction].
    apply match_here_radiator_some in Hm
      as (tok & g & rest & _ & -> & Htok & Htokc & Hg & Hgd).
    destruct (str_last_split _ _ Htok Htokc) as (init & c & -> & Hc).
    destruct g as [|d g]; [contradiction|].
    exists (pre ++ init), c, d, (g ++ rest).
    cbn [str_all] in Hgd. apply andb_true_iff in Hgd as [Hd _].
    split; [|auto]. rewrite !append_assoc. reflexivity.
  - intros (pre & c & d & rest & -> & Hc & Hd).
    exists pre, (String c (String " " (String d rest))).
    split; [reflexivity|]. rewrite match_here_radiator.
    cbn [span]. rewrite Hc.
    assert (Hsp : in_class token_class " " = false) by reflexivity.
    rewrite Hsp. cbn [is_empty]. rewrite Ascii.eqb_refl.
    cbn [span]. rewrite in_digit_class, Hd.
    destruct (span (in_class digit_class) rest). cbn [fst is_empty].
    discriminate.
Qed.

(** What [search] returns for the radiator pattern is a run of digits. *)
Lemma search_radiator_digits (rs : string) (r : option string) :
  search radiator_pattern rs = Some r ->
  exists g, r = Some g /\ g <> "" /\ str_all is_digit g = true.
Proof.
  induction rs as [|c rs IH]; cbn [search].
  - destruct (match_here radiator_pattern "") eqn:Hm; [|discriminate].
    intros H. inversion H; subst.
    apply match_here_radiator_some in Hm
      as (tok & g & rest & -> & _ & _ & _ & Hg & Hgd). eauto.
  - destruct (match_here radiator_pattern (String c rs)) eqn:Hm; [|exact IH].
    intros H. inversion H; subst.
    apply match_here_radiator_some in Hm
      as (tok & g & rest & -> & _ & _ & _ & Hg & Hgd). eauto.
Qed.

Lemma search_first (re : list atom) (s : string) (r : option string) :
  search re s = Some r ->
  exists pre x,
    s = pre ++ x /\ match_here re x = Some r /\
    forall p1 p2, pre = p1 ++ p2 -> p2 <> "" ->
                  match_here re (p2 ++ x) = None.
Proof.
  induction s as [|c s IH]; cbn [search].
  - destruct (match_here re "") eqn:Hm; [|discriminate].
    intros H. inversion H; subst. exists "", "". repeat split; auto.
    intros p1 p2 Hp Hp2. symmetry in Hp.
    apply append_is_nil in Hp as [_ ->]. contradiction.
  - destruct (match_here re (String c s)) eqn:Hm.
    + intros H. inversion H; subst. exists "", (String c s).
      repeat split; auto. intros p1 p2 Hp Hp2. symmetry in Hp.
      apply append_is_nil in Hp as [_ ->]. contradiction.
    + intros H. destruct (IH H) as (pre & x & -> & Hx & Hfirst).
      exists (String c pre), x. repeat split; auto.
      intros [|d p1] p2 Hp Hp2; cbn [String.append] in Hp.
      * subst p2. exact Hm.
      * inversion Hp; subst. now apply (Hfirst p1 p2).
Qed.

Lemma search_flux_iff (page num : string) :
  search flux_pattern page = Some (Some num) <-> first_flux page num.
Proof.
  split.
  - intros H. apply search_first in H as (pre & x & -> & Hx & Hfirst).
    exists pre, x. split; [reflexivity|].
    apply match_here_flux_at in Hx as (n & Hn & Hat). inversion Hn; subst n.
    split; [exact Hat|]. intros p1 p2 n Hp Hp2 Hatn.
    assert (Hs : match_here flux_pattern (p2 ++ x) = Some (Some n))
      by (apply match_here_flux_at; eauto).
    rewrite (Hfirst p1 p2 Hp Hp2) in Hs. discriminate.
  - intros (pre & tail & -> & Hat & Hfirst). now apply search_flux_first.
Qed.

Lemma search_flux_matches (page : string) :
  search flux_pattern page <> None <-> flux_matches page.
Proof.
  rewrite search_some_iff. split.
  - intros (pre & x & -> & Hx).
    destruct (match_here flux_pattern x) as [r|] eqn:Hm; [|contradiction].
    apply match_here_flux_at in Hm as (num & _ & Hat).
    now exists pre, x, num.
  - intros (pre & tail & num & -> & Hat). exists pre, tail.
    split; [reflexivity|].
    assert (Hs : match_here flux_pattern tail = Some (Some num))
      by (apply match_here_flux_at; eauto).
    now rewrite Hs.
Qed.

Lemma search_flux_group (page : string) (r : option string) :
  search flux_pattern page = Some r -> exists num, r = Some num.
Proof.
  intros H. apply search_first in H as (pre & x & _ & Hx & _).
  apply match_here_flux_at in Hx as (num & -> & _). eauto.
Qed.

Lemma radiator_group_cases (rs : string) :
  (exists g, search_group1 radiator_pattern (PyStr rs) = Ok g /\
             g <> "" /\ str_all is_digit g = true /\ radiator_matches rs) \/
  (search_group1 radiator_pattern (PyStr rs) = Raise AttributeError /\
   ~ radiator_matches rs).
Proof.
  unfold search_group1.
  destruct (search radiator_pattern rs) as [r|] eqn:Hrad.
  - left. assert (Hm : radiator_matches rs)
      by (apply search_radiator_matches; congruence).
    apply search_radiator_digits in Hrad as (g & -> & Hg & Hgd). eauto.
  - right. split; [reflexivity|]. intros Hm.
    apply search_radiator_matches in Hm. contradiction.
Qed.

Lemma flux_group_cases (page : string) :
  (exists num, search_group1 flux_pattern (PyStr page) = Ok num /\
               first_flux page num /\ flux_matches page) \/
  (search_group1 flux_pattern (PyStr page) = Raise AttributeError /\
   ~ flux_matches page).
Proof.
  unfold search_group1.
  destruct (search flux_pattern page) as [r|] eqn:Hflux.
  - left. assert (Hm : flux_matches page)
      by (apply search_flux_matches; congruence).
    destruct (search_flux_group _ _ Hflux) as [num ->].
    exists num. repeat split; auto. now apply search_flux_iff.
  - right. split; [reflexivity|]. intros Hm.
    apply search_flux_matches in Hm. contradiction.
Qed.

Lemma first_flux_unique (page n1 n2 : string) :
  first_flux page n1 -> first_flux page n2 -> n1 = n2.
Proof. intros H1%search_flux_iff H2%search_flux_iff. congruence. Qed.

(** With numbers everywhere else, the rate of a row is decided by the
    collimator text, the radiator text and the page. *)
Lemma rate_of_numeric (env : environment) (args : Namespace)
    (run : list pyval) (cs rs page : string) :
  numeric_physics args = true ->
  numeric_row run = true ->
  nth_error run 5 = Some (PyStr cs) ->
  nth_error run 6 = Some (PyStr rs) ->
  (forall url, http_get env url = Ok page) ->
  rate_of env args run =
    (v <- float_of_string (rstrip "mm hole" cs) ;;
     g <- search_group1 radiator_pattern (PyStr rs) ;;
     num <- search_group1 flux_pattern (PyStr page) ;;
     x <- float_of_string num ;;
     Ok (fmul x (pow10_neg 9))).
Proof.
  intros Hphys Hrow Hcs Hrs Hget. unfold rate_of.
  destruct (conditions_numeric args run Hphys Hrow) as [q ->].
  unfold collimDiam, radThickness, py_index. rewrite Hcs, Hrs.
  cbn [rbind py_rstrip].
  destruct (float_of_string (rstrip "mm hole" cs)) as [v|e]; cbn [rbind];
    [|reflexivity].
  destruct (radiator_group_cases rs) as [(g & -> & Hg & Hgd & _)|[-> _]];
    cbn [rbind]; [|reflexivity].
  rewrite (float_of_string_digits g Hg Hgd). cbn [rbind].
  rewrite Hget. reflexivity.
Qed.

(** C3 (amended).  For a row with numbers for current, energy and peak
    and strings for collimator and radiator, numeric physics values and
    a server that answers, [CalcBGRate] can only fail with a parsing
    error ([ValueError] or [AttributeError]), and it fails if and only
    if the collimator text, once the trailing characters among "m",
    " ", "h", "o", "l", "e" are removed, is not a float literal (the
    suffix itself is not asked for), or the radiator text has no token
    character, space and digit in a row, or the page has no marker
    followed by a number text, or the first such number text is not a
    float literal.  An exception of [CalcBGRate] ends the script at
    that row with exit status 1: the lines of the rows before it, and
    nothing else after the header, are in the output file. *)
Theorem parse_failures_abort :
  (forall (env : environment) (args : Namespace) (run : list pyval)
          (w : world) (cs rs page : string),
     numeric_physics args = true ->
     numeric_row run = true ->
     nth_error run 5 = Some (PyStr cs) ->
     nth_error run 6 = Some (PyStr rs) ->
     (forall url, http_get env url = Ok page) ->
     (fst (CalcBGRate_args env args run w) = Raise ValueError \/
      fst (CalcBGRate_args env args run w) = Raise AttributeError \/
      exists r, fst (CalcBGRate_args env args run w) = Ok r) /\
     ((exists e, fst (CalcBGRate_args env args run w) = Raise e) <->
      (float_of_string (rstrip "mm hole" cs) = Raise ValueError \/
       ~ radiator_matches rs \/
       ~ flux_matches page \/
       exists num, first_flux page num /\
                   float_of_string num = Raise ValueError))) /\
  (forall (env : environment) (c : cmdline) (w : world)
          (done rest : list (list pyval)) (bad : list pyval) (e : exn),
     BGRate_RCDB_values env (parse_args c) (minRun (parse_args c))
       (maxRun (parse_args c)) = Ok (done ++ bad :: rest)%list ->
     Forall (fun run =>
               exists r, fst (CalcBGRate_args env (parse_args c) run w) = Ok r)
            done ->
     fst (CalcBGRate_args env (parse_args c) bad w) = Raise e ->
     fst (script env c w) = Raise e /\
     exit_status (fst (script env c w)) = 1 /\
     files (snd (script env c w)) !! fileName (parse_args c) =
       Some (header ++
             join_lines (List.map (line_of env (parse_args c)) done))).
Proof.
  split.
  - intros env args run w cs rs page Hphys Hrow Hcs Hrs Hget.
    rewrite (proj1 (CalcBGRate_result env args run w)).
    rewrite (rate_of_numeric env args run cs rs page Hphys Hrow Hcs Hrs Hget).
    destruct (float_of_string (rstrip "mm hole" cs)) as [v|e] eqn:Hv;
      cbn [rbind].
    2:{ apply float_of_string_raise in Hv as Hve. subst e.
        split; [now left|]. split; eauto. }
    destruct (radiator_group_cases rs) as [(g & -> & _ & _ & Hrad)|[-> Hrad]];
      cbn [rbind].
    2:{ split; [right; now left|]. split; eauto. }
    destruct (flux_group_cases page)
      as [(num & -> & Hfirst & Hflux)|[-> Hflux]]; cbn [rbind].
    2:{ split; [right; now left|]. split; eauto. }
    destruct (float_of_string num) as [x|e] eqn:Hnum; cbn [rbind].
    + split; [right; right; eauto|]. split.
      * intros [e He]. discriminate.
      * intros [H|[H|[H|(num' & Hfirst' & Hnum')]]];
          [discriminate | contradiction | contradiction |].
        rewrite (first_flux_unique _ _ _ Hfirst' Hfirst) in Hnum'.
        congruence.
    + apply float_of_string_raise in Hnum as Hne. subst e.
      split; [now left|]. split; [|eauto].
      intros _. right. right. right. eauto.
  - intros env c w done rest bad e Hq Hdone Hbad.
    rewrite (proj1 (CalcBGRate_result env _ bad w)) in Hbad.
    assert (Hdone' : Forall (fun run =>
                exists r, rate_of env (parse_args c) run = Ok r) done).
    { revert Hdone. apply List.Forall_impl. intros run [r Hr].
      rewrite (proj1 (CalcBGRate_result env _ run w)) in Hr. eauto. }
    pose proof (script_run env c w) as H. cbv zeta in H. rewrite Hq in H.
    rewrite (written_until env _ done (bad :: rest) Hdone') in H.
    cbn [written] in H. rewrite Hbad in H. cbn [fst snd] in H.
    rewrite append_nil_r in H. destruct H as [Hr Hf].
    rewrite Hr, Hf. repeat split. apply lookup_insert_eq.
Qed.

Lemma parse_failures_abort_witness :
  ((exists e,
      fst (CalcBGRate_args (stub_env [sample_run; blocking_run] sample_page)
             (parse_args sample_cmdline) blocking_row empty_world)
        = Raise e) <->
   (float_of_string (rstrip "mm hole" "Blocking") = Raise ValueError \/
    ~ radiator_matches "Be 750" \/
    ~ flux_matches sample_page \/
    exists num, first_flux sample_page num /\
                float_of_string num = Raise ValueError)) /\
  fst (script (stub_env [sample_run; blocking_run] sample_page)
         sample_cmdline empty_world) = Raise ValueError /\
  exit_status
    (fst (script (stub_env [sample_run; blocking_run] sample_page)
            sample_cmdline empty_world)) = 1 /\
  files (snd (script (stub_env [sample_run; blocking_run] sample_page)
                sample_cmdline empty_world))
    !! fileName (parse_args sample_cmdline) =
    Some (header ++
          "30000,1234567,1000.0,11608.7,9000.0,5 mm hole,Be 750,0.000123"
          ++ nl).
Proof.
  split.
  - apply (proj1 parse_failures_abort
             (stub_env [sample_run; blocking_run] sample_page)
             (parse_args sample_cmdline) blocking_row empty_world
             "Blocking" "Be 750" sample_page);
      vm_compute; reflexivity.
  - destruct (proj2 parse_failures_abort
                (stub_env [sample_run; blocking_run] sample_page)
                sample_cmdline empty_world [sample_row] [] blocking_row
                ValueError) as (H1 & H2 & H3).
    + vm_compute. reflexivity.
    + constructor; [|constructor]. eexists. vm_compute. reflexivity.
    + vm_compute. reflexivity.
    + split; [exact H1|]. split; [exact H2|]. rewrite H3.
      vm_compute. reflexivity.
Defined.

(** C3 as stated fails in both directions: a collimator text without
    the suffix, ["5"], is accepted and the rate is returned; and with
    the suffix, the radiator pattern and the marker all there, a
    number text that is not a float literal still raises. *)
Lemma bare_collimator_accepted :
  fst (CalcBGRate_args (stub_env [sample_run] sample_page)
         (parse_args sample_cmdline) bare_collimator_row empty_world)
    = Ok (fmul (float_lit "1.23E+05") (pow10_neg 9)) /\
  fst (CalcBGRate_args (stub_env [sample_run] dotted_page)
         (parse_args sample_cmdline) sample_row empty_world)
    = Raise ValueError.
Proof. vm_compute. split; reflexivity. Qed.

(** ** Further properties *)

Lemma span_ext (p q : ascii -> bool) (s : string) :
  (forall c, p c = q c) -> span p s = span q s.
Proof.
  intros H. induction s as [|c s IH]; simpl; [reflexivity|].
  now rewrite H, IH.
Qed.

Lemma search_cons_same (re : list atom) (c : ascii) (s : string) :
  match_here re (String c s) = match_here re s ->
  search re (String c s) = search re s.
Proof.
  intros H. cbn [search]. rewrite H.
  destruct (match_here re s) eqn:Hm; [|reflexivity].
  symmetry. now apply search_here.
Qed.

(** The radiator pattern is not anchored: [search] returns the run of
    digits at the first place of the text where a character of the
    token class, a space and a digit follow one another, and finds
    nothing when there is no such place. *)
Theorem radiator_search_first_place (s : string) :
  search radiator_pattern s = option_map Some (first_token_space_digits s).
Proof.
  induction s as [|c s IH]; [reflexivity|].
  cbn [first_token_space_digits].
  destruct (in_class token_class c) eqn:Hc.
  2:{ cbn [andb search]. rewrite match_here_radiator. cbn [span].
      rewrite Hc. cbn [is_empty]. exact IH. }
  destruct s as [|d s].
  { cbn [space_then_digit andb]. cbn [search].
    rewrite match_here_radiator. cbn [span]. rewrite Hc. reflexivity. }
  destruct (in_class token_class d) eqn:Hd.
  - (* the token goes on: the same match as one place later *)
    assert (Hsp : space_then_digit (String d s) = false).
    { cbn [space_then_digit]. destruct s; [reflexivity|].
      now rewrite (token_not_space d Hd). }
    rewrite Hsp. cbn [andb]. rewrite <- IH. apply search_cons_same.
    rewrite !match_here_radiator. cbn [span]. rewrite Hc, Hd.
    now destruct (span (in_class token_class) s).
  - (* the token ends here *)
    cbn [search]. rewrite match_here_radiator. cbn [span].
    rewrite Hc, Hd. cbn [is_empty].
    destruct (Ascii.eqb_spec " " d) as [<-|Hnd].
    + destruct s as [|e s].
      * cbn [space_then_digit andb span fst is_empty]. exact IH.
      * cbn [space_then_digit str_drop]. rewrite Ascii.eqb_refl. cbn [andb].
        rewrite (span_ext (in_class digit_class) is_digit)
          by apply in_digit_class.
        cbn [span]. destruct (is_digit e) eqn:He.
        -- now destruct (span is_digit s).
        -- cbn [fst is_empty]. exact IH.
    + assert (Hsp : space_then_digit (String d s) = false).
      { cbn [space_then_digit]. destruct s; [reflexivity|].
        destruct (Ascii.eqb_spec " " d); [contradiction | reflexivity]. }
      rewrite Hsp. cbn [andb]. exact IH.
Qed.

(** [CalcBGRate] never changes a file, and it sends no request when the
    query string cannot be built and exactly one when it can. *)
Theorem one_request_no_file_change (env : environment) (args : Namespace)
    (run : list pyval) (w : world) :
  files (snd (CalcBGRate_args env args run w)) = files w /\
  requests (snd (CalcBGRate_args env args run w)) =
    match conditions_args args run with
    | Ok c => (requests w ++ [webAddr ++ c]%string)%list
    | Raise _ => requests w
    end.
Proof.
  rewrite CalcBGRate_run. now destruct (conditions_args args run).
Qed.

(** Whatever happens, the output file starts with the header line:
    the script writes it before it asks the database. *)
Theorem header_always_first (env : environment) (c : cmdline) (w : world) :
  exists lines,
    files (snd (script env c w)) !! fileName (parse_args c)
      = Some (header ++ lines).
Proof.
  destruct (script_files env c) as (r & content & [s ->] & H).
  destruct (H w) as [_ Hf]. exists s. rewrite Hf. apply lookup_insert_eq.
Qed.

(** The text ['%g'] gives for a rate holds neither a comma nor a line
    feed, so the last field of a data line never breaks the line. *)
Theorem rate_field_has_no_separator (x : float) :
  count_char "," (format_g x) = O /\ count_char "010" (format_g x) = O.
Proof.
  split.
  - apply safe_no_comma, format_g_safe.
  - apply count_char_none, safe_no_nl, format_g_safe.
Qed.

(** ** The database, the requests and the rows *)

Lemma script_requests_unfold (env : environment) (c : cmdline) (w : world) :
  requests (snd (script env c w)) =
    match BGRate_RCDB_values env (parse_args c) (minRun (parse_args c))
            (maxRun (parse_args c)) with
    | Raise _ => requests w
    | Ok table =>
        requests
          (snd (for_each table
                  (write_run env (parse_args c) (fileName (parse_args c)))
                  {| files := <[fileName (parse_args c) := header]> (files w);
                     requests := requests w |}))
    end.
Proof.
  rewrite script_unfold.
  now destruct (BGRate_RCDB_values env (parse_args c) _ _).
Qed.

(** When the database cannot be asked (no connection, a run bound that
    is not an integer, a failing query), the exception ends the script
    with exit status 1 after the output file has been created with its
    header and before any request is sent. *)
Theorem database_failure_leaves_header (env : environment) (c : cmdline)
    (w : world) (e : exn) :
  BGRate_RCDB_values env (parse_args c) (minRun (parse_args c))
    (maxRun (parse_args c)) = Raise e ->
  fst (script env c w) = Raise e /\
  exit_status (fst (script env c w)) = 1 /\
  files (snd (script env c w)) !! fileName (parse_args c) = Some header /\
  requests (snd (script env c w)) = requests w.
Proof.
  intros Hq. pose proof (script_run env c w) as H. cbv zeta in H.
  rewrite Hq in H. destruct H as [Hr Hf].
  rewrite script_requests_unfold, Hq, Hr, Hf, lookup_insert_eq. auto.
Qed.

Lemma database_failure_leaves_header_witness :
  fst (script no_database_env sample_cmdline empty_world)
    = Raise DatabaseError /\
  exit_status (fst (script no_database_env sample_cmdline empty_world)) = 1 /\
  files (snd (script no_database_env sample_cmdline empty_world))
    !! fileName (parse_args sample_cmdline) = Some header /\
  requests (snd (script no_database_env sample_cmdline empty_world))
    = requests empty_world.
Proof.
  apply (database_failure_leaves_header no_database_env sample_cmdline
           empty_world DatabaseError).
  reflexivity.
Defined.

(** The three options without a default ([-p], [--minRun], [--maxRun])
    are not enforced by the parser, but the script cannot succeed
    without any of them: it ends with an exception (a [TypeError] when
    the path is the one left out), exit status 1, before any request,
    and leaves an output file that holds the header only. *)
Theorem missing_required_option (env : environment) (c : cmdline)
    (w : world) :
  opt_p c = None \/ opt_minRun c = None \/ opt_maxRun c = None ->
  exists e,
    fst (script env c w) = Raise e /\
    (opt_p c = None -> e = TypeError) /\
    exit_status (fst (script env c w)) = 1 /\
    files (snd (script env c w)) !! fileName (parse_args c) = Some header /\
    requests (snd (script env c w)) = requests w.
Proof.
  intros Hmiss.
  assert (Hq : exists e,
            BGRate_RCDB_values env (parse_args c) (minRun (parse_args c))
              (maxRun (parse_args c)) = Raise e /\
            (opt_p c = None -> e = TypeError)).
  { unfold BGRate_RCDB_values, parse_args.
    cbn [pathToRCDB minRun maxRun].
    destruct (opt_p c) as [path|]; cbn [store py_concat rbind].
    2:{ exists TypeError. auto. }
    destruct (RCDBProvider env _) as [db|e]; cbn [rbind].
    2:{ exists e. split; [reflexivity | discriminate]. }
    destruct (opt_minRun c) as [lo|]; cbn [store py_int rbind].
    2:{ exists TypeError. split; [reflexivity | discriminate]. }
    destruct (int_of_string lo) as [l|e]; cbn [rbind].
    2:{ exists e. split; [reflexivity | discriminate]. }
    destruct (opt_maxRun c) as [hi|]; cbn [store py_int rbind].
    2:{ exists TypeError. split; [reflexivity | discriminate]. }
    destruct Hmiss as [H|[H|H]]; discriminate. }
  destruct Hq as (e & Hq & He). exists e.
  pose proof (script_run env c w) as H. cbv zeta in H.
  rewrite Hq in H. destruct H as [Hr Hf].
  rewrite script_requests_unfold, Hq, Hr, Hf, lookup_insert_eq. auto.
Qed.

Lemma missing_required_option_witness :
  exists e,
    fst (script (stub_env [sample_run] sample_page) cmdline_without_path
           empty_world) = Raise e /\
    (opt_p cmdline_without_path = None -> e = TypeError) /\
    exit_status
      (fst (script (stub_env [sample_run] sample_page) cmdline_without_path
              empty_world)) = 1 /\
    files (snd (script (stub_env [sample_run] sample_page)
                  cmdline_without_path empty_world))
      !! fileName (parse_args cmdline_without_path) = Some header /\
    requests (snd (script (stub_env [sample_run] sample_page)
                     cmdline_without_path empty_world))
      = requests empty_world.
Proof.
  apply (missing_required_option (stub_env [sample_run] sample_page)
           cmdline_without_path empty_world).
  left. reflexivity.
Defined.

(** *** One request per row *)

Lemma write_run_requests (env : environment) (args : Namespace) (f : string)
    (run : list pyval) (w : world) :
  requests (snd (write_run env args f run w)) =
    match conditions_args args run with
    | Ok c => (requests w ++ [webAddr ++ c]%string)%list
    | Raise _ => requests w
    end.
Proof.
  unfold write_run, bind. fold (CalcBGRate_args env args run).
  rewrite CalcBGRate_run.
  destruct (conditions_args args run) as [c|e]; [|reflexivity].
  destruct (http_get env (webAddr ++ c)) as [page|]; cbn [rbind];
    [destruct (read_rate page)|]; reflexivity.
Qed.

Lemma rate_of_conditions_raise (env : environment) (args : Namespace)
    (run : list pyval) (e : exn) :
  conditions_args args run = Raise e -> rate_of env args run = Raise e.
Proof. intros H. unfold rate_of. now rewrite H. Qed.

Lemma for_each_requests (env : environment) (args : Namespace) (f : string)
    (table : list (list pyval)) (w : world) :
  requests (snd (for_each table (write_run env args f) w)) =
    (requests w ++
     List.map (request_of args)
       (firstn (attempted env args table) table))%list.
Proof.
  revert w. induction table as [|run rest IH]; intros w.
  - simpl. now rewrite List.app_nil_r.
  - destruct (write_run_step env args f run w) as [Hr _].
    pose proof (write_run_requests env args f run w) as Hq.
    cbn [for_each attempted]. unfold bind.
    destruct (conditions_args args run) as [c|e0] eqn:Hc.
    2:{ rewrite (rate_of_conditions_raise env args run e0 Hc) in Hr.
        destruct (write_run env args f run w) as [[[]|e] w1];
          cbn [fst snd rbind] in *; [discriminate|].
        rewrite Hq. cbn [firstn List.map]. now rewrite List.app_nil_r. }
    destruct (rate_of env args run) as [r|e1] eqn:Hrate;
      destruct (write_run env args f run w) as [[[]|e] w1];
      cbn [fst snd rbind] in *; try discriminate.
    + rewrite IH, Hq. cbn [firstn List.map]. unfold request_of at 2.
      rewrite Hc. now rewrite <- List.app_assoc.
    + rewrite Hq. cbn [firstn List.map]. unfold request_of. now rewrite Hc.
Qed.

Lemma attempted_le (env : environment) (args : Namespace)
    (table : list (list pyval)) :
  (attempted env args table <= length table)%nat.
Proof.
  induction table as [|run rest IH]; cbn [attempted length]; [lia|].
  destruct (conditions_args args run); [|lia].
  destruct (rate_of env args run); lia.
Qed.

Lemma attempted_all (env : environment) (args : Namespace)
    (table : list (list pyval)) :
  snd (written env args table) = Ok tt ->
  attempted env args table = length table.
Proof.
  induction table as [|run rest IH]; cbn [attempted written length];
    [reflexivity|].
  destruct (conditions_args args run) as [c|e0] eqn:Hc.
  2:{ now rewrite (rate_of_conditions_raise env args run e0 Hc). }
  destruct (rate_of env args run) as [r|e1]; [|discriminate].
  destruct (written env args rest) as [s res]. cbn [snd] in *.
  intros H. now rewrite IH.
Qed.

(** The script sends one request per row, in the order of the table,
    each to the fixed address followed by the query string of its row;
    nothing is asked twice and no answer is kept for a later row.  The
    rows asked for are the first [attempted] ones: every row when the
    script runs to its end, and otherwise the rows up to the failing
    one (that one included when its query string could be built). *)
Theorem one_request_per_row (env : environment) (c : cmdline) (w : world)
    (table : list (list pyval)) :
  BGRate_RCDB_values env (parse_args c) (minRun (parse_args c))
    (maxRun (parse_args c)) = Ok table ->
  requests (snd (script env c w)) =
    (requests w ++
     List.map (request_of (parse_args c))
       (firstn (attempted env (parse_args c) table) table))%list /\
  (attempted env (parse_args c) table <= length table)%nat /\
  (fst (script env c w) = Ok tt ->
   attempted env (parse_args c) table = length table).
Proof.
  intros Hq. split; [|split].
  - rewrite script_requests_unfold, Hq, for_each_requests. reflexivity.
  - apply attempted_le.
  - pose proof (script_run env c w) as H. cbv zeta in H. rewrite Hq in H.
    destruct H as [Hr _]. rewrite Hr. apply attempted_all.
Qed.

Lemma one_request_per_row_witness :
  requests (snd (script (stub_env [sample_run; blocking_run] sample_page)
                   sample_cmdline empty_world)) =
    (requests empty_world ++
     List.map (request_of (parse_args sample_cmdline))
       (firstn
          (attempted (stub_env [sample_run; blocking_run] sample_page)
             (parse_args sample_cmdline) [sample_row; blocking_row])
          [sample_row; blocking_row]))%list /\
  (attempted (stub_env [sample_run; blocking_run] sample_page)
     (parse_args sample_cmdline) [sample_row; blocking_row]
   <= length [sample_row; blocking_row])%nat /\
  (fst (script (stub_env [sample_run; blocking_run] sample_page)
          sample_cmdline empty_world) = Ok tt ->
   attempted (stub_env [sample_run; blocking_run] sample_page)
     (parse_args sample_cmdline) [sample_row; blocking_row]
   = length [sample_row; blocking_row]).
Proof.
  apply (one_request_per_row
           (stub_env [sample_run; blocking_run] sample_page)
           sample_cmdline empty_world [sample_row; blocking_row]).
  vm_compute. reflexivity.
Defined.

(** *** What [CalcBGRate] reads of a row *)

Lemma conditions_reads (run run' : list pyval)
    (a1 a2 a3 a4 a5 a6 a7 a8 a9 a10 a11 : pyval) :
  (forall i, (2 <= i <= 6)%nat -> nth_error run i = nth_error run' i) ->
  conditions run a1 a2 a3 a4 a5 a6 a7 a8 a9 a10 a11 =
  conditions run' a1 a2 a3 a4 a5 a6 a7 a8 a9 a10 a11.
Proof.
  intros H. unfold conditions, milli, collimDiam, radThickness, py_index.
  rewrite (H 2%nat), (H 3%nat), (H 4%nat), (H 5%nat), (H 6%nat) by lia.
  reflexivity.
Qed.

(** [CalcBGRate] reads the values 2 to 6 of its row and nothing else:
    the run number, the event count and anything after the radiator
    type change neither the request nor the rate nor the exception. *)
Theorem only_five_values_read (env : environment) (args : Namespace)
    (run run' : list pyval) (w : world) :
  (forall i, (2 <= i <= 6)%nat -> nth_error run i = nth_error run' i) ->
  CalcBGRate_args env args run w = CalcBGRate_args env args run' w.
Proof.
  intros H. unfold CalcBGRate_args, CalcBGRate.
  now rewrite (conditions_reads run run' _ _ _ _ _ _ _ _ _ _ _ H).
Qed.

Lemma only_five_values_read_witness :
  CalcBGRate_args (stub_env [sample_run] sample_page)
    (parse_args sample_cmdline) sample_row empty_world =
  CalcBGRate_args (stub_env [sample_run] sample_page)
    (parse_args sample_cmdline) anonymous_row empty_world.
Proof.
  apply (only_five_values_read (stub_env [sample_run] sample_page)
           (parse_args sample_cmdline) sample_row anonymous_row empty_world).
  intros i Hi.
  destruct i as [|[|[|[|[|[|[|i]]]]]]]; try lia; reflexivity.
Defined.

Lemma float_arg_number (v : pyval) (x : float) :
  float_arg v = Ok x -> is_number v = true.
Proof. destruct v; simpl; congruence. Qed.

Lemma fmt_i_number (v : pyval) (t : string) :
  fmt_i v = Ok t -> is_number v = true.
Proof. destruct v; simpl; congruence. Qed.

Lemma milli_number (run : list pyval) (i : nat) (x : float) :
  milli run i = Ok x ->
  exists v, nth_error run i = Some v /\ is_number v = true.
Proof.
  unfold milli, py_index, py_mul_float.
  destruct (nth_error run i) as [v|]; cbn [rbind]; [|discriminate].
  intros H. exists v. split; [reflexivity|].
  destruct v; simpl in *; congruence.
Qed.

Lemma collimDiam_str (run : list pyval) (x : float) :
  collimDiam run = Ok x -> exists s, nth_error run 5 = Some (PyStr s).
Proof.
  unfold collimDiam, py_index.
  destruct (nth_error run 5) as [[| | |s]|]; cbn [rbind py_rstrip];
    try discriminate.
  eauto.
Qed.

Lemma radThickness_str (run : list pyval) (x : float) :
  radThickness run = Ok x -> exists s, nth_error run 6 = Some (PyStr s).
Proof.
  unfold radThickness, py_index.
  destruct (nth_error run 6) as [[| | |s]|]; cbn [rbind search_group1];
    try discriminate.
  eauto.
Qed.

(** When [CalcBGRate] returns a rate, each of the eleven physics
    values is an [int] or a [float], the row has at least seven
    values, current, energy and peak are numbers and collimator and
    radiator are strings.  A run for which the database has no value
    of one of these five conditions ([None]) is never processed. *)
Theorem rate_needs_complete_row (env : environment) (args : Namespace)
    (run : list pyval) (w : world) (r : float) :
  fst (CalcBGRate_args env args run w) = Ok r ->
  forallb is_number (physics_values args) = true /\
  exists v0 v1 bc be ep cs rs rest,
    run = v0 :: v1 :: bc :: be :: ep :: PyStr cs :: PyStr rs :: rest /\
    is_number bc = true /\ is_number be = true /\ is_number ep = true.
Proof.
  rewrite (proj1 (CalcBGRate_result env args run w)). unfold rate_of.
  destruct (conditions_args args run) as [c|] eqn:Hc; cbn [rbind];
    [|discriminate].
  intros _.
  apply conditions_ok in Hc
    as (be & bc & emittance & rt & ep & nbins & emax & emin & distance
        & cd & pl & ph & bl & bh & el & eh & H1 & H2 & H3 & H4 & H5 & H6
        & H7 & H8 & H9 & H10 & H11 & Hbc & Hbe & Hep & Hcd & Hrt & _).
  split.
  - unfold physics_values. cbn [forallb].
    rewrite (float_arg_number _ _ H1), (fmt_i_number _ _ H2),
      (float_arg_number _ _ H3), (float_arg_number _ _ H4),
      (float_arg_number _ _ H5), (float_arg_number _ _ H6),
      (float_arg_number _ _ H7), (float_arg_number _ _ H8),
      (float_arg_number _ _ H9), (float_arg_number _ _ H10),
      (float_arg_number _ _ H11).
    reflexivity.
  - apply milli_number in Hbc as (v2 & Hv2 & Hn2).
    apply milli_number in Hbe as (v3 & Hv3 & Hn3).
    apply milli_number in Hep as (v4 & Hv4 & Hn4).
    apply collimDiam_str in Hcd as (cs & Hcs).
    apply radThickness_str in Hrt as (rs & Hrs).
    destruct run as [|v0 [|v1 [|x2 [|x3 [|x4 [|x5 [|x6 rest]]]]]]];
      try discriminate.
    cbn [nth_error] in *.
    inversion Hv2; inversion Hv3; inversion Hv4; inversion Hcs;
      inversion Hrs; subst.
    exists v0, v1, v2, v3, v4, cs, rs, rest. auto.
Qed.

Lemma rate_needs_complete_row_witness :
  forallb is_number (physics_values (parse_args sample_cmdline)) = true /\
  exists v0 v1 bc be ep cs rs rest,
    sample_row = v0 :: v1 :: bc :: be :: ep :: PyStr cs :: PyStr rs :: rest /\
    is_number bc = true /\ is_number be = true /\ is_number ep = true.
Proof.
  apply (rate_needs_complete_row (stub_env [sample_run] sample_page)
           (parse_args sample_cmdline) sample_row empty_world
           (fmul (float_lit "1.23E+05") (pow10_neg 9))).
  vm_compute. reflexivity.
Defined.

(** *** The unit of the collimator text *)

(** The unit behind the collimator diameter is not checked:
    [rstrip('mm hole')] removes any trailing run of the characters
    [m], space, [h], [o], [l] and [e], so ["3.4mm"], ["3.4 hole"] and
    ["3.4 mm hole"] all give 3.4, and the number in front is never
    cut, since no float literal ends with one of these characters. *)
Theorem collimator_unit_not_checked (run : list pyval) (t u : string)
    (v : float) :
  str_all (fun c => str_mem c "mm hole") u = true ->
  nth_error run 5 = Some (PyStr (t ++ u)) ->
  float_of_string t = Ok v ->
  collimDiam run = Ok (fmul v (pow10_neg 3)).
Proof.
  intros Hu Hrun Hv. unfold collimDiam, py_index.
  rewrite Hrun. cbn [rbind py_rstrip].
  rewrite (float_of_string_rstrip "mm hole" t u v); auto.
  apply literal_end_not_mm_hole.
Qed.

Lemma collimator_unit_not_checked_witness :
  collimDiam short_unit_row = Ok (fmul (float_lit "3.4") (pow10_neg 3)).
Proof.
  apply (collimator_unit_not_checked short_unit_row "3.4" "mm"
           (float_lit "3.4")); reflexivity.
Defined.

(** *** The defaults of the signature and of the command line *)

Lemma signature_default_strings :
  percent_g "&photonEmax=" (PyFloat (float_lit "12.0"))
    = Ok "&photonEmax=12" /\
  percent_g "&photonEmin=" (PyFloat (float_lit "3.0"))
    = Ok "&photonEmin=3" /\
  percent_g "&collimDistance=" (PyFloat (float_lit "76.0"))
    = Ok "&collimDistance=76" /\
  percent_g "&backEhigh=" (PyFloat (float_lit "3.0"))
    = Ok "&backEhigh=3" /\
  percent_g "&endpElow=" (PyFloat (float_lit "10.0"))
    = Ok "&endpElow=10".
Proof. vm_compute. repeat split; reflexivity. Qed.

(** The defaults of the signature of [CalcBGRate] (line 69) and the
    defaults of the command-line options (lines 33-43) are written
    differently (12.0 and 12, 3.0 and 3, ...) but give the same
    request: a call [CalcBGRate(run)] does what the script does for
    [run] when no physics option is given. *)
Theorem signature_defaults_agree (env : environment) (c : cmdline)
    (run : list pyval) (w : world) :
  CalcBGRate_defaults env run w =
  CalcBGRate_args env (parse_args (defaults_only c)) run w.
Proof.
  unfold CalcBGRate_defaults, CalcBGRate_args, CalcBGRate.
  assert (E : conditions run (PyFloat (float_lit "10e-09")) (PyInt 2000)
                (PyFloat (float_lit "12.0")) (PyFloat (float_lit "3.0"))
                (PyFloat (float_lit "76.0")) (PyFloat (float_lit "8.4"))
                (PyInt 9) (PyFloat (float_lit "0.1"))
                (PyFloat (float_lit "3.0")) (PyFloat (float_lit "10.0"))
                (PyFloat (float_lit "11.7")) =
              conditions_args (parse_args (defaults_only c)) run).
  { rewrite conditions_defaults.
    destruct default_strings
      as (E1 & E2 & _ & _ & _ & E6 & E7 & E8 & _ & _ & E11).
    destruct signature_default_strings as (E3 & E4 & E5 & E9 & E10).
    unfold conditions, default_conditions.
    rewrite E1, E2, E3, E4, E5, E6, E7, E8, E9, E10, E11. cbn [rbind].
    destruct (milli run 2) as [bc|]; [|reflexivity].
    destruct (milli run 3) as [be|]; [|reflexivity].
    destruct (milli run 4) as [ep|]; [|reflexivity].
    destruct (collimDiam run) as [cd|]; [|reflexivity].
    destruct (radThickness run) as [rt|]; reflexivity. }
  unfold conditions_args in E. now rewrite E.
Qed.

(** *** When the script succeeds *)

(** The script ends with exit status 0 exactly when the database
    answers the query and [CalcBGRate] returns a rate for every row of
    the answer: no row is skipped, and the first row without a rate
    ends the run. *)
Theorem exit_zero_iff_every_row_rated (env : environment) (c : cmdline)
    (w : world) :
  exit_status (fst (script env c w)) = 0 <->
  exists table,
    BGRate_RCDB_values env (parse_args c) (minRun (parse_args c))
      (maxRun (parse_args c)) = Ok table /\
    Forall (fun run =>
              exists r, forall w',
                fst (CalcBGRate_args env (parse_args c) run w') = Ok r)
           table.
Proof.
  pose proof (script_run env c w) as H. cbv zeta in H.
  destruct (BGRate_RCDB_values env (parse_args c) (minRun (parse_args c))
              (maxRun (parse_args c))) as [table|e]; destruct H as [Hr _];
    rewrite Hr.
  - split.
    + intros Hz.
      assert (Hok : snd (written env (parse_args c) table) = Ok tt).
      { destruct (snd (written env (parse_args c) table)) as [[]|];
          [reflexivity | discriminate]. }
      exists table. split; [reflexivity|].
      destruct (written_ok env _ table Hok) as [_ Hall].
      revert Hall. apply List.Forall_impl. intros run [r Hrate].
      exists r. intros w'.
      now rewrite (proj1 (CalcBGRate_result env _ run w')).
    + intros (table' & Heq & Hall). inversion Heq; subst table'.
      assert (Hall' : Forall (fun run =>
                  exists r, rate_of env (parse_args c) run = Ok r) table).
      { revert Hall. apply List.Forall_impl. intros run [r Hrate].
        exists r. now rewrite <- (proj1 (CalcBGRate_result env _ run w)). }
      pose proof (written_until env (parse_args c) table [] Hall') as Hw.
      rewrite List.app_nil_r in Hw. rewrite Hw. reflexivity.
  - split; [discriminate|]. intros (table & Heq & _). discriminate.
Qed.

Lemma exit_zero_iff_every_row_rated_witness :
  exit_status
    (fst (script (stub_env [sample_run] sample_page) sample_cmdline
            empty_world)) = 0.
Proof.
  apply (proj2 (exit_zero_iff_every_row_rated
                  (stub_env [sample_run] sample_page) sample_cmdline
                  empty_world)).
  exists [sample_row]. split; [reflexivity|].
  constructor; [|constructor].
  exists (fmul (float_lit "1.23E+05") (pow10_neg 9)). intros w'.
  rewrite (proj1 (CalcBGRate_result _ _ _ w')). vm_compute. reflexivity.
Defined.

(** *** Integers written and read back *)

Lemma digits_val_acc_pos (d : Decimal.uint) (acc : positive) :
  digits_val_acc (Z.pos acc) (NilEmpty.string_of_uint d) =
  Z.pos (Pos.of_uint_acc d acc).
Proof.
  revert acc.
  induction d as [|d IH|d IH|d IH|d IH|d IH|d IH|d IH|d IH|d IH|d IH];
    intros acc; cbn [NilEmpty.string_of_uint digits_val_acc Pos.of_uint_acc];
    [reflexivity|..]; rewrite <- IH; f_equal; unfold digit_val, code;
    cbn [N_of_ascii N_of_digits]; lia.
Qed.

Lemma digits_val_string_of_uint (d : Decimal.uint) :
  digits_val (NilEmpty.string_of_uint d) = Z.of_N (N.of_uint d).
Proof.
  unfold digits_val, N.of_uint.
  induction d as [|d IH|d IH|d IH|d IH|d IH|d IH|d IH|d IH|d IH|d IH];
    cbn [NilEmpty.string_of_uint digits_val_acc Pos.of_uint];
    [reflexivity | exact IH | ..];
    cbn [Z.of_N]; rewrite <- digits_val_acc_pos; reflexivity.
Qed.

Lemma dec_digits_value (n : Z) : 0 <= n -> digits_val (dec_digits n) = n.
Proof.
  intros Hn. unfold dec_digits, NilZero.string_of_uint.
  destruct (N.to_uint (Z.to_N n)) eqn:E;
    try (rewrite <- E, digits_val_string_of_uint,
           DecimalN.Unsigned.of_to; lia).
  destruct (Z.to_N n) as [|p]; [discriminate|].
  now apply DecimalPos.Unsigned.to_uint_nonnil in E.
Qed.

Lemma dec_digits_not_empty (n : Z) : is_empty (dec_digits n) = false.
Proof.
  unfold dec_digits, NilZero.string_of_uint.
  destruct (N.to_uint (Z.to_N n)); reflexivity.
Qed.

Lemma dec_digits_head (n : Z) :
  exists c s, dec_digits n = String c s /\ is_digit c = true.
Proof.
  pose proof (dec_digits_digits n) as Hd.
  pose proof (dec_digits_not_empty n) as Hne.
  destruct (dec_digits n) as [|c s]; [discriminate|].
  cbn [str_all] in Hd. apply andb_true_iff in Hd as [Hc _]. eauto.
Qed.

Lemma digit_plain (c : ascii) :
  is_digit c = true ->
  is_space c = false /\ Ascii.eqb c "-" = false /\ Ascii.eqb c "+" = false.
Proof.
  unfold is_digit, is_space. intros [H1 H2]%andb_true_iff.
  apply N.leb_le in H1. apply N.leb_le in H2.
  repeat split.
  - apply orb_false_iff. split.
    + apply andb_false_iff. right. apply N.leb_gt. lia.
    + apply N.eqb_neq. lia.
  - destruct (Ascii.eqb_spec c "-") as [->|]; [|reflexivity].
    vm_compute in H1. now destruct H1.
  - destruct (Ascii.eqb_spec c "+") as [->|]; [|reflexivity].
    vm_compute in H1. now destruct H1.
Qed.

Lemma int_of_dec_digits (neg : bool) (n : Z) :
  0 <= n ->
  (let '(ds, s2) := span is_digit (lstrip_class is_space (dec_digits n)) in
   if is_empty ds then Raise ValueError
   else if is_empty (lstrip_class is_space s2)
        then Ok (cond_Zopp neg (digits_val ds))
        else Raise ValueError) = Ok (cond_Zopp neg n).
Proof.
  intros Hn. destruct (dec_digits_head n) as (c & s & E & Hc).
  destruct (digit_plain c Hc) as (Hsp & _ & _).
  rewrite lstrip_class_id by (rewrite E; exact Hsp).
  pose proof (span_app is_digit (dec_digits n) "" (dec_digits_digits n)
                eq_refl) as Hspan.
  rewrite append_nil_r in Hspan. rewrite Hspan.
  rewrite dec_digits_not_empty. cbn [lstrip_class is_empty].
  now rewrite dec_digits_value.
Qed.

(** [int] reads back what [str] and ['%i'] write for an integer. *)
Lemma int_of_string_of_Z (n : Z) : int_of_string (string_of_Z n) = Ok n.
Proof.
  unfold int_of_string, string_of_Z.
  destruct (Z.ltb_spec n 0) as [Hneg|Hpos].
  - cbn [lstrip_class is_space parse_sign].
    change (is_space "-") with false. cbn iota.
    cbn [parse_sign]. change (Ascii.eqb "-" "-") with true. cbn iota.
    rewrite (int_of_dec_digits true (- n)) by lia.
    cbn [cond_Zopp]. f_equal. lia.
  - destruct (dec_digits_head n) as (c & s & E & Hc).
    destruct (digit_plain c Hc) as (Hsp & Hm & Hp).
    rewrite (lstrip_class_id is_space (dec_digits n))
      by (rewrite E; exact Hsp).
    assert (Hsign : parse_sign (dec_digits n) = (false, dec_digits n)).
    { rewrite E. cbn [parse_sign]. now rewrite Hm, Hp. }
    rewrite Hsign. exact (int_of_dec_digits false n Hpos).
Qed.

Lemma split_on_first (sep : ascii) (a rest : string) :
  str_all (fun c => negb (Ascii.eqb c sep)) a = true ->
  split_on sep (a ++ String sep rest) = a :: split_on sep rest.
Proof.
  induction a as [|c a IH]; intros H.
  - cbn [String.append split_on]. now rewrite Ascii.eqb_refl.
  - cbn [str_all] in H. apply andb_true_iff in H as [Hc Ha].
    apply negb_true_iff in Hc.
    cbn [String.append split_on]. rewrite Hc. now rewrite (IH Ha).
Qed.

(** The run number comes back from the output file: [int] of the
    first comma-separated field of the line of a row the database
    returned is the number of its run, negative numbers included.
    The one table without run numbers is the row without values of an
    empty selection, for which no line is written. *)
Theorem run_number_read_back (env : environment) (args : Namespace)
    (lo hi : pyval) (table : list (list pyval)) :
  BGRate_RCDB_values env args lo hi = Ok table ->
  table = [[]] \/
  Forall (fun run =>
            exists n,
              nth_error run 0 = Some (PyInt n) /\
              forall r,
                py_int (PyStr (first_field (data_line run r))) = Ok n)
         table.
Proof.
  intros Hq.
  destruct (rows_have_seven_values env args lo hi table Hq) as [H|H];
    [now left | right].
  revert H. apply List.Forall_impl. intros run (_ & n & Hn).
  exists n. split; [exact Hn|]. intros r.
  destruct run as [|v run]; [discriminate|].
  cbn [nth_error] in Hn. inversion Hn; subst v.
  unfold first_field, data_line. rewrite runToWrite_cons.
  cbn [py_str]. rewrite !append_assoc.
  cbn [String.append].
  rewrite split_on_first.
  - cbn [hd py_int]. apply int_of_string_of_Z.
  - assert (Hs : str_all csv_safe (py_str (PyInt n)) = true)
      by (apply py_str_safe; discriminate).
    revert Hs. apply str_all_impl. unfold csv_safe.
    now intros ch [-> _]%andb_true_iff.
Qed.

Lemma run_number_read_back_witness :
  [sample_row; blocking_row] = [[]] \/
  Forall (fun run =>
            exists n,
              nth_error run 0 = Some (PyInt n) /\
              forall r,
                py_int (PyStr (first_field (data_line run r))) = Ok n)
         [sample_row; blocking_row].
Proof.
  apply (run_number_read_back
           (stub_env [sample_run; blocking_run] sample_page)
           (parse_args sample_cmdline) (PyStr "30000") (PyStr "30001")
           [sample_row; blocking_row]).
  vm_compute. reflexivity.
Defined.

(** *** The run range *)

(** With the path and the two run bounds given as decimal numbers [a]
    and [b], the script opens the database under ["sqlite:///"]
    followed by the path, asks it once for the production runs with
    approved status from [a] to [b], lower bound first, and names its
    output file after the two bounds. *)
Theorem run_range_query (env : environment) (c : cmdline) (path : string)
    (a b : Z) (db : database) :
  opt_p c = Some path ->
  opt_minRun c = Some (string_of_Z a) ->
  opt_maxRun c = Some (string_of_Z b) ->
  RCDBProvider env ("sqlite:///" ++ path) = Ok db ->
  BGRate_RCDB_values env (parse_args c) (minRun (parse_args c))
    (maxRun (parse_args c)) =
    (runs <- db "@is_production and @status_approved" a b ;;
     Ok (get_values valueList true runs)) /\
  fileName (parse_args c) =
    "BGRateRCDBValue_" ++ string_of_Z a ++ "-" ++ string_of_Z b ++ ".csv".
Proof.
  intros Hp Ha Hb Hdb.
  unfold BGRate_RCDB_values, fileName, parse_args.
  cbn [pathToRCDB minRun maxRun]. rewrite Hp, Ha, Hb.
  cbn [store py_concat rbind py_int py_str]. rewrite Hdb. cbn [rbind].
  rewrite !int_of_string_of_Z. cbn [rbind]. split; reflexivity.
Qed.

Lemma run_range_query_witness :
  BGRate_RCDB_values (stub_env [sample_run; blocking_run] sample_page)
    (parse_args sample_cmdline) (minRun (parse_args sample_cmdline))
    (maxRun (parse_args sample_cmdline)) =
    (runs <- (fun _ lo hi =>
                Ok (List.filter
                      (fun r => (lo <=? run_number r) && (run_number r <=? hi))
                      [sample_run; blocking_run]))
               "@is_production and @status_approved" 30000 30001 ;;
     Ok (get_values valueList true runs)) /\
  fileName (parse_args sample_cmdline) =
    "BGRateRCDBValue_" ++ string_of_Z 30000 ++ "-" ++ string_of_Z 30001 ++
    ".csv".
Proof.
  apply (run_range_query (stub_env [sample_run; blocking_run] sample_page)
           sample_cmdline "/data/rcdb.sqlite" 30000 30001);
    reflexivity.
Defined.

(** ** An empty selection *)

Lemma conditions_empty_row (args : Namespace) :
  exists e,
    conditions_args args [] = Raise e /\ (e = IndexError \/ e = TypeError).
Proof.
  unfold conditions_args, conditions.
  repeat match goal with
  | |- context [rbind (percent_g ?b ?v) _] =>
      let E := fresh "E" in
      destruct (percent_g b v) as [?s|?e] eqn:E; cbn [rbind];
        [|apply percent_g_raise in E; subst; exists TypeError;
           split; [reflexivity | now right]]
  | |- context [rbind (percent_i ?b ?v) _] =>
      let E := fresh "E" in
      destruct (percent_i b v) as [?s|?e] eqn:E; cbn [rbind];
        [|apply percent_i_raise in E; subst; exists TypeError;
           split; [reflexivity | now right]]
  end.
  exists IndexError. split; [reflexivity | now left].
Qed.

Lemma no_option_conditions (c : cmdline) (run : list pyval) :
  Forall (fun o => o = None) (physics_options c) ->
  conditions_args (parse_args c) run = default_conditions run.
Proof.
  intros H. rewrite List.Forall_forall in H.
  rewrite <- (conditions_defaults c run).
  unfold conditions_args, parse_args, defaults_only.
  cbn [beamEmittance photonNbins photonEmax photonEmin collimDistance
       peakElow peakEhigh backElow backEhigh endpElow endpEhigh
       opt_beamEmittance opt_photonNbins opt_photonEmax opt_photonEmin
       opt_collimDistance opt_peakElow opt_peakEhigh opt_backElow
       opt_backEhigh opt_endpElow opt_endpEhigh].
  rewrite (H (opt_beamEmittance c)), (H (opt_photonNbins c)),
    (H (opt_photonEmax c)), (H (opt_photonEmin c)),
    (H (opt_collimDistance c)), (H (opt_peakElow c)),
    (H (opt_peakEhigh c)), (H (opt_backElow c)), (H (opt_backEhigh c)),
    (H (opt_endpElow c)), (H (opt_endpEhigh c));
    first [reflexivity | unfold physics_options; cbn [In]; auto 20].
Qed.

(** C7: when the database selects no run in the range, [get_values]
    answers with one row without values, the loop calls [CalcBGRate]
    on it, and [table[2]] (line 83) raises [IndexError] (a
    [TypeError] comes first when a physics option is given): the
    script ends with exit status 1, not 0, before any request; the
    output file does hold the header line and nothing else. *)
Theorem empty_selection_aborts (env : environment) (c : cmdline) (w : world)
    (path : string) (db : database) (lo hi : Z) :
  opt_p c = Some path ->
  RCDBProvider env ("sqlite:///" ++ path) = Ok db ->
  py_int (minRun (parse_args c)) = Ok lo ->
  py_int (maxRun (parse_args c)) = Ok hi ->
  db "@is_production and @status_approved" lo hi = Ok [] ->
  BGRate_RCDB_values env (parse_args c) (minRun (parse_args c))
    (maxRun (parse_args c)) = Ok [[]] /\
  (exists e,
     fst (script env c w) = Raise e /\
     (e = IndexError \/ e = TypeError) /\
     (Forall (fun o => o = None) (physics_options c) -> e = IndexError)) /\
  exit_status (fst (script env c w)) = 1 /\
  files (snd (script env c w)) !! fileName (parse_args c) = Some header /\
  requests (snd (script env c w)) = requests w.
Proof.
  intros Hp Hdb Hlo Hhi Hsel.
  assert (Htable : BGRate_RCDB_values env (parse_args c)
                     (minRun (parse_args c)) (maxRun (parse_args c))
                   = Ok [[]]).
  { unfold BGRate_RCDB_values.
    replace (pathToRCDB (parse_args c)) with (PyStr path)
      by (unfold parse_args; cbn [pathToRCDB]; now rewrite Hp).
    cbn [py_concat rbind]. rewrite Hdb. cbn [rbind].
    rewrite Hlo, Hhi. cbn [rbind]. rewrite Hsel. reflexivity. }
  destruct (conditions_empty_row (parse_args c)) as (e & Hc & He).
  pose proof (script_run env c w) as H. cbv zeta in H. rewrite Htable in H.
  cbn [written] in H.
  rewrite (rate_of_conditions_raise env _ [] e Hc) in H.
  cbn [fst snd] in H. destruct H as [Hr Hf].
  split; [exact Htable|]. split; [|split; [|split]].
  - exists e. split; [exact Hr|]. split; [exact He|].
    intros Hnone. rewrite (no_option_conditions c [] Hnone) in Hc.
    now inversion Hc.
  - now rewrite Hr.
  - rewrite Hf, append_nil_r. apply lookup_insert_eq.
  - rewrite script_requests_unfold, Htable, for_each_requests.
    cbn [attempted]. rewrite Hc. cbn [firstn List.map].
    apply List.app_nil_r.
Qed.

Lemma empty_selection_aborts_witness :
  BGRate_RCDB_values (stub_env [sample_run] sample_page)
    (parse_args early_range_cmdline) (PyStr "1") (PyStr "2") = Ok [[]] /\
  fst (script (stub_env [sample_run] sample_page) early_range_cmdline
         empty_world) = Raise IndexError /\
  exit_status
    (fst (script (stub_env [sample_run] sample_page) early_range_cmdline
            empty_world)) = 1 /\
  files (snd (script (stub_env [sample_run] sample_page) early_range_cmdline
                empty_world))
    !! fileName (parse_args early_range_cmdline) = Some header /\
  requests (snd (script (stub_env [sample_run] sample_page)
                   early_range_cmdline empty_world)) = [].
Proof.
  destruct (empty_selection_aborts (stub_env [sample_run] sample_page)
              early_range_cmdline empty_world "/data/rcdb.sqlite"
              (fun _ lo hi =>
                 Ok (List.filter
                       (fun r => (lo <=? run_number r) && (run_number r <=? hi))
                       [sample_run]))
              1 2 eq_refl eq_refl eq_refl eq_refl eq_refl)
    as (Htable & (e & Hr & _ & Hidx) & Hexit & Hfile & Hreq).
  split; [exact Htable|]. split; [|auto].
  rewrite Hr. f_equal. apply Hidx.
  repeat constructor.
Defined.

(** ** The lines of the output file, row by row *)

Lemma written_processed (env : environment) (args : Namespace)
    (table : list (list pyval)) :
  fst (written env args table) =
    join_lines (List.map (line_of env args) (processed env args table)) /\
  Forall (fun run => In run table /\ exists r, rate_of env args run = Ok r)
         (processed env args table) /\
  (snd (written env args table) = Ok tt -> processed env args table = table).
Proof.
  induction table as [|run rest (IHw & IHp & IHt)];
    cbn [written processed]; [auto|].
  assert (Hl : forall r, rate_of env args run = Ok r ->
                         line_of env args run = line_text run r).
  { intros r Hr. unfold line_of. now rewrite Hr. }
  destruct (rate_of env args run) as [r|e] eqn:Hr.
  2:{ cbn [fst snd List.map join_lines fold_right].
      split; [reflexivity|]. split; [constructor | discriminate]. }
  destruct (written env args rest) as [s res]. cbn [fst snd] in *.
  split; [|split].
  - cbn [List.map join_lines fold_right]. fold (join_lines).
    rewrite (Hl r eq_refl), data_line_text, IHw.
    now rewrite append_assoc.
  - constructor.
    + split; [now left | eauto].
    + revert IHp. apply List.Forall_impl. intros x [Hin Hx].
      split; [now right | exact Hx].
  - intros Hres. now rewrite (IHt Hres).
Qed.

Lemma py_str_no_nl (v : pyval) :
  (forall s, v = PyStr s ->
             str_all (fun c => negb (Ascii.eqb c "010")) s = true) ->
  str_all (fun c => negb (Ascii.eqb c "010")) (py_str v) = true.
Proof.
  intros Hs. destruct v as [|n|x|s].
  - reflexivity.
  - apply safe_no_nl, py_str_safe. discriminate.
  - apply safe_no_nl, py_str_safe. discriminate.
  - now apply Hs.
Qed.

Lemma line_text_no_nl (run : list pyval) (r : float) :
  lf_free_row run ->
  str_all (fun c => negb (Ascii.eqb c "010")) (line_text run r) = true.
Proof.
  intros H. unfold line_text.
  rewrite str_all_app, (safe_no_nl _ (format_g_safe r)), andb_true_r.
  induction run as [|v run IH]; [reflexivity|].
  rewrite runToWrite_cons, !str_all_app.
  rewrite py_str_no_nl by (intros s ->; apply H; now left).
  rewrite IH by (intros s Hin; apply H; now right).
  reflexivity.
Qed.

Lemma line_text_not_header (n : Z) (rest : list pyval) (r : float) :
  line_text (PyInt n :: rest) r <> header_text.
Proof.
  unfold line_text. rewrite runToWrite_cons. cbn [py_str].
  unfold string_of_Z. destruct (n <? 0).
  - cbn [String.append]. discriminate.
  - destruct (dec_digits_head n) as (ch & s & E & Hch). rewrite E.
    cbn [String.append]. unfold header_text. intros Heq.
    inversion Heq; subst ch. discriminate.
Qed.

Lemma rate_of_empty_row (env : environment) (args : Namespace) (r : float) :
  rate_of env args [] <> Ok r.
Proof.
  destruct (conditions_empty_row args) as (e & Hc & _).
  now rewrite (rate_of_conditions_raise env args [] e Hc).
Qed.

(** C8 (amended): whatever the table and however the run ends, the
    output file is the header followed by the lines of the rows the
    loop got through, in the order of the database.  The line of such
    a row is the text of its values, a comma after each, and the rate;
    it differs from the header; and when the strings of the row hold
    no comma and no line feed it has exactly 8 comma-separated fields,
    whatever the other rows hold.  When no string of the rows written
    holds a line feed, the lines of the file are the header, once and
    first, and one line per such row: two lines for one row. *)
Theorem eight_fields_per_line (env : environment) (c : cmdline) (w : world)
    (table : list (list pyval)) :
  let args := parse_args c in
  let done := processed env args table in
  let content := header ++ join_lines (List.map (line_of env args) done) in
  BGRate_RCDB_values env args (minRun args) (maxRun args) = Ok table ->
  files (snd (script env c w)) !! fileName args = Some content /\
  (fst (script env c w) = Ok tt -> done = table) /\
  Forall (fun run =>
            exists r,
              fst (CalcBGRate_args env args run w) = Ok r /\
              line_of env args run = runToWrite run ++ format_g r /\
              line_of env args run <> header_text /\
              (safe_row run ->
               List.length (split_on "," (line_of env args run)) = 8%nat))
         done /\
  (Forall lf_free_row done ->
   file_lines content = header_text :: List.map (line_of env args) done /\
   List.length (file_lines content) = S (List.length done)).
Proof.
  intros args done content Hq.
  pose proof (script_run env c w) as H. cbv zeta in H. fold args in H.
  rewrite Hq in H. destruct H as [Hr Hf].
  destruct (written_processed env args table) as (Hw & Hdone & Hall).
  fold done in Hw, Hdone, Hall.
  pose proof (rows_have_seven_values env args _ _ _ Hq) as Hseven.
  split; [|split; [|split]].
  - rewrite Hf, Hw. apply lookup_insert_eq.
  - rewrite Hr. exact Hall.
  - revert Hdone. apply List.Forall_impl. intros run (Hin & r & Hrate).
    assert (Hshape : List.length run = 7%nat /\
                     exists n, nth_error run 0 = Some (PyInt n)).
    { destruct Hseven as [->|Hseven].
      - destruct Hin as [<-|[]]. now destruct (rate_of_empty_row env args r).
      - rewrite List.Forall_forall in Hseven. now apply Hseven. }
    destruct Hshape as (Hlen & n & Hn).
    assert (Hline : line_of env args run = line_text run r)
      by (unfold line_of; now rewrite Hrate).
    exists r. rewrite (proj1 (CalcBGRate_result env args run w)), Hline.
    split; [exact Hrate|]. split; [reflexivity|]. split.
    + destruct run as [|v rest]; [discriminate|].
      cbn [nth_error] in Hn. inversion Hn; subst v.
      apply line_text_not_header.
    + intros Hsafe.
      rewrite (proj1 (line_text_fields run r Hsafe)), Hlen. reflexivity.
  - intros Hfree.
    assert (Hsplit : file_lines content
                     = header_text :: List.map (line_of env args) done).
    { unfold content. rewrite header_is_a_line, append_assoc.
      apply (file_lines_join (header_text :: _)).
      constructor; [reflexivity|].
      apply List.Forall_forall. intros l Hl.
      apply in_map_iff in Hl as (run & <- & Hin).
      rewrite List.Forall_forall in Hdone, Hfree.
      destruct (Hdone run Hin) as (_ & r & Hrate).
      unfold line_of. rewrite Hrate.
      apply line_text_no_nl, Hfree, Hin. }
    split; [exact Hsplit|].
    rewrite Hsplit. cbn [List.length]. now rewrite List.length_map.
Qed.

Lemma eight_fields_per_line_witness :
  (files (snd (script (stub_env [sample_run; blocking_run] sample_page) sample_cmdline empty_world))
     !! fileName (parse_args sample_cmdline) = Some (header ++ join_lines (List.map (line_of (stub_env [sample_run; blocking_run] sample_page) (parse_args sample_cmdline)) (processed (stub_env [sample_run; blocking_run] sample_page) (parse_args sample_cmdline) [sample_row; blocking_row]))) /\
   (fst (script (stub_env [sample_run; blocking_run] sample_page) sample_cmdline empty_world) = Ok tt ->
    (processed (stub_env [sample_run; blocking_run] sample_page) (parse_args sample_cmdline) [sample_row; blocking_row]) = [sample_row; blocking_row]) /\
   Forall (fun run =>
             exists r,
               fst (CalcBGRate_args (stub_env [sample_run; blocking_run] sample_page) (parse_args sample_cmdline) run empty_world) = Ok r /\
               line_of (stub_env [sample_run; blocking_run] sample_page) (parse_args sample_cmdline) run = runToWrite run ++ format_g r /\
               line_of (stub_env [sample_run; blocking_run] sample_page) (parse_args sample_cmdline) run <> header_text /\
               (safe_row run ->
                List.length (split_on "," (line_of (stub_env [sample_run; blocking_run] sample_page) (parse_args sample_cmdline) run))
                  = 8%nat))
          (processed (stub_env [sample_run; blocking_run] sample_page) (parse_args sample_cmdline) [sample_row; blocking_row]) /\
   (Forall lf_free_row (processed (stub_env [sample_run; blocking_run] sample_page) (parse_args sample_cmdline) [sample_row; blocking_row]) ->
    file_lines (header ++ join_lines (List.map (line_of (stub_env [sample_run; blocking_run] sample_page) (parse_args sample_cmdline)) (processed (stub_env [sample_run; blocking_run] sample_page) (parse_args sample_cmdline) [sample_row; blocking_row])))
      = header_text :: List.map (line_of (stub_env [sample_run; blocking_run] sample_page) (parse_args sample_cmdline)) (processed (stub_env [sample_run; blocking_run] sample_page) (parse_args sample_cmdline) [sample_row; blocking_row]) /\
    List.length (file_lines (header ++ join_lines (List.map (line_of (stub_env [sample_run; blocking_run] sample_page) (parse_args sample_cmdline)) (processed (stub_env [sample_run; blocking_run] sample_page) (parse_args sample_cmdline) [sample_row; blocking_row])))) = S (List.length (processed (stub_env [sample_run; blocking_run] sample_page) (parse_args sample_cmdline) [sample_row; blocking_row])))) /\
  (files (snd (script (stub_env [comma_run; later_run] sample_page) sample_cmdline empty_world))
     !! fileName (parse_args sample_cmdline) = Some (header ++ join_lines (List.map (line_of (stub_env [comma_run; later_run] sample_page) (parse_args sample_cmdline)) (processed (stub_env [comma_run; later_run] sample_page) (parse_args sample_cmdline) [comma_row; later_row]))) /\
   (fst (script (stub_env [comma_run; later_run] sample_page) sample_cmdline empty_world) = Ok tt ->
    (processed (stub_env [comma_run; later_run] sample_page) (parse_args sample_cmdline) [comma_row; later_row]) = [comma_row; later_row]) /\
   Forall (fun run =>
             exists r,
               fst (CalcBGRate_args (stub_env [comma_run; later_run] sample_page) (parse_args sample_cmdline) run empty_world) = Ok r /\
               line_of (stub_env [comma_run; later_run] sample_page) (parse_args sample_cmdline) run = runToWrite run ++ format_g r /\
               line_of (stub_env [comma_run; later_run] sample_page) (parse_args sample_cmdline) run <> header_text /\
               (safe_row run ->
                List.length (split_on "," (line_of (stub_env [comma_run; later_run] sample_page) (parse_args sample_cmdline) run))
                  = 8%nat))
          (processed (stub_env [comma_run; later_run] sample_page) (parse_args sample_cmdline) [comma_row; later_row]) /\
   (Forall lf_free_row (processed (stub_env [comma_run; later_run] sample_page) (parse_args sample_cmdline) [comma_row; later_row]) ->
    file_lines (header ++ join_lines (List.map (line_of (stub_env [comma_run; later_run] sample_page) (parse_args sample_cmdline)) (processed (stub_env [comma_run; later_run] sample_page) (parse_args sample_cmdline) [comma_row; later_row])))
      = header_text :: List.map (line_of (stub_env [comma_run; later_run] sample_page) (parse_args sample_cmdline)) (processed (stub_env [comma_run; later_run] sample_page) (parse_args sample_cmdline) [comma_row; later_row]) /\
    List.length (file_lines (header ++ join_lines (List.map (line_of (stub_env [comma_run; later_run] sample_page) (parse_args sample_cmdline)) (processed (stub_env [comma_run; later_run] sample_page) (parse_args sample_cmdline) [comma_row; later_row])))) = S (List.length (processed (stub_env [comma_run; later_run] sample_page) (parse_args sample_cmdline) [comma_row; later_row])))).
Proof.
  split.
  - apply (eight_fields_per_line (stub_env [sample_run; blocking_run] sample_page)
             sample_cmdline empty_world [sample_row; blocking_row]).
    vm_compute. reflexivity.
  - apply (eight_fields_per_line (stub_env [comma_run; later_run] sample_page)
             sample_cmdline empty_world [comma_row; later_row]).
    vm_compute. reflexivity.
Defined.

(** The two tables of the example above: the clean row written before
    the row that fails, and the clean row that shares its table with a
    row whose radiator text holds a comma. *)
Lemma clean_rows_have_eight_fields :
  processed (stub_env [sample_run; blocking_run] sample_page) (parse_args sample_cmdline) [sample_row; blocking_row] = [sample_row] /\
  line_of (stub_env [sample_run; blocking_run] sample_page) (parse_args sample_cmdline) sample_row
    = "30000,1234567,1000.0,11608.7,9000.0,5 mm hole,Be 750,0.000123" /\
  processed (stub_env [comma_run; later_run] sample_page) (parse_args sample_cmdline) [comma_row; later_row] = [comma_row; later_row] /\
  line_of (stub_env [comma_run; later_run] sample_page) (parse_args sample_cmdline) later_row
    = "30001,1234567,1000.0,11608.7,9000.0,5 mm hole,Be 750,0.000123" /\
  List.length
    (split_on ","
       "30001,1234567,1000.0,11608.7,9000.0,5 mm hole,Be 750,0.000123")
    = 8%nat.
Proof. vm_compute. repeat split; reflexivity. Qed.
